(** * trufflex: a shallow embedding of [trufflex.py]

    The script drives the [trufflehog] scanner over GitHub repositories and
    Docker Hub images and exports the findings.  The embedding follows the
    script function by function.  Everything the script reaches outside
    itself (the file system, HTTP, child processes, standard output) is an
    explicit [world] that is threaded through a small state-and-error monad;
    the library parsers it calls ([yaml.safe_load], [json.loads],
    [urlparse]) and the result of running a command are section variables.

    Text is modelled by [string]: a sequence of code points below 256. *)

From Stdlib Require Import ZArith Ascii String List Lia Permutation Sorted.
From stdpp Require Import base option list strings gmap pretty sorting.

Open Scope string_scope.
Open Scope Z_scope.

(** ** Python string methods *)

Module Py.

(** [str.isspace] on one character (code points below 256). *)
Definition isspace (c : ascii) : bool :=
  let n := N_of_ascii c in
  ((9 <=? n) && (n <=? 13) || (28 <=? n) && (n <=? 32)
   || (n =? 133) || (n =? 160))%N.

Fixpoint lstrip_by (p : ascii -> bool) (s : string) : string :=
  match s with
  | EmptyString => EmptyString
  | String c s' => if p c then lstrip_by p s' else s
  end.

Fixpoint rstrip_by (p : ascii -> bool) (s : string) : string :=
  match s with
  | EmptyString => EmptyString
  | String c s' =>
      match rstrip_by p s' with
      | EmptyString => if p c then EmptyString else String c EmptyString
      | t => String c t
      end
  end.

Definition strip_by (p : ascii -> bool) (s : string) : string :=
  rstrip_by p (lstrip_by p s).

(** [s.strip()] *)
Definition strip (s : string) : string := strip_by isspace s.

(** membership of a character in the argument of [strip(chars)] *)
Fixpoint char_in (chars : string) (c : ascii) : bool :=
  match chars with
  | EmptyString => false
  | String d chars' => Ascii.eqb c d || char_in chars' c
  end.

(** [s.strip(chars)] and [s.rstrip(chars)] *)
Definition strip_chars (chars s : string) : string := strip_by (char_in chars) s.
Definition rstrip_chars (chars s : string) : string := rstrip_by (char_in chars) s.

(** [sub in s] *)
Fixpoint contains (sub s : string) : bool :=
  String.prefix sub s
  || match s with
     | EmptyString => false
     | String _ s' => contains sub s'
     end.

(** [s.endswith(suffix)] *)
Fixpoint endswith (s suffix : string) : bool :=
  String.eqb s suffix
  || match s with
     | EmptyString => false
     | String _ s' => endswith s' suffix
     end.

(** [s.split(sep)] for a non-empty [sep]: [cur] holds the characters of
    the current piece in reverse, [skip] the characters of a separator
    still to pass over. *)
Fixpoint split_go (sep : string) (skip : nat) (cur s : string) : list string :=
  match s with
  | EmptyString => [String.rev cur]
  | String c s' =>
      match skip with
      | S k => split_go sep k cur s'
      | O =>
          if String.prefix sep s
          then String.rev cur :: split_go sep (Nat.pred (String.length sep)) EmptyString s'
          else split_go sep O (String c cur) s'
      end
  end.

Definition split (sep s : string) : list string := split_go sep O EmptyString s.

(** [s.split(sep, 1)] *)
Definition split1 (sep s : string) : list string :=
  match String.index 0 sep s with
  | Some n =>
      [ String.substring 0 n s;
        String.substring (n + String.length sep)
          (String.length s - (n + String.length sep)) s ]
  | None => [s]
  end.

(** the line feed *)
Definition nl : string := String "010"%char EmptyString.

(** [sep.join(l)] *)
Definition join (sep : string) (l : list string) : string := String.concat sep l.

(** [sorted(l)] on strings: the order is that of the code points. *)
Definition sorted (l : list string) : list string := merge_sort String.le l.

(** The text a file opened with [open(path, "r")] delivers: line ends
    [\r\n] and [\r] arrive as [\n]. *)
Fixpoint universal_newlines (s : string) : string :=
  match s with
  | EmptyString => EmptyString
  | String c s' =>
      if Ascii.eqb c "013"%char
      then String "010"%char
             match s' with
             | String c' s'' =>
                 if Ascii.eqb c' "010"%char then universal_newlines s''
                 else universal_newlines s'
             | EmptyString => EmptyString
             end
      else String c (universal_newlines s')
  end.

(** [for line in f]: the lines of a text, each with its line end. *)
Fixpoint lines_go (cur s : string) : list string :=
  match s with
  | EmptyString =>
      match cur with EmptyString => [] | _ => [String.rev cur] end
  | String c s' =>
      if Ascii.eqb c "010"%char
      then String.rev (String c cur) :: lines_go EmptyString s'
      else lines_go (String c cur) s'
  end.

Definition lines (s : string) : list string := lines_go EmptyString s.

(** truth value of a string, and of [None] or a string *)
Definition truthy (s : string) : bool := negb (String.eqb s "").
Definition truthy_opt (o : option string) : bool :=
  match o with Some s => truthy s | None => false end.

(** *** A model of [urlparse(url).path]

    It follows [urllib.parse]: the leading control characters and
    spaces and every tab and line break are dropped, then the scheme,
    the network location, the fragment and the query are split off, and
    for the schemes that take parameters the parameters of the last
    segment.  [None] stands for the [ValueError] raised for a network
    location with one square bracket only; the further checks of a
    bracketed host are left out. *)

(** [(s[:i], s[i:])] for the first position [i] whose character satisfies
    [p], and [(s, "")] when there is none *)
Fixpoint break_at (p : ascii -> bool) (s : string) : string * string :=
  match s with
  | EmptyString => (EmptyString, EmptyString)
  | String c s' =>
      if p c then (EmptyString, s)
      else let '(a, b) := break_at p s' in (String c a, b)
  end.

Fixpoint all_chars (p : ascii -> bool) (s : string) : bool :=
  match s with
  | EmptyString => true
  | String c s' => p c && all_chars p s'
  end.

Fixpoint remove_chars (p : ascii -> bool) (s : string) : string :=
  match s with
  | EmptyString => EmptyString
  | String c s' => if p c then remove_chars p s' else String c (remove_chars p s')
  end.

Definition is_upper (c : ascii) : bool :=
  let n := N_of_ascii c in ((65 <=? n) && (n <=? 90))%N.
Definition is_lower (c : ascii) : bool :=
  let n := N_of_ascii c in ((97 <=? n) && (n <=? 122))%N.
Definition is_digit (c : ascii) : bool :=
  let n := N_of_ascii c in ((48 <=? n) && (n <=? 57))%N.
Definition is_scheme_char (c : ascii) : bool :=
  is_upper c || is_lower c || is_digit c || char_in "+-." c.

Fixpoint lower (s : string) : string :=
  match s with
  | EmptyString => EmptyString
  | String c s' =>
      String (if is_upper c then ascii_of_N (N_of_ascii c + 32) else c) (lower s')
  end.

Definition uses_params : list string :=
  [""; "ftp"; "hdl"; "prospero"; "http"; "imap"; "https"; "shttp"; "rtsp";
   "rtspu"; "sip"; "sips"; "mms"; "sftp"; "tel"].

(** the scheme and what follows its colon *)
Definition split_scheme (url : string) : string * string :=
  let '(head, rest) := break_at (Ascii.eqb ":") url in
  match head, rest with
  | String c _, String _ after =>
      if (is_upper c || is_lower c) && all_chars is_scheme_char head
      then (lower head, after)
      else (EmptyString, url)
  | _, _ => (EmptyString, url)
  end.

(** [url] up to the first [;] that follows its last [/] *)
Fixpoint split_params (url : string) : string :=
  match url with
  | EmptyString => EmptyString
  | String c url' =>
      if contains "/" url' then String c (split_params url')
      else if Ascii.eqb c ";" then
        EmptyString
      else String c (fst (break_at (Ascii.eqb ";") url'))
  end.

Definition url_path (url : string) : option string :=
  let url := lstrip_by (fun c => (N_of_ascii c <=? 32)%N) url in
  let url := remove_chars (char_in (String "009" (String "010" (String "013" "")))) url in
  let '(scheme, url) := split_scheme url in
  let '(netloc, url) :=
    match url with
    | String "/" (String "/" after) => break_at (char_in "/?#") after
    | _ => (EmptyString, url)
    end in
  if xorb (contains "[" netloc) (contains "]" netloc) then None
  else
    let url := fst (break_at (Ascii.eqb "#") url) in
    let url := fst (break_at (Ascii.eqb "?") url) in
    Some (if existsb (String.eqb scheme) uses_params && contains ";" url
          then split_params url else url).

End Py.

(** ** Values *)

(** What [json.loads], [yaml.safe_load] and [Response.json] produce: [None],
    booleans, integers, strings, lists and dictionaries with string keys (a
    dictionary lists each of its keys once, in insertion order).  Numbers
    with a fractional part are not modelled. *)
#[warnings="-register-all"]
Inductive json : Type :=
| JNull
| JBool (b : bool)
| JNum (n : Z)
| JStr (s : string)
| JArr (items : list json)
| JObj (fields : list (string * json)).

(** Exception classes the script can meet.  [KeyboardInterrupt] is the one
    that does not derive from [Exception]. *)
Inductive exn_class : Type :=
| KeyError | IndexError | TypeError | AttributeError | ValueError
| JSONDecodeError | UnicodeDecodeError
| FileNotFoundError | PermissionError | OSError
| RequestException | KeyboardInterrupt.

Record exn : Type := Exn { exn_cls : exn_class; exn_msg : string }.

Definition is_FileNotFoundError (e : exn) : bool :=
  match exn_cls e with FileNotFoundError => true | _ => false end.

Definition is_Exception (e : exn) : bool :=
  match exn_cls e with KeyboardInterrupt => false | _ => true end.

(** How a computation stops without a value: an exception that nobody has
    caught yet, [sys.exit(code)], a blocking call that never returns, and
    a loop cut off by the embedding's bound on iterations. *)
Inductive halt : Type :=
| Raised (e : exn)
| Exited (code : Z)
| Stalled
| Unfinished.

Inductive outcome (A : Type) : Type :=
| Ret (a : A)
| Stop (h : halt).
Arguments Ret {A} a.
Arguments Stop {A} h.

Definition raise {A} (c : exn_class) (msg : string) : outcome A :=
  Stop (Raised (Exn c msg)).

Definition obind {A B} (o : outcome A) (f : A -> outcome B) : outcome B :=
  match o with
  | Ret a => f a
  | Stop h => Stop h
  end.

Fixpoint omap {A B} (f : A -> outcome B) (l : list A) : outcome (list B) :=
  match l with
  | [] => Ret []
  | x :: l' => obind (f x) (fun y => obind (omap f l') (fun ys => Ret (y :: ys)))
  end.

(** ** Operations of Python values *)

Module Dyn.

Fixpoint lookup (k : string) (d : list (string * json)) : option json :=
  match d with
  | [] => None
  | (k', v) :: d' => if String.eqb k k' then Some v else lookup k d'
  end.

(** [bool(v)] *)
Definition truthy (v : json) : bool :=
  match v with
  | JNull => false
  | JBool b => b
  | JNum n => negb (n =? 0)
  | JStr s => Py.truthy s
  | JArr l => match l with [] => false | _ => true end
  | JObj d => match d with [] => false | _ => true end
  end.

(** [v.get(k, default)] *)
Definition get (v : json) (k : string) (default : json) : outcome json :=
  match v with
  | JObj d => Ret (match lookup k d with Some x => x | None => default end)
  | _ => raise AttributeError "object has no attribute 'get'"
  end.

(** [v[k]] for a string [k] *)
Definition getitem (v : json) (k : string) : outcome json :=
  match v with
  | JObj d =>
      match lookup k d with
      | Some x => Ret x
      | None => raise KeyError k
      end
  | JStr _ => raise TypeError "string indices must be integers"
  | JArr _ => raise TypeError "list indices must be integers or slices"
  | _ => raise TypeError "object is not subscriptable"
  end.

(** [v[0]] *)
Definition getitem0 (v : json) : outcome json :=
  match v with
  | JArr (x :: _) => Ret x
  | JArr [] => raise IndexError "list index out of range"
  | JStr (String c _) => Ret (JStr (String c EmptyString))
  | JStr EmptyString => raise IndexError "string index out of range"
  | JObj _ => raise KeyError "0"
  | _ => raise TypeError "object is not subscriptable"
  end.

Definition is_str (k : string) (v : json) : bool :=
  match v with JStr s => String.eqb s k | _ => false end.

(** [k in v] for a string [k] *)
Definition contains (k : string) (v : json) : outcome bool :=
  match v with
  | JObj d => Ret (match lookup k d with Some _ => true | None => false end)
  | JStr s => Ret (Py.contains k s)
  | JArr l => Ret (existsb (is_str k) l)
  | _ => raise TypeError "argument is not iterable"
  end.

Fixpoint chars (s : string) : list json :=
  match s with
  | EmptyString => []
  | String c s' => JStr (String c EmptyString) :: chars s'
  end.

(** the elements a [for] loop over [v] visits *)
Definition iter (v : json) : outcome (list json) :=
  match v with
  | JArr l => Ret l
  | JStr s => Ret (chars s)
  | JObj d => Ret (map (fun kv => JStr (fst kv)) d)
  | _ => raise TypeError "object is not iterable"
  end.

(** a method of [str] called on [v] *)
Definition str_method {A} (f : string -> A) (v : json) : outcome A :=
  match v with
  | JStr s => Ret (f s)
  | _ => raise AttributeError "object has no such attribute"
  end.

(** [str(v)], as an f-string applies it; [repr] is the text Python gives
    for a list or a dictionary. *)
Definition str (repr : json -> string) (v : json) : string :=
  match v with
  | JNull => "None"
  | JBool true => "True"
  | JBool false => "False"
  | JNum n => pretty n
  | JStr s => s
  | _ => repr v
  end.

End Dyn.

(** ** The world outside the script *)

(** A row of the GitHub sheet (the dictionary built in
    [save_to_excel_github]) and of the Docker sheet (the dictionary built
    in [parse_docker_finding]). *)
Record github_row : Type := GithubRow {
  gh_DetectorName : json;
  gh_DetectorDescription : json;
  gh_Verified : json;
  gh_RawSecret : json;
  gh_Repository : json;
  gh_Commit : json;
  gh_File : json;
  gh_Line : json;
  gh_Link : json;
  gh_Email : json;
  gh_Timestamp : json
}.

Record docker_row : Type := DockerRow {
  image : json;
  tag : json;
  layer : json;
  file : json;
  detector_name : json;
  detector_type : json;
  detector_desc : json;
  raw : json;
  redacted : json;
  verified : json;
  rotation_guide : json;
  version : json
}.

Inductive file_content : Type :=
| TextFile (text : string)
| GithubSheet (rows : list github_row)
| DockerSheet (rows : list docker_row).

Inductive http_method : Type := GET | POST.

Record request : Type := Request {
  req_method : http_method;
  req_url : string;
  req_headers : list (string * string);
  req_params : list (string * string);
  req_json : list (string * string)
}.

(** What the script reads of a [requests.Response]: [resp_next] is
    [r.links.get('next', {}).get('url')], [resp_json] is [r.json()] when the
    body is JSON. *)
Record response : Type := Response {
  status_code : Z;
  resp_text : string;
  resp_next : option string;
  resp_json : option json
}.

(** One HTTP call either delivers a response or raises. *)
Inductive net_event : Type :=
| Responds (r : response)
| Fails (e : exn).

(** What [subprocess.run] does with a command line. *)
Inductive spawn_result : Type :=
| Completed (out err : string)
| SpawnError (e : exn)
| Hangs.

(** [net] lists what the HTTP calls to come will meet, in order; a call
    made when it is empty never returns.  [sent], [spawned] and [stdout]
    record the requests made, the commands run and the lines printed;
    [naps] counts the calls of [sleep(0.5)]. *)
Record world : Type := World {
  fs : gmap string file_content;
  net : list net_event;
  sent : list request;
  spawned : list (list string);
  stdout : list string;
  naps : nat
}.

Definition set_fs (f : gmap string file_content) (w : world) : world :=
  World f (net w) (sent w) (spawned w) (stdout w) (naps w).
Definition set_net (n : list net_event) (w : world) : world :=
  World (fs w) n (sent w) (spawned w) (stdout w) (naps w).
Definition set_sent (l : list request) (w : world) : world :=
  World (fs w) (net w) l (spawned w) (stdout w) (naps w).
Definition set_spawned (l : list (list string)) (w : world) : world :=
  World (fs w) (net w) (sent w) l (stdout w) (naps w).
Definition set_stdout (l : list string) (w : world) : world :=
  World (fs w) (net w) (sent w) (spawned w) l (naps w).
Definition set_naps (n : nat) (w : world) : world :=
  World (fs w) (net w) (sent w) (spawned w) (stdout w) n.

(** The namespace [argparse] hands to [main].  [argparse] itself makes
    sure that exactly one of the five modes is given. *)
Record args : Type := Args {
  git_me : bool;
  git_other : bool;
  git_profile : bool;
  docker_profile : option string;
  docker_repo : option string;
  arg_file : option string;
  output : string;
  all_tag : bool
}.

(** ** The monad of the script's effects *)

Definition M (A : Type) : Type := world -> outcome A * world.

Definition ret {A} (a : A) : M A := fun w => (Ret a, w).

Definition bind {A B} (m : M A) (f : A -> M B) : M B :=
  fun w =>
    match m w with
    | (Ret a, w') => f a w'
    | (Stop h, w') => (Stop h, w')
    end.

Definition lift {A} (o : outcome A) : M A := fun w => (o, w).

Declare Scope prog_scope.
Delimit Scope prog_scope with prog.
Notation "x <- m ;; k" := (bind m (fun x => k))
  (at level 100, m at next level, right associativity) : prog_scope.
Notation "m ;; k" := (bind m (fun _ => k))
  (at level 100, right associativity) : prog_scope.
Open Scope prog_scope.

(** [try: m except C as e: handler e], where [catches e] tells whether [e]
    is an instance of [C]. *)
Definition try_except {A} (m : M A) (catches : exn -> bool) (handler : exn -> M A) : M A :=
  fun w =>
    match m w with
    | (Stop (Raised e), w') =>
        if catches e then handler e w' else (Stop (Raised e), w')
    | r => r
    end.

(** [sys.exit(code)] *)
Definition sys_exit {A} (code : Z) : M A := fun w => (Stop (Exited code), w).

(** [print(line)] *)
Definition print (line : string) : M unit :=
  fun w => (Ret tt, set_stdout (stdout w ++ [line]) w).

(** [sleep(0.5)] *)
Definition sleep_half : M unit :=
  fun w => (Ret tt, set_naps (S (naps w)) w).

(** [for x in l: s = body x s] *)
Fixpoint for_each {A S} (l : list A) (body : A -> S -> M S) (s : S) : M S :=
  match l with
  | [] => ret s
  | x :: l' => s' <- body x s ;; for_each l' body s'
  end.

(** A [while] loop: [body] yields the next loop state ([inl]) or leaves the
    loop with a value ([inr]). *)
Fixpoint while_fuel {S A} (fuel : nat) (body : S -> M (S + A)) (s : S) : M A :=
  match fuel with
  | O => fun w => (Stop Unfinished, w)
  | Datatypes.S fuel' =>
      r <- body s ;;
      match r with
      | inl s' => while_fuel fuel' body s'
      | inr a => ret a
      end
  end.

(** The loops of the script issue one HTTP call per iteration, so the calls
    still scripted in [net] bound the iterations. *)
Definition while_net {S A} (body : S -> M (S + A)) (s : S) : M A :=
  fun w => while_fuel (Datatypes.S (length (net w))) body s w.

(** *** Files *)

(** [os.path.exists(path)] *)
Definition path_exists (path : string) : M bool :=
  fun w => (Ret (match fs w !! path with Some _ => true | None => false end), w).

(** [open(path, "r")] followed by reading the whole text *)
Definition read_text (path : string) : M string :=
  fun w =>
    match fs w !! path with
    | Some (TextFile t) => (Ret (Py.universal_newlines t), w)
    | Some _ => (raise UnicodeDecodeError "invalid start byte", w)
    | None => (raise FileNotFoundError ("No such file or directory: " ++ path), w)
    end.

(** the same for a path that may be [None] *)
Definition read_path (path : option string) : M string :=
  match path with
  | Some p => read_text p
  | None => lift (raise TypeError "expected str, bytes or os.PathLike object")
  end.

(** [open(path, "w")] followed by writing [text] *)
Definition write_text (path text : string) : M unit :=
  fun w => (Ret tt, set_fs (<[path := TextFile text]> (fs w)) w).

(** What [pd.DataFrame(rows).to_excel(path, index=False)] comes to, which
    depends on the file name and on the rows: the sheet is written, or the
    call raises (a file name whose extension names no Excel writer, a cell
    that the writer refuses) and leaves [remains] at the path, if anything. *)
Inductive excel_result : Type :=
| Saved
| Refused (e : exn) (remains : option file_content).

(** [pd.DataFrame(rows).to_excel(path, index=False)]; [writer] tells what
    it comes to. *)
Definition to_excel (writer : string -> file_content -> excel_result)
    (path : string) (sheet : file_content) : M unit :=
  fun w =>
    match writer path sheet with
    | Saved => (Ret tt, set_fs (<[path := sheet]> (fs w)) w)
    | Refused e (Some remains) =>
        (Stop (Raised e), set_fs (<[path := remains]> (fs w)) w)
    | Refused e None => (Stop (Raised e), w)
    end.

(** *** HTTP *)

Definition http (rq : request) : M response :=
  fun w =>
    let w' := set_sent (sent w ++ [rq]) w in
    match net w with
    | [] => (Stop Stalled, w')
    | Responds r :: rest => (Ret r, set_net rest w')
    | Fails e :: rest => (Stop (Raised e), set_net rest w')
    end.

(** [requests.get(url, headers=headers, params=params)] *)
Definition requests_get (url : string) (headers params : list (string * string)) : M response :=
  http (Request GET url headers params []).

(** [requests.post(url, headers=headers, json=payload)] *)
Definition requests_post (url : string) (headers payload : list (string * string)) : M response :=
  http (Request POST url headers [] payload).

(** [r.json()] *)
Definition response_json (r : response) : M json :=
  match resp_json r with
  | Some v => ret v
  | None => lift (raise JSONDecodeError "Expecting value")
  end.

(** ** Sample surroundings

    Concrete parsers, commands, files and responses, on which the script
    is run in the examples that close this file. *)

Module Sample.

(** a credential file: the texts this parser knows, as [yaml.safe_load]
    reads them *)
Definition yaml_safe_load (text : string) : string + json :=
  if String.eqb text ("github: [tok123]" ++ Py.nl)
  then inr (JObj [("github", JArr [JStr "tok123"])])
  else if String.eqb text ("docker: [alice:secret]" ++ Py.nl)
  then inr (JObj [("docker", JArr [JStr "alice:secret"])])
  else if String.eqb text ("docker: [alice-secret]" ++ Py.nl)
  then inr (JObj [("docker", JArr [JStr "alice-secret"])])
  else inl "could not find expected ':'".

(** the empty finding is the one line this parser reads *)
Definition json_loads (line : string) : option json :=
  if String.eqb (Py.strip line) "{}" then Some (JObj []) else None.

(** no line is JSON *)
Definition no_json (line : string) : option json := None.

(** not needed where every value formatted is a string *)
Definition py_repr (v : json) : string := "".

(** a writer of sheets that knows the extension [.xlsx] and no other *)
Definition excel_writer (path : string) (sheet : file_content) : excel_result :=
  if Py.endswith path ".xlsx" then Saved
  else Refused (Exn ValueError "No engine for filetype") None.

(** the scanner reports one empty finding among lines that are not JSON, *)
Definition scanner_reports (cmd : list string) : spawn_result :=
  Completed ("scanning" ++ Py.nl ++ "{}" ++ Py.nl ++ "done" ++ Py.nl) "".

(** is missing, *)
Definition scanner_missing (cmd : list string) : spawn_result :=
  SpawnError (Exn FileNotFoundError "No such file or directory: 'trufflehog'").


(** the command lines of the two scenarios *)
Definition args_A : args :=
  Args true false false None None None "output.xlsx" false.

Definition args_B : args :=
  Args false false false None (Some "repos.txt") None "output.xlsx" true.

Definition world_of (files : gmap string file_content) (pending : list net_event) : world :=
  World files pending [] [] [] 0.

Definition nowhere : world := world_of ∅ [].

Definition page (status : Z) (next : option string) (body : json) : net_event :=
  Responds (Response status "" next (Some body)).

(** a page of repositories and a page of organizations *)
Definition repositories (names : list string) : json :=
  JArr (map (fun n => JObj [("full_name", JStr n)]) names).

Definition organizations (names : list string) : json :=
  JArr (map (fun n => JObj [("login", JStr n)]) names).

(** a tag record and a page of them *)
Definition tag_record (name : string) (digests : list string) : json :=
  JObj [("name", JStr name);
        ("images", JArr (map (fun d => JObj [("digest", JStr d)]) digests))].

Definition tag_page (tags : list json) : json :=
  JObj [("count", JNum (Z.of_nat (length tags))); ("next", JNull);
        ("results", JArr tags)].

(** Scenario A: the token [tok123], two repositories, one organization. *)
Definition files_A : gmap string file_content :=
  {[ "cred.conf" := TextFile ("github: [tok123]" ++ Py.nl) ]}.

Definition world_A : world :=
  world_of files_A
    [ page 200 None (repositories ["zoe/site"; "zoe/app"]);
      page 200 None (organizations ["acme"]) ].

(** Scenario B: [alice/app] with the tags [v1] and [v1.sig]. *)
Definition files_B : gmap string file_content :=
  {[ "cred.conf" := TextFile ("docker: [alice:secret]" ++ Py.nl);
     "repos.txt" := TextFile ("alice/app" ++ Py.nl) ]}.

Definition tags_B : json :=
  tag_page [tag_record "v1" ["sha256:aaa"]; tag_record "v1.sig" ["sha256:bbb"]].

Definition world_B : world :=
  world_of files_B
    [ page 200 None (JObj [("token", JStr "jwt")]); page 200 None tags_B ].

(** a credential file whose Docker entry has no colon *)
Definition files_no_colon : gmap string file_content :=
  {[ "cred.conf" := TextFile ("docker: [alice-secret]" ++ Py.nl) ]}.

(** a results file without a line of JSON *)
Definition files_no_finding : gmap string file_content :=
  {[ "results.txt" := TextFile ("scanning" ++ Py.nl ++ Py.nl ++ "done") ]}.

Definition world_no_finding : world := world_of files_no_finding [].

Definition world_no_colon : world :=
  world_of files_no_colon [page 200 None (JObj [("token", JStr "jwt")])].

(** the tag listing of scenario B alone *)
Definition tags_B_response : response := Response 200 "" None (Some tags_B).

Definition world_tags_B : world := world_of ∅ [Responds tags_B_response].

(** a tag listing where [v1] and its signature [v1.sig] name the same
    image *)
Definition tags_shared : json :=
  tag_page [tag_record "v1" ["sha256:aaa"]; tag_record "v1.sig" ["sha256:aaa"]].

Definition tags_shared_response : response := Response 200 "" None (Some tags_shared).

Definition world_tags_shared : world := world_of ∅ [Responds tags_shared_response].

(** a listing whose second page request fails *)
Definition first_page : response :=
  Response 200 "" (Some "https://api.github.com/user/repos?page=2")
    (Some (repositories ["zoe/site"])).

Definition failed_page : response := Response 500 "Internal Server Error" None None.

Definition world_failing_listing : world :=
  world_of ∅ [Responds first_page; Responds failed_page].

Definition world_failing_hub : world := world_of ∅ [Responds failed_page].

(** the two pages of scenario A *)
Definition repositories_A : response :=
  Response 200 "" None (Some (repositories ["zoe/site"; "zoe/app"])).

Definition organizations_A : response :=
  Response 200 "" None (Some (organizations ["acme"])).



(** the row of the empty finding, scanned for [alice/app] *)
Definition empty_row : docker_row :=
  DockerRow (JStr "alice/app") (JStr "") (JStr "") (JStr "") (JStr "") (JStr "")
    (JStr "") (JStr "") (JStr "") (JBool false) (JStr "") (JStr "").

(** a parser that reads the document [doc] off every text *)
Definition yaml_of (doc : json) (text : string) : string + json := inr doc.

(** a parser for which the one line of JSON is the number 7, and a
    scanner that prints that number *)
Definition json_loads_number (line : string) : option json :=
  if String.eqb (Py.strip line) "7" then Some (JNum 7) else None.


(** a credential file that is not YAML *)
Definition world_not_yaml : world :=
  world_of {[ "cred.conf" := TextFile "github" ]} [].

(** command lines of the other modes *)
Definition args_other (file : option string) : args :=
  Args false true false None None file "output.xlsx" false.

Definition args_profiles (file : option string) : args :=
  Args false false true None None file "output.xlsx" false.

Definition args_docker_file : args :=
  Args false false false None (Some "repos.txt") None "output.xlsx" false.

Definition args_docker_profile : args :=
  Args false false false (Some "profile.txt") None None "output.xlsx" false.

(** ... with an output file whose name has no extension *)
Definition args_docker_plain : args :=
  Args false false false None (Some "repos.txt") None "output" false.

(** a listing of the user's repositories in two pages *)
Definition world_two_pages : world :=
  world_of ∅ [Responds first_page; Responds repositories_A].

(** a Docker Hub repository listing in two pages *)
Definition hub_first : response :=
  Response 200 "" None
    (Some (JObj [("next", JStr "https://hub.docker.com/v2/repositories/alice/?page=2");
                 ("results", JArr [JObj [("name", JStr "app")]])])).

Definition hub_last : response :=
  Response 200 "" None
    (Some (JObj [("next", JNull); ("results", JArr [JObj [("name", JStr "web")]])])).

Definition world_hub : world := world_of ∅ [Responds hub_first; Responds hub_last].

(** a tag listing in two pages, the first answered with a status that is
    not 200 *)
Definition tags_first_response : response :=
  Response 203 "" None
    (Some (JObj [("next", JStr "https://hub.docker.com/v2/repositories/alice/app/tags?page=7");
                 ("results", JArr [tag_record "v0" ["sha256:000"]])])).

Definition world_two_tag_pages : world :=
  world_of ∅ [Responds tags_first_response; Responds tags_B_response].

(** answers that are no listing *)
Definition not_found_page : response :=
  Response 404 "" None (Some (JObj [("message", JStr "object not found")])).

Definition world_not_found : world := world_of ∅ [Responds not_found_page].

(** the login, accepted, and the worlds of the runs in the Docker modes *)
Definition login_page : response :=
  Response 200 "" None (Some (JObj [("token", JStr "jwt")])).

Definition world_login : world := world_of files_B [Responds login_page].

Definition world_login_refused : world := world_of files_B [Responds failed_page].

Definition files_profile : gmap string file_content :=
  {[ "cred.conf" := TextFile ("docker: [alice:secret]" ++ Py.nl);
     "profile.txt" := TextFile ("https://hub.docker.com/u/alice/" ++ Py.nl) ]}.

Definition world_docker_profile : world :=
  world_of files_profile [Responds login_page; Responds hub_first; Responds hub_last].

(** both listings of the user's own scan refused *)
Definition world_refused : world :=
  world_of files_A [Responds failed_page; Responds failed_page].

(** results files: one finding among other lines; a number *)
Definition world_one_finding : world :=
  world_of {[ "results.txt" := TextFile ("scanning" ++ Py.nl ++ "{}" ++ Py.nl) ]} [].

Definition world_number : world :=
  world_of {[ "results.txt" := TextFile ("7" ++ Py.nl) ]} [].

Definition empty_github_row : github_row :=
  GithubRow (JStr "") (JStr "") (JStr "") (JStr "") (JStr "") (JStr "")
    (JStr "") (JStr "") (JStr "") (JStr "") (JStr "").

(** a file of GitHub repositories, with blank lines, and one of profiles *)
Definition files_other : gmap string file_content :=
  {[ "cred.conf" := TextFile ("github: [tok123]" ++ Py.nl);
     "repos.txt"
     := TextFile (Py.nl ++ "  https://github.com/zoe/app" ++ Py.nl ++ Py.nl);
     "profiles.txt" := TextFile ("https://github.com/zoe/" ++ Py.nl) ]}.

Definition world_other : world := world_of files_other [Responds repositories_A].

End Sample.

(** ** The script *)

Section Trufflex.

(** [yaml.safe_load] on the text of a file: the message of a
    [yaml.YAMLError], or the document. *)
Variable yaml_safe_load : string -> string + json.

(** [json.loads] on one line; [None] stands for [json.JSONDecodeError]. *)
Variable json_loads : string -> option json.

(** [urlparse(url).path]; [None] stands for the [ValueError] that
    [urlparse] raises on some malformed addresses. *)
Variable urlparse_path : string -> option string.

(** What running a command line does. *)
Variable run_command : list string -> spawn_result.

(** [repr] of a list or a dictionary. *)
Variable py_repr : json -> string.

(** What [DataFrame.to_excel] comes to for a file name and a sheet. *)
Variable excel_writer : string -> file_content -> excel_result.

Definition fstr (v : json) : string := Dyn.str py_repr v.

(** [subprocess.run(cmd, ...)]: the captured standard output and error. *)
Definition subprocess_run (cmd : list string) : M (string * string) :=
  fun w =>
    let w' := set_spawned (spawned w ++ [cmd]) w in
    match run_command cmd with
    | Completed out err => (Ret (out, err), w')
    | SpawnError e => (Stop (Raised e), w')
    | Hangs => (Stop Stalled, w')
    end.

(** *** Utility functions *)

(** [conf[key][0].strip()], guarded by [key in conf and conf[key]]
    (lines 34-35 and 36-37). *)
Definition first_entry (conf : json) (key : string) : outcome (option string) :=
  obind (Dyn.contains key conf) (fun present =>
  if present then
    obind (Dyn.getitem conf key) (fun entry =>
    if Dyn.truthy entry then
      obind (Dyn.getitem conf key) (fun entry' =>
      obind (Dyn.getitem0 entry') (fun first =>
      obind (Dyn.str_method Py.strip first) (fun line =>
      Ret (Some line))))
    else Ret None)
  else Ret None).

Definition read_credentials : M (option string * option string * option string) :=
  found <- path_exists "cred.conf" ;;
  if negb found then
    print "Error: cred.conf file not found." ;;
    sys_exit 1
  else
    text <- read_text "cred.conf" ;;
    conf <- match yaml_safe_load text with
            | inr conf => ret conf
            | inl e => print ("Error parsing cred.conf: " ++ e) ;; sys_exit 1
            end ;;
    github_token <- lift (first_entry conf "github") ;;
    docker_line <- lift (first_entry conf "docker") ;;
    match docker_line with
    | Some line =>
        if negb (Py.contains ":" line) then
          print "Error: Docker credentials must be in format username:password" ;;
          sys_exit 1
        else
          match Py.split1 ":" line with
          | [docker_user; docker_pass] =>
              ret (github_token, Some docker_user, Some docker_pass)
          | _ => lift (raise ValueError "not enough values to unpack")
          end
    | None => ret (github_token, None, None)
    end.

Definition run_trufflehog (cmd : list string) : M string :=
  try_except
    (result <- subprocess_run cmd ;;
     ret (fst result ++ snd result))
    is_FileNotFoundError
    (fun _ =>
       print "Error: trufflehog not found. Install it with: pip install trufflehog" ;;
       sys_exit 1).

(** *** GitHub functions *)

(** The loop shared by [get_user_repos], [get_orgs] and
    [get_profile_repos]: [item] is the expression of the list
    comprehension, [on_failure] what the loop does with a status other
    than 200 before it breaks.  The loop state is [url], [params] and the
    list gathered so far. *)
Definition github_page {T} (headers : list (string * string))
    (item : json -> outcome T) (on_failure : Z -> M unit)
    (st : string * list (string * string) * list T)
    : M (string * list (string * string) * list T + list T) :=
  let '(url, params, repos) := st in
  r <- requests_get url headers params ;;
  if negb (status_code r =? 200) then
    on_failure (status_code r) ;;
    ret (inr repos)
  else
    data <- response_json r ;;
    elements <- lift (Dyn.iter data) ;;
    names <- lift (omap item elements) ;;
    let repos := (repos ++ names)%list in
    match resp_next r with
    | Some next => if Py.truthy next then ret (inl (next, [], repos))
                   else ret (inr repos)
    | None => ret (inr repos)
    end.

(** [f"https://github.com/{repo['full_name']}"] *)
Definition repo_url (repo : json) : outcome string :=
  obind (Dyn.getitem repo "full_name") (fun full_name =>
  Ret ("https://github.com/" ++ fstr full_name)).

Definition get_user_repos (token : string) : M (list string) :=
  let headers := [("Authorization", "token " ++ token)] in
  while_net (github_page headers repo_url (fun _ => ret tt))
    ("https://api.github.com/user/repos",
     [("per_page", "100"); ("type", "owner")], []).

(** The values [org['login']] are gathered as they are. *)
Definition get_orgs (token : string) : M (list json) :=
  let headers := [("Authorization", "token " ++ token)] in
  while_net
    (github_page headers (fun org => Dyn.getitem org "login") (fun _ => ret tt))
    ("https://api.github.com/user/orgs", [], []).

Definition get_profile_repos (profile_url : string) (token : option string)
    : M (list string) :=
  path <- lift (match urlparse_path profile_url with
                | Some p => Ret p
                | None => raise ValueError "Invalid URL"
                end) ;;
  let username := Py.strip_chars "/" path in
  if negb (Py.truthy username) then
    print ("Invalid profile URL: " ++ profile_url) ;;
    ret []
  else
    let headers :=
      match token with
      | Some t => if Py.truthy t then [("Authorization", "token " ++ t)] else []
      | None => []
      end in
    while_net
      (github_page headers repo_url
         (fun status =>
            print ("Failed to fetch repos for " ++ username ++ ": " ++ pretty status)))
      ("https://api.github.com/users/" ++ username ++ "/repos",
       [("per_page", "100")], []).

(** [[line.strip() for line in f if line.strip()]] *)
Definition stripped_lines (text : string) : list string :=
  List.filter Py.truthy (map Py.strip (Py.lines text)).

(** all elements as strings, when they all are strings *)
Fixpoint all_str (l : list json) : option (list string) :=
  match l with
  | [] => Some []
  | JStr s :: l' => option_map (cons s) (all_str l')
  | _ :: _ => None
  end.

Definition scan_my_repos_and_orgs (token : string) : M (list string) :=
  print "=== STEP 1: Fetching my repositories and organizations ===" ;;
  repos <- get_user_repos token ;;
  orgs <- get_orgs token ;;
  match repos with
  | _ :: _ => write_text "personal.txt" (Py.join Py.nl (Py.sorted repos))
  | [] => write_text "personal.txt" "No personal repositories found."
  end ;;
  match orgs with
  | _ :: _ =>
      (* sorting or joining values that are not all strings raises, with
         the file already opened for writing *)
      match all_str orgs with
      | Some names => write_text "org.txt" (Py.join Py.nl (Py.sorted names))
      | None =>
          write_text "org.txt" "" ;;
          lift (raise TypeError "expected str instance")
      end
  | [] => write_text "org.txt" "No organizations found."
  end ;;
  all_output <-
    for_each orgs
      (fun org all_output =>
         print ("Scanning organization: " ++ fstr org) ;;
         let cmd := ["trufflehog"; "github"; "--org=" ++ fstr org;
                     "--token=" ++ token; "--json"] in
         out <- run_trufflehog cmd ;;
         ret (all_output ++ [out])%list)
      [] ;;
  for_each repos
    (fun repo all_output =>
       print ("Scanning repository: " ++ repo) ;;
       let cmd := ["trufflehog"; "github"; "--repo=" ++ repo;
                   "--token=" ++ token; "--json"] in
       out <- run_trufflehog cmd ;;
       ret (all_output ++ [out])%list)
    all_output.

Definition scan_other_repos (file_path : string) : M (list string) :=
  text <- read_text file_path ;;
  let repos := stripped_lines text in
  for_each repos
    (fun repo all_output =>
       print ("Scanning repository: " ++ repo) ;;
       let cmd := ["trufflehog"; "github"; "--repo=" ++ repo; "--json"] in
       out <- run_trufflehog cmd ;;
       ret (all_output ++ [out])%list)
    [].

Definition scan_profile_repos (file_path : string) (token : option string)
    : M (list string) :=
  text <- read_text file_path ;;
  let profiles := stripped_lines text in
  all_repos <-
    for_each profiles
      (fun profile all_repos =>
         repos <- get_profile_repos profile token ;;
         print ("Profile " ++ profile ++ " has "
                ++ pretty (Z.of_nat (length repos)) ++ " repos") ;;
         ret (all_repos ++ repos)%list)
      [] ;;
  for_each all_repos
    (fun repo all_output =>
       print ("Scanning repository: " ++ repo) ;;
       let cmd := ["trufflehog"; "github"; "--repo=" ++ repo; "--json"] in
       out <- run_trufflehog cmd ;;
       ret (all_output ++ [out])%list)
    [].

(** *** Docker functions *)

Definition get_docker_token (username password : string) : M json :=
  let url := "https://hub.docker.com/v2/users/login/" in
  r <- requests_post url [("Content-Type", "application/json")]
         [("username", username); ("password", password)] ;;
  if negb (status_code r =? 200) then
    print ("Login failed: " ++ pretty (status_code r) ++ " " ++ resp_text r) ;;
    sys_exit 1
  else
    data <- response_json r ;;
    lift (Dyn.get data "token" JNull).

Definition get_username_from_url (url : string) : string :=
  if Py.contains "/u/" url
  then List.last (Py.split "/u/" (Py.rstrip_chars "/" url)) ""
  else Py.strip url.

(** [requests.get(url, ...)] for a [url] that is any value: a value that
    is not a string is refused by [requests] before anything is sent. *)
Definition requests_get_dyn (url : json) (headers : list (string * string)) : M response :=
  match url with
  | JStr u => requests_get u headers []
  | _ => lift (raise RequestException "Invalid URL")
  end.

(** One turn of the loop of [list_repositories]; the loop state is [url]
    and [repos]. *)
Definition hub_page (headers : list (string * string)) (st : json * list json)
    : M (json * list json + list json) :=
  let '(url, repos) := st in
  r <- requests_get_dyn url headers ;;
  if negb (status_code r =? 200) then
    print ("Error fetching repositories: " ++ pretty (status_code r)
           ++ " " ++ resp_text r) ;;
    sys_exit 1
  else
    data <- response_json r ;;
    results <- lift (Dyn.get data "results" (JArr [])) ;;
    elements <- lift (Dyn.iter results) ;;
    names <- lift (omap (fun repo => Dyn.getitem repo "name") elements) ;;
    let repos := (repos ++ names)%list in
    url <- lift (Dyn.get data "next" JNull) ;;
    if Dyn.truthy url then ret (inl (url, repos)) else ret (inr repos).

Definition list_repositories (username : string) (token : json) : M (list json) :=
  let headers := [("Authorization", "JWT " ++ fstr token)] in
  while_net (hub_page headers)
    (JStr ("https://hub.docker.com/v2/repositories/" ++ username ++ "/"), []).

Definition dockerhub_tag_endpoint (name : string) (page : Z) : string :=
  "https://hub.docker.com/v2/repositories/" ++ name
  ++ "/tags?page_size=100&page=" ++ pretty page.

Definition skip_tag (tag_name : string) : bool :=
  let deny_list := [".sig"; ".enc"] in
  existsb (fun t => Py.endswith tag_name t) deny_list.

Definition get_container_tag_page (name : string) (page : Z) : M json :=
  let url := dockerhub_tag_endpoint name page in
  response <- requests_get url [] [] ;;
  response_json response.

(** The generator, together with the [for] loop that consumes it:
    [consume] is the body of that loop, run on each tag record as it is
    yielded, [s] the state the body updates.  [tag_page_turn] is one
    turn of the generator's [while True], [yield_tags] what it does with
    the page it has fetched; the loop state is [page]. *)
Definition yield_tags {S} (consume : json -> S -> M S) (page : Z) (s : S)
    (response : json) : M (Z * S + S) :=
  results <- lift (Dyn.get response "results" (JArr [])) ;;
  elements <- lift (Dyn.iter results) ;;
  s <- for_each elements consume s ;;
  next <- lift (Dyn.get response "next" JNull) ;;
  if negb (Dyn.truthy next) then ret (inr s)
  else ret (inl (page + 1, s)).

Definition tag_page_turn {S} (name : string) (consume : json -> S -> M S)
    (st : Z * S) : M (Z * S + S) :=
  let '(page, s) := st in
  response <- get_container_tag_page name page ;;
  yield_tags consume page s response.

Definition get_container_tags {S} (name : string)
    (consume : json -> S -> M S) (s : S) : M S :=
  while_net (tag_page_turn name consume) (1, s).

(** The findings in the scanner's output: [json.loads] on every line that
    is not blank, the lines it refuses left out. *)
Definition parse_findings (out : string) : list json :=
  flat_map
    (fun line =>
       if Py.truthy (Py.strip line) then
         match json_loads line with
         | Some finding => [finding]
         | None => []
         end
       else [])
    (Py.split Py.nl (Py.strip out)).

(** the command line of [scan_with_trufflehog] *)
Definition docker_scan_cmd (image : string) : list string :=
  ["trufflehog"; "docker"; "--image"; image; "--json";
   "--only-verified"; "--no-update"].

Definition scan_with_trufflehog (image : string) : M (list json) :=
  try_except
    (result <- subprocess_run (docker_scan_cmd image) ;;
     ret (parse_findings (fst result)))
    is_Exception
    (fun e =>
       print ("Error scanning " ++ image ++ ": " ++ exn_msg e) ;;
       ret []).

(** [finding.get("SourceMetadata", {}).get("Data", {}).get(source, {})] *)
Definition source_metadata (finding : json) (source : string) : outcome json :=
  obind (Dyn.get finding "SourceMetadata" (JObj [])) (fun meta =>
  obind (Dyn.get meta "Data" (JObj [])) (fun data =>
  Dyn.get data source (JObj []))).

Definition parse_docker_finding (image : string) (finding : json) : outcome docker_row :=
  obind (source_metadata finding "Docker") (fun docker_meta =>
  obind (Dyn.get finding "ExtraData" JNull) (fun extra_data =>
  let extra := if Dyn.truthy extra_data then extra_data else JObj [] in
  obind (Dyn.get docker_meta "image" (JStr image)) (fun v_image =>
  obind (Dyn.get docker_meta "tag" (JStr "")) (fun v_tag =>
  obind (Dyn.get docker_meta "layer" (JStr "")) (fun v_layer =>
  obind (Dyn.get docker_meta "file" (JStr "")) (fun v_file =>
  obind (Dyn.get finding "DetectorName" (JStr "")) (fun v_name =>
  obind (Dyn.get finding "DetectorType" (JStr "")) (fun v_type =>
  obind (Dyn.get finding "DetectorDescription" (JStr "")) (fun v_desc =>
  obind (Dyn.get finding "Raw" (JStr "")) (fun v_raw =>
  obind (Dyn.get finding "Redacted" (JStr "")) (fun v_redacted =>
  obind (Dyn.get finding "Verified" (JBool false)) (fun v_verified =>
  obind (Dyn.get extra "rotation_guide" (JStr "")) (fun v_rotation =>
  obind (Dyn.get extra "version" (JStr "")) (fun v_version =>
  Ret {| image := v_image; tag := v_tag; layer := v_layer; file := v_file;
         detector_name := v_name; detector_type := v_type;
         detector_desc := v_desc; raw := v_raw; redacted := v_redacted;
         verified := v_verified; rotation_guide := v_rotation;
         version := v_version |})))))))))))))).

(** *** Excel export *)

(** The dictionary appended to [rows] for one parsed line. *)
Definition github_finding_row (data : json) : outcome github_row :=
  obind (source_metadata data "Github") (fun github_data =>
  obind (Dyn.get data "DetectorName" (JStr "")) (fun v_name =>
  obind (Dyn.get data "DetectorDescription" (JStr "")) (fun v_desc =>
  obind (Dyn.get data "Verified" (JStr "")) (fun v_verified =>
  obind (Dyn.get data "Raw" (JStr "")) (fun v_raw =>
  obind (Dyn.get github_data "repository" (JStr "")) (fun v_repository =>
  obind (Dyn.get github_data "commit" (JStr "")) (fun v_commit =>
  obind (Dyn.get github_data "file" (JStr "")) (fun v_file =>
  obind (Dyn.get github_data "line" (JStr "")) (fun v_line =>
  obind (Dyn.get github_data "link" (JStr "")) (fun v_link =>
  obind (Dyn.get github_data "email" (JStr "")) (fun v_email =>
  obind (Dyn.get github_data "timestamp" (JStr "")) (fun v_timestamp =>
  Ret {| gh_DetectorName := v_name; gh_DetectorDescription := v_desc;
         gh_Verified := v_verified; gh_RawSecret := v_raw;
         gh_Repository := v_repository; gh_Commit := v_commit;
         gh_File := v_file; gh_Line := v_line; gh_Link := v_link;
         gh_Email := v_email; gh_Timestamp := v_timestamp |})))))))))))).

Definition save_to_excel_github (results_file output_file : string) : M unit :=
  text <- read_text results_file ;;
  rows <-
    for_each (Py.lines text)
      (fun line rows =>
         let line := Py.strip line in
         if negb (Py.truthy line) then ret rows
         else
           match json_loads line with
           | Some data =>
               row <- lift (github_finding_row data) ;;
               ret (rows ++ [row])%list
           | None => ret rows
           end)
      [] ;;
  match rows with
  | _ :: _ =>
      to_excel excel_writer output_file (GithubSheet rows) ;;
      print ("Parsed GitHub results saved to " ++ output_file ++ " ("
             ++ pretty (Z.of_nat (length rows)) ++ " findings)")
  | [] => print "No valid GitHub JSON found, Excel not created."
  end.

Definition save_to_excel_docker (findings : list docker_row) (output_file : string)
    : M unit :=
  match findings with
  | _ :: _ =>
      to_excel excel_writer output_file (DockerSheet findings) ;;
      print ("Parsed Docker results saved to " ++ output_file ++ " ("
             ++ pretty (Z.of_nat (length findings)) ++ " findings)")
  | [] => print "No Docker findings, Excel not created."
  end.

(** *** Main *)

(** Lines 371-373 and 377-379: scan [image] and append its findings,
    normalised against [full_repo], to [docker_findings]. *)
Definition scan_image (full_repo image : string) (docker_findings : list docker_row)
    : M (list docker_row) :=
  findings <- scan_with_trufflehog image ;;
  rows <- lift (omap (parse_docker_finding full_repo) findings) ;;
  ret (docker_findings ++ rows)%list.

(** Lines 369-374: the body of the loop over the images of a tag. *)
Definition scan_digest (full_repo : string) (img : json)
    (docker_findings : list docker_row) : M (list docker_row) :=
  digest <- lift (Dyn.getitem img "digest") ;;
  let image_digest := full_repo ++ "@" ++ fstr digest in
  docker_findings <- scan_image full_repo image_digest docker_findings ;;
  sleep_half ;;
  ret docker_findings.

(** Lines 365-374: the body of the loop over the tags of [full_repo]. *)
Definition scan_tag (full_repo : string) (tag : json)
    (docker_findings : list docker_row) : M (list docker_row) :=
  tag_name <- lift (Dyn.getitem tag "name") ;;
  skip <- lift (Dyn.str_method skip_tag tag_name) ;;
  if skip then ret docker_findings
  else
    images <- lift (Dyn.get tag "images" (JArr [])) ;;
    elements <- lift (Dyn.iter images) ;;
    for_each elements (scan_digest full_repo) docker_findings.

(** Lines 362-379: the body of the loop over the repositories. *)
Definition scan_repository (all_tags : bool) (full_repo : string)
    (docker_findings : list docker_row) : M (list docker_row) :=
  print (Py.nl ++ "[+] Scanning repository: " ++ full_repo) ;;
  if all_tags then
    get_container_tags full_repo (scan_tag full_repo) docker_findings
  else
    let image := full_repo ++ ":latest" in
    scan_image full_repo image docker_findings.

Definition main (a : args) : M unit :=
  creds <- read_credentials ;;
  let '(github_token, docker_user, docker_pass) := creds in
  (* GitHub modes *)
  all_output <-
    (if git_me a then
       match github_token with
       | Some token =>
           if Py.truthy token then scan_my_repos_and_orgs token
           else print "GitHub token not found in cred.conf" ;; sys_exit 1
       | None => print "GitHub token not found in cred.conf" ;; sys_exit 1
       end
     else if git_other a then
       match arg_file a with
       | Some path =>
           if Py.truthy path then scan_other_repos path
           else print "Error: --git-other requires -f <repos.txt>" ;; sys_exit 1
       | None => print "Error: --git-other requires -f <repos.txt>" ;; sys_exit 1
       end
     else if git_profile a then
       match arg_file a with
       | Some path =>
           if Py.truthy path then scan_profile_repos path github_token
           else print "Error: --git-profile requires -f <profile.txt>" ;; sys_exit 1
       | None => print "Error: --git-profile requires -f <profile.txt>" ;; sys_exit 1
       end
     else ret []) ;;
  match all_output with
  | _ :: _ =>
      write_text "results.txt" (Py.join Py.nl all_output) ;;
      if Py.truthy (output a) then save_to_excel_github "results.txt" (output a)
      else ret tt
  | [] => ret tt
  end ;;
  (* Docker modes *)
  if Py.truthy_opt (docker_profile a) || Py.truthy_opt (docker_repo a) then
    match docker_user, docker_pass with
    | Some user, Some pass =>
        if Py.truthy user && Py.truthy pass then
          token <- get_docker_token user pass ;;
          repos <-
            (if Py.truthy_opt (docker_profile a) then
               text <- read_path (docker_profile a) ;;
               let profile_url := Py.strip text in
               let username := get_username_from_url profile_url in
               repos <- list_repositories username token ;;
               ret (map (fun r => username ++ "/" ++ fstr r) repos)
             else
               text <- read_path (docker_repo a) ;;
               ret (stripped_lines text)) ;;
          write_text "image.txt" (String.concat "" (map (fun repo => repo ++ Py.nl) repos)) ;;
          print ("Saved " ++ pretty (Z.of_nat (length repos))
                 ++ " repositories to image.txt") ;;
          docker_findings <- for_each repos (scan_repository (all_tag a)) [] ;;
          if Py.truthy (output a) then save_to_excel_docker docker_findings (output a)
          else ret tt
        else print "Docker credentials not found in cred.conf" ;; sys_exit 1
    | _, _ => print "Docker credentials not found in cred.conf" ;; sys_exit 1
    end
  else ret tt.

(** ** The claims that the script does not meet, as they are stated *)

(** C7 expects a field that is absent to come out as the empty string or
    as [False]. *)
Definition blank (v : json) : Prop := v = JStr "" \/ v = JBool false.

(** C7 at one finding, a dictionary without [ExtraData]: it is
    normalised, [rotation_guide] and [version] are empty, and every
    field that the finding lacks is blank. *)
Definition absent_fields_are_blank (img : string) (finding : list (string * json)) : Prop :=
  exists r,
    parse_docker_finding img (JObj finding) = Ret r
    /\ rotation_guide r = JStr "" /\ version r = JStr ""
    /\ forall meta,
         source_metadata (JObj finding) "Docker" = Ret (JObj meta) ->
         (Dyn.lookup "image" meta = None -> blank (image r))
         /\ (Dyn.lookup "tag" meta = None -> blank (tag r))
         /\ (Dyn.lookup "layer" meta = None -> blank (layer r))
         /\ (Dyn.lookup "file" meta = None -> blank (file r))
         /\ (Dyn.lookup "DetectorName" finding = None -> blank (detector_name r))
         /\ (Dyn.lookup "DetectorType" finding = None -> blank (detector_type r))
         /\ (Dyn.lookup "DetectorDescription" finding = None -> blank (detector_desc r))
         /\ (Dyn.lookup "Raw" finding = None -> blank (raw r))
         /\ (Dyn.lookup "Redacted" finding = None -> blank (redacted r))
         /\ (Dyn.lookup "Verified" finding = None -> blank (verified r)).


(** The trailing segment of a path: what follows its last slash, a
    slash that ends the path set aside. *)
Definition trailing_segment (path : string) : string :=
  List.last (Py.split "/" (Py.rstrip_chars "/" path)) "".

(** C4 at one profile address: the listing starts with a request for the
    repositories of the user named by the trailing segment of its path. *)
Definition requests_trailing_segment (profile_url : string)
    (token : option string) (w : world) : Prop :=
  exists path rq more,
    urlparse_path profile_url = Some path
    /\ sent (snd (get_profile_repos profile_url token w))
       = (sent w ++ rq :: more)%list
    /\ req_url rq
       = "https://api.github.com/users/" ++ trailing_segment path ++ "/repos".

(** C1 at one listing call and one world: the call returns [gathered],
    the pages fetched before the response that is not a 200. *)
Definition returns_gathered {A} (listing : M (list A)) (gathered : list A)
    (w : world) : Prop :=
  fst (listing w) = Ret gathered.

(** ** Pages *)

(** A response is a page of a GitHub listing that yields [names]: its
    status is 200 and [item] succeeds on every element of its body. *)
Definition page_yields {T} (item : json -> outcome T) (r : response)
    (names : list T) : Prop :=
  status_code r = 200
  /\ exists data elements,
       resp_json r = Some data
       /\ Dyn.iter data = Ret elements
       /\ omap item elements = Ret names.

(** ... and it links to a next page. *)
Definition page_with_next {T} (item : json -> outcome T)
    (p : response * list T) : Prop :=
  page_yields item (fst p) (snd p)
  /\ Py.truthy_opt (resp_next (fst p)) = true.

(** A response is a page of the Docker Hub repository listing that yields
    [names] and names [next] as what follows. *)
Definition hub_page_yields (r : response) (names : list json) (next : json) : Prop :=
  status_code r = 200
  /\ exists data results elements,
       resp_json r = Some data
       /\ Dyn.get data "results" (JArr []) = Ret results
       /\ Dyn.iter results = Ret elements
       /\ omap (fun repo => Dyn.getitem repo "name") elements = Ret names
       /\ Dyn.get data "next" JNull = Ret next.

Definition hub_page_with_next (p : response * list json) : Prop :=
  exists u, hub_page_yields (fst p) (snd p) (JStr u) /\ Py.truthy u = true.

(** the responses of a list of pages, as the network delivers them *)
Definition responses {T} (pages : list (response * list T)) : list net_event :=
  map (fun p => Responds (fst p)) pages.

(** the names of a list of pages, in order *)
Definition gathered {T} (pages : list (response * list T)) : list T :=
  concat (map snd pages).

(** ** Tags and scans *)

(** What the loop over the tags reads of a tag record: its name and the
    digests of its images. *)
Record tag_view : Type := TagView {
  tv_name : string;
  tv_digests : list json
}.

Definition tag_is (tag : json) (v : tag_view) : Prop :=
  Dyn.getitem tag "name" = Ret (JStr (tv_name v))
  /\ exists images elements,
       Dyn.get tag "images" (JArr []) = Ret images
       /\ Dyn.iter images = Ret elements
       /\ omap (fun img => Dyn.getitem img "digest") elements = Ret (tv_digests v).

(** A response is a page of the tag listing that yields [views] and
    names [next] as what follows.  (The script does not look at the
    status of a tag page.) *)
Definition tag_page_yields (r : response) (views : list tag_view) (next : json) : Prop :=
  exists data results tags,
    resp_json r = Some data
    /\ Dyn.get data "results" (JArr []) = Ret results
    /\ Dyn.iter results = Ret tags
    /\ Forall2 tag_is tags views
    /\ Dyn.get data "next" JNull = Ret next.

Definition tag_page_with_next (p : response * list tag_view) : Prop :=
  exists next, tag_page_yields (fst p) (snd p) next /\ Dyn.truthy next = true.

(** [f"{full_repo}@{digest}"] *)
Definition image_ref (full_repo : string) (digest : json) : string :=
  full_repo ++ "@" ++ fstr digest.

(** the image references of the tags that are not skipped *)
Definition kept_images (full_repo : string) (views : list tag_view) : list string :=
  flat_map (fun v => map (image_ref full_repo) (tv_digests v))
    (List.filter (fun v => negb (skip_tag (tv_name v))) views).

(** C3 as the specification words it, for a repository whose tag
    listing delivers [views] in the world [w]: no image of a tag whose
    name is refused by [skip_tag] is among the targets the scanner is
    run on, whether all tags are asked for or not. *)
Definition skipped_images_are_not_scanned (all_tags : bool) (full_repo : string)
    (views : list tag_view) (w : world) : Prop :=
  forall v digest,
    In v views ->
    skip_tag (tv_name v) = true ->
    In digest (tv_digests v) ->
    ~ In (docker_scan_cmd (image_ref full_repo digest))
        (spawned (snd (scan_repository all_tags full_repo [] w))).

(** The findings [scan_with_trufflehog] returns for [image]. *)
Definition scan_findings (image : string) : list json :=
  match run_command (docker_scan_cmd image) with
  | Completed out _ => parse_findings out
  | _ => []
  end.

(** The rows that scanning [image] adds for [full_repo], when the scan
    comes back (the scanner runs to its end, or starting it raises an
    [Exception]) and all its findings can be normalised. *)
Definition scan_rows (full_repo image : string) : option (list docker_row) :=
  match run_command (docker_scan_cmd image) with
  | Completed _ _ =>
      match omap (parse_docker_finding full_repo) (scan_findings image) with
      | Ret rows => Some rows
      | Stop _ => None
      end
  | SpawnError e => if is_Exception e then Some [] else None
  | Hangs => None
  end.

(** the image references that one tag contributes *)
Definition view_images (full_repo : string) (v : tag_view) : list string :=
  if skip_tag (tv_name v) then [] else map (image_ref full_repo) (tv_digests v).

(** From [w] to [w'] the commands [cmds] were run and [n] pauses taken;
    files, requests and pending responses are as before. *)
Definition scanned (cmds : list (list string)) (n : nat) (w w' : world) : Prop :=
  spawned w' = (spawned w ++ cmds)%list
  /\ naps w' = (naps w + n)%nat
  /\ net w' = net w /\ sent w' = sent w /\ fs w' = fs w.

(** From [w] to [w'] tag pages were fetched until [rest] was left of the
    pending responses, the commands [cmds] were run and [n] pauses
    taken; the files are as before. *)
Definition listed (cmds : list (list string)) (n : nat) (rest : list net_event)
    (w w' : world) : Prop :=
  spawned w' = (spawned w ++ cmds)%list
  /\ naps w' = (naps w + n)%nat
  /\ net w' = rest /\ fs w' = fs w.

(** The rows that the scan of [target] added for [full_repo]: [target]
    is not [full_repo] itself, each row is the normalisation against
    [full_repo] of a finding of that scan, and where the finding names
    no image the row names [full_repo]. *)
Definition rows_name_repository (full_repo target : string) (rows : list docker_row)
    : Prop :=
  target <> full_repo
  /\ Forall2
       (fun finding row =>
          parse_docker_finding full_repo finding = Ret row
          /\ forall meta,
               source_metadata finding "Docker" = Ret (JObj meta) ->
               Dyn.lookup "image" meta = None ->
               image row = JStr full_repo)
       (scan_findings target) rows.

(** *** The tag listing without the skipped tags *)

(** a tag record that the loop over the tags skips *)
Definition is_skipped (tag : json) : bool :=
  match Dyn.getitem tag "name" with
  | Ret (JStr name) => skip_tag name
  | _ => false
  end.

(** a list of tag records without those *)
Definition without_skipped (results : json) : json :=
  match results with
  | JArr tags => JArr (List.filter (fun t => negb (is_skipped t)) tags)
  | _ => results
  end.

(** ... in the [results] of a page, *)
Fixpoint hide_results (fields : list (string * json)) : list (string * json) :=
  match fields with
  | [] => []
  | (k, v) :: fields' =>
      if String.eqb "results" k then (k, without_skipped v) :: fields'
      else (k, v) :: hide_results fields'
  end.

Definition hide_in_page (data : json) : json :=
  match data with
  | JObj fields => JObj (hide_results fields)
  | _ => data
  end.

(** ... in a response, *)
Definition hide_in_event (ev : net_event) : net_event :=
  match ev with
  | Responds r =>
      Responds (Response (status_code r) (resp_text r) (resp_next r)
                  (option_map hide_in_page (resp_json r)))
  | Fails e => Fails e
  end.

(** ... and in all that the network is going to deliver. *)
Definition hide_skipped (w : world) : world :=
  set_net (map hide_in_event (net w)) w.

(** A computation that neither reads nor changes what the network is
    going to deliver. *)
Definition net_blind {A} (m : M A) : Prop :=
  forall n w, net (snd (m w)) = net w
              /\ m (set_net n w) = (fst (m w), set_net n (snd (m w))).

(** the messages of the fatal errors *)
Definition no_colon_message : string :=
  "Error: Docker credentials must be in format username:password".


Definition hub_failure_message (bad : response) : string :=
  "Error fetching repositories: " ++ pretty (status_code bad) ++ " " ++ resp_text bad.

(** From [w] to [w'] requests were made and lines printed, nothing else. *)
Definition fetched (w w' : world) : Prop :=
  fs w' = fs w /\ spawned w' = spawned w /\ naps w' = naps w
  /\ exists more, sent w' = (sent w ++ more)%list.

(** the command lines of [scan_my_repos_and_orgs] *)
Definition org_scan_cmd (token org : string) : list string :=
  ["trufflehog"; "github"; "--org=" ++ org; "--token=" ++ token; "--json"].

Definition repo_scan_cmd (token repo : string) : list string :=
  ["trufflehog"; "github"; "--repo=" ++ repo; "--token=" ++ token; "--json"].

(** A value or an [AttributeError], and no other exception. *)
Definition attribute_error_at_worst {A} (o : outcome A) : Prop :=
  match o with
  | Ret _ => True
  | Stop (Raised e) => exn_cls e = AttributeError
  | Stop _ => False
  end.

(** *** The bound on the loops *)

(** A value, or an exception: what the operations of values end in. *)
Definition raises_only {A} (o : outcome A) : Prop :=
  match o with
  | Ret _ | Stop (Raised _) => True
  | Stop _ => False
  end.

(** A computation that is never cut off by the bound on the iterations. *)
Definition finishes {A} (m : M A) : Prop :=
  forall w, fst (m w) <> Stop Unfinished.

(** A loop body that is never cut off, and that has drawn a response from
    the network whenever it asks for another turn. *)
Definition draws {S A} (body : S -> M (S + A)) : Prop :=
  forall s w,
    fst (body s w) <> Stop Unfinished
    /\ forall s' w', body s w = (Ret (inl s'), w') ->
                     (length (net w') < length (net w))%nat.

(** ** The requests of the listings *)

(** The address a GitHub listing goes on with after the page [r]:
    [r.links.get('next', {}).get('url')]. *)
Definition next_link (r : response) : string :=
  match resp_next r with Some u => u | None => "" end.

(** The requests of a GitHub listing that starts at [url] with [params]
    and fetches [pages]: every page after the first is asked for at the
    address that the page before it links to, and without parameters. *)
Fixpoint page_requests (headers : list (string * string)) (url : string)
    (params : list (string * string)) (pages : list response) : list request :=
  match pages with
  | [] => []
  | r :: pages' =>
      Request GET url headers params [] :: page_requests headers (next_link r) [] pages'
  end.

(** The headers of [get_profile_repos] (lines 90-92). *)
Definition profile_headers (token : option string) : list (string * string) :=
  match token with
  | Some t => if Py.truthy t then [("Authorization", "token " ++ t)] else []
  | None => []
  end.

(** The address the Docker Hub listing goes on with after the page [r]:
    [data.get("next")], when it is a text. *)
Definition hub_next (r : response) : string :=
  match resp_json r with
  | Some data =>
      match Dyn.get data "next" JNull with
      | Ret (JStr u) => u
      | _ => ""
      end
  | None => ""
  end.

Fixpoint hub_requests (headers : list (string * string)) (url : string)
    (pages : list response) : list request :=
  match pages with
  | [] => []
  | r :: pages' => Request GET url headers [] [] :: hub_requests headers (hub_next r) pages'
  end.

(** [w] after the requests [rqs] were sent and answered, [rest] being
    what the network still holds. *)
Definition after_requests (rqs : list request) (rest : list net_event) (w : world)
    : world :=
  set_net rest (set_sent (sent w ++ rqs) w).

(** A response is a page of the tag listing that holds [tags] and names
    [next] as what follows.  The status of the response is not part of
    this: the script does not look at it. *)
Definition tag_listing_page (r : response) (tags : list json) (next : json) : Prop :=
  exists data results,
    resp_json r = Some data
    /\ Dyn.get data "results" (JArr []) = Ret results
    /\ Dyn.iter results = Ret tags
    /\ Dyn.get data "next" JNull = Ret next.

Definition tag_listing_page_with_next (p : response * list json) : Prop :=
  exists next, tag_listing_page (fst p) (snd p) next /\ Dyn.truthy next = true.

(** The loop that gathers what the generator yields, as
    [list(get_container_tags(name))] does. *)
Definition collect (tag : json) (tags : list json) : M (list json) :=
  ret (tags ++ [tag])%list.

(** the requests for [n] pages of the tags of [name], from the page
    [first] on *)
Fixpoint tag_requests (name : string) (first : Z) (n : nat) : list request :=
  match n with
  | O => []
  | S n' =>
      Request GET (dockerhub_tag_endpoint name first) [] [] []
      :: tag_requests name (first + 1) n'
  end.

(** the line printed when the scan of a repository begins *)
Definition scanning_line (full_repo : string) : string :=
  Py.nl ++ "[+] Scanning repository: " ++ full_repo.

(** ** The lines of a results file *)

(** What [save_to_excel_github] reads off the lines of a text (lines
    258-263, 278-279): of every line that is not blank, stripped, the
    value [json.loads] gives; a line it refuses is left out. *)
Definition parsed_lines (text : string) : list json :=
  flat_map
    (fun line =>
       let line := Py.strip line in
       if Py.truthy line then
         match json_loads line with
         | Some data => [data]
         | None => []
         end
       else [])
    (Py.lines text).

(** a value that is not a dictionary *)
Definition no_dictionary (v : json) : Prop :=
  match v with JObj _ => False | _ => True end.

(** [w] after the writer of sheets refused to write to [path] *)
Definition after_refusal (path : string) (remains : option file_content)
    (w : world) : world :=
  match remains with
  | Some content => set_fs (<[path := content]> (fs w)) w
  | None => w
  end.

(** the line that reports the sheet written *)
Definition saved_line (kind output_file : string) (n : nat) : string :=
  "Parsed " ++ kind ++ " results saved to " ++ output_file ++ " ("
  ++ pretty (Z.of_nat n) ++ " findings)".

(** ** The scans of the GitHub modes *)

(** A command that the scanner runs to its end, and what
    [run_trufflehog] then returns: the standard output followed by the
    standard error. *)
Definition runs_to_its_end (cmd : list string) : Prop :=
  exists out err, run_command cmd = Completed out err.

Definition scan_output (cmd : list string) : string :=
  match run_command cmd with
  | Completed out err => out ++ err
  | _ => ""
  end.

(** the command line of [scan_other_repos] and [scan_profile_repos] *)
Definition plain_scan_cmd (repo : string) : list string :=
  ["trufflehog"; "github"; "--repo=" ++ repo; "--json"].

(** [w] after the lines [printed] were printed and the commands [cmds]
    run. *)
Definition after_scans (printed : list string) (cmds : list (list string))
    (w : world) : world :=
  set_spawned (spawned w ++ cmds) (set_stdout (stdout w ++ printed) w).

(** ** The login at Docker Hub *)

(** the request of [get_docker_token] and the line it prints when the
    login is refused *)
Definition login_request (username password : string) : request :=
  Request POST "https://hub.docker.com/v2/users/login/"
    [("Content-Type", "application/json")] []
    [("username", username); ("password", password)].

Definition login_failed_line (r : response) : string :=
  "Login failed: " ++ pretty (status_code r) ++ " " ++ resp_text r.

(** ** The scan of one's own repositories *)

(** the first requests of [get_user_repos] and of [get_orgs] *)
Definition user_repos_request (token : string) : request :=
  Request GET "https://api.github.com/user/repos"
    [("Authorization", "token " ++ token)]
    [("per_page", "100"); ("type", "owner")] [].

Definition orgs_request (token : string) : request :=
  Request GET "https://api.github.com/user/orgs"
    [("Authorization", "token " ++ token)] [] [].

Definition step_1_line : string :=
  "=== STEP 1: Fetching my repositories and organizations ===".

(** ** The list of images *)

(** What lines 356-358 write to [image.txt]: every repository, followed
    by a line feed. *)
Definition image_list (repos : list string) : string :=
  String.concat "" (map (fun repo => repo ++ Py.nl) repos).

(** a character that ends no line *)
Definition inside_a_line (c : ascii) : bool :=
  negb (Ascii.eqb c "010") && negb (Ascii.eqb c "013").

(** a text that [line.strip()] leaves as it is, that is not empty and
    that holds no line end *)
Definition tidy (s : string) : Prop :=
  Py.truthy s = true /\ Py.strip s = s /\ Py.all_chars inside_a_line s = true.

(** ** A run in the mode of a file of Docker repositories *)

(** the files after [image.txt] was written for [repos] *)
Definition with_image_list (repos : list string) (files : gmap string file_content)
    : gmap string file_content :=
  <["image.txt" := TextFile (image_list repos)]> files.

(** ... and after the export of [rows] to [output_file]: a sheet is
    written when there is a row and an output file is named. *)
Definition with_docker_sheet (output_file : string) (rows : list docker_row)
    (files : gmap string file_content) : gmap string file_content :=
  match rows with
  | _ :: _ =>
      if Py.truthy output_file then <[output_file := DockerSheet rows]> files
      else files
  | [] => files
  end.

(** ** The scan of the repositories of profiles *)

(** The first loop of [scan_profile_repos] (lines 145-149): the
    repositories of the profiles, one profile after the other. *)
Definition list_profiles (token : option string) (profiles : list string)
    : M (list string) :=
  for_each profiles
    (fun profile all_repos =>
       repos <- get_profile_repos profile token ;;
       print ("Profile " ++ profile ++ " has "
              ++ pretty (Z.of_nat (length repos)) ++ " repos") ;;
       ret (all_repos ++ repos)%list)
    [].

(** ** The results file *)

(** The lines that a text completes, and what it leaves of a line it has
    begun ([cur] and the second component hold the characters of that
    line in reverse). *)
Fixpoint lines_split (cur s : string) : list string * string :=
  match s with
  | EmptyString => ([], cur)
  | String c s' =>
      if Ascii.eqb c "010"
      then let '(ls, rest) := lines_split EmptyString s' in
           (String.rev (String c cur) :: ls, rest)
      else lines_split (String c cur) s'
  end.

(** [json.loads] on a line, as a list of no or one value *)
Definition loaded (line : string) : list json :=
  match json_loads line with
  | Some data => [data]
  | None => []
  end.

(** the files after the export of [rows] to [output_file] by
    [save_to_excel_github] *)
Definition with_github_sheet (output_file : string) (rows : list github_row)
    (files : gmap string file_content) : gmap string file_content :=
  match rows with
  | _ :: _ =>
      if Py.truthy output_file then <[output_file := GithubSheet rows]> files
      else files
  | [] => files
  end.

(** ** Reasoning about the monad *)

Lemma bind_ret_eq {A B} (m : M A) (f : A -> M B) w a w' :
  m w = (Ret a, w') -> bind m f w = f a w'.
Proof. intros H. unfold bind. now rewrite H. Qed.

Lemma bind_stop_eq {A B} (m : M A) (f : A -> M B) w h w' :
  m w = (Stop h, w') -> bind m f w = (Stop h, w').
Proof. intros H. unfold bind. now rewrite H. Qed.

Lemma bind_lift_ret {A B} (o : outcome A) (f : A -> M B) w a :
  o = Ret a -> bind (lift o) f w = f a w.
Proof. now intros ->. Qed.

Lemma for_each_app {A S} (l1 l2 : list A) (body : A -> S -> M S) s w :
  for_each (l1 ++ l2)%list body s w
  = bind (for_each l1 body s) (for_each l2 body) w.
Proof.
  revert s w. induction l1 as [|x l1 IH]; intros s w; simpl.
  - reflexivity.
  - unfold bind in *. destruct (body x s w) as [[s'|h] w']; [|reflexivity].
    apply IH.
Qed.

(** ** Exporting nothing *)

(** The rows [save_to_excel_github] gathers from the lines of the results
    file when no line parses: none, and the world is untouched. *)
Lemma github_rows_of_unparsable (ls : list string) (rows : list github_row) w :
  Forall (fun line => Py.truthy (Py.strip line) = true ->
                      json_loads (Py.strip line) = None) ls ->
  for_each ls
    (fun line rows =>
       let line := Py.strip line in
       if negb (Py.truthy line) then ret rows
       else
         match json_loads line with
         | Some data =>
             row <- lift (github_finding_row data) ;;
             ret (rows ++ [row])%list
         | None => ret rows
         end) rows w
  = (Ret rows, w).
Proof.
  induction 1 as [|line ls Hline _ IH]; simpl; [reflexivity|].
  unfold bind at 1. cbv zeta.
  destruct (Py.truthy (Py.strip line)) eqn:Ht; simpl.
  - rewrite (Hline eq_refl). simpl. apply IH.
  - apply IH.
Qed.

(** C8: an export that is handed no finding writes no file, raises
    nothing and prints a message instead.  For the Docker export the
    finding list is its argument; for the GitHub export it is what the
    lines of the results file yield, and it is empty when no line that
    is not blank parses as JSON. *)
Theorem export_of_no_finding_writes_no_file :
  (forall output_file w,
      exists w',
        save_to_excel_docker [] output_file w = (Ret tt, w')
        /\ fs w' = fs w
        /\ stdout w' = (stdout w ++ ["No Docker findings, Excel not created."])%list)
  /\ (forall results_file output_file text w,
        fs w !! results_file = Some (TextFile text) ->
        Forall (fun line => Py.truthy (Py.strip line) = true ->
                            json_loads (Py.strip line) = None)
               (Py.lines (Py.universal_newlines text)) ->
        exists w',
          save_to_excel_github results_file output_file w = (Ret tt, w')
          /\ fs w' = fs w
          /\ stdout w'
             = (stdout w ++ ["No valid GitHub JSON found, Excel not created."])%list).
Proof.
  split.
  - intros output_file w. eexists. split; [reflexivity|]. split; reflexivity.
  - intros results_file output_file text w Hfile Hlines.
    eexists. split.
    + unfold save_to_excel_github.
      erewrite bind_ret_eq; [|unfold read_text; rewrite Hfile; reflexivity].
      erewrite bind_ret_eq; [|apply github_rows_of_unparsable, Hlines].
      reflexivity.
    + split; reflexivity.
Qed.

(** ** Normalising a Docker finding *)

Lemma attribute_error_at_worst_obind {A B} (o : outcome A) (f : A -> outcome B) :
  attribute_error_at_worst o -> (forall a, attribute_error_at_worst (f a)) ->
  attribute_error_at_worst (obind o f).
Proof. destruct o as [a|[]]; cbn; auto. Qed.

Lemma attribute_error_at_worst_get v k d : attribute_error_at_worst (Dyn.get v k d).
Proof. destruct v; cbn; auto. Qed.

(** Whatever the finding, the normaliser raises no [KeyError]. *)
Lemma parse_docker_finding_attribute_error img finding :
  attribute_error_at_worst (parse_docker_finding img finding).
Proof.
  unfold parse_docker_finding, source_metadata.
  repeat first
    [ apply attribute_error_at_worst_get
    | apply attribute_error_at_worst_obind; [|intros ?]
    | exact I ].
Qed.

(** C7, amended: normalising a finding without [ExtraData] (absent or
    null) raises no missing-field error, the one exception it can raise
    being the [AttributeError] of a [SourceMetadata.Data.Docker] chain that
    holds a value that is no dictionary.  When that chain yields a
    dictionary, the finding is normalised; [rotation_guide] and [version]
    are the empty string; an absent [image] comes out as the image
    reference handed to the normaliser, every other absent text field as
    the empty string and an absent [Verified] as [False]. *)
Theorem normalised_defaults (img : string) (finding : list (string * json)) :
  Dyn.lookup "ExtraData" finding = None
  \/ Dyn.lookup "ExtraData" finding = Some JNull ->
  attribute_error_at_worst (parse_docker_finding img (JObj finding))
  /\ forall meta,
       source_metadata (JObj finding) "Docker" = Ret (JObj meta) ->
       exists r,
         parse_docker_finding img (JObj finding) = Ret r
         /\ rotation_guide r = JStr "" /\ version r = JStr ""
         /\ (Dyn.lookup "image" meta = None -> image r = JStr img)
         /\ (Dyn.lookup "tag" meta = None -> tag r = JStr "")
         /\ (Dyn.lookup "layer" meta = None -> layer r = JStr "")
         /\ (Dyn.lookup "file" meta = None -> file r = JStr "")
         /\ (Dyn.lookup "DetectorName" finding = None -> detector_name r = JStr "")
         /\ (Dyn.lookup "DetectorType" finding = None -> detector_type r = JStr "")
         /\ (Dyn.lookup "DetectorDescription" finding = None -> detector_desc r = JStr "")
         /\ (Dyn.lookup "Raw" finding = None -> raw r = JStr "")
         /\ (Dyn.lookup "Redacted" finding = None -> redacted r = JStr "")
         /\ (Dyn.lookup "Verified" finding = None -> verified r = JBool false).
Proof.
  intros Hextra. split; [apply parse_docker_finding_attribute_error|].
  intros meta Hmeta.
  unfold parse_docker_finding. rewrite Hmeta. cbn [obind Dyn.get].
  assert (Hx : (if Dyn.truthy
                     match Dyn.lookup "ExtraData" finding with
                     | Some x => x
                     | None => JNull
                     end
                then match Dyn.lookup "ExtraData" finding with
                     | Some x => x
                     | None => JNull
                     end
                else JObj []) = JObj []).
  { destruct Hextra as [-> | ->]; reflexivity. }
  rewrite Hx. cbn [obind Dyn.get Dyn.lookup].
  eexists. split; [reflexivity|]. cbn.
  repeat split; intros ->; reflexivity.
Qed.

(** ** Facts about the string methods *)

Lemma contains_char_cons (c d : ascii) (s : string) :
  Py.contains (String c EmptyString) (String d s)
  = Ascii.eqb c d || Py.contains (String c EmptyString) s.
Proof.
  simpl. destruct (ascii_dec c d) as [->|Hne].
  - rewrite Ascii.eqb_refl. now destruct s.
  - apply Ascii.eqb_neq in Hne. now rewrite Hne.
Qed.

Lemma contains_char_nil (c : ascii) :
  Py.contains (String c EmptyString) EmptyString = false.
Proof. reflexivity. Qed.

Lemma contains_char_lstrip (c : ascii) (p : ascii -> bool) (s : string) :
  Py.contains (String c EmptyString) s = false ->
  Py.contains (String c EmptyString) (Py.lstrip_by p s) = false.
Proof.
  induction s as [|d s IH]; [easy|].
  intros H. cbn [Py.lstrip_by]. destruct (p d); [|exact H].
  rewrite contains_char_cons in H. apply orb_false_elim in H as [_ H]. auto.
Qed.

Lemma contains_char_rstrip (c : ascii) (p : ascii -> bool) (s : string) :
  Py.contains (String c EmptyString) s = false ->
  Py.contains (String c EmptyString) (Py.rstrip_by p s) = false.
Proof.
  induction s as [|d s IH]; [easy|].
  intros H. rewrite contains_char_cons in H.
  apply orb_false_elim in H as [Hd H]. specialize (IH H).
  cbn [Py.rstrip_by]. destruct (Py.rstrip_by p s) as [|d' t].
  - destruct (p d); [reflexivity|].
    rewrite contains_char_cons, Hd. reflexivity.
  - rewrite contains_char_cons, Hd. exact IH.
Qed.

Lemma contains_char_strip (c : ascii) (s : string) :
  Py.contains (String c EmptyString) s = false ->
  Py.contains (String c EmptyString) (Py.strip s) = false.
Proof.
  intros H. unfold Py.strip, Py.strip_by.
  now apply contains_char_rstrip, contains_char_lstrip.
Qed.

(** ** The credential loader *)

(** An entry of the credential file is read, or reading it raises. *)
Lemma first_entry_cases (conf : json) (key : string) :
  (exists o, first_entry conf key = Ret o)
  \/ (exists e, first_entry conf key = Stop (Raised e)).
Proof.
  unfold first_entry.
  destruct (Dyn.contains key conf) as [[|]|h] eqn:Hc; cbn [obind].
  - destruct (Dyn.getitem conf key) as [entry|h] eqn:Hg; cbn [obind].
    + destruct (Dyn.truthy entry); [|left; eauto].
      destruct (Dyn.getitem0 entry) as [first|h] eqn:H0; cbn [obind].
      * destruct first; cbn; first [left; eauto; fail | right; eauto].
      * right. destruct entry as [| | | [|] | [|] |]; cbn in H0;
          try discriminate; inversion H0; eauto.
    + right. destruct conf; cbn in Hg; try (inversion Hg; eauto; fail).
      destruct (Dyn.lookup key fields); inversion Hg; eauto.
  - left; eauto.
  - right. destruct conf; cbn in Hc; try discriminate; inversion Hc; eauto.
Qed.

Lemma first_entry_of_list (conf : list (string * json)) key line rest :
  Dyn.lookup key conf = Some (JArr (JStr line :: rest)) ->
  first_entry (JObj conf) key = Ret (Some (Py.strip line)).
Proof. intros H. unfold first_entry. cbn. rewrite H. reflexivity. Qed.

Lemma read_credentials_without_colon w text conf line rest :
  fs w !! "cred.conf" = Some (TextFile text) ->
  yaml_safe_load (Py.universal_newlines text) = inr (JObj conf) ->
  Dyn.lookup "docker" conf = Some (JArr (JStr line :: rest)) ->
  Py.contains ":" line = false ->
  match first_entry (JObj conf) "github" with
  | Ret _ =>
      read_credentials w
      = (Stop (Exited 1), set_stdout (stdout w ++ [no_colon_message]) w)
  | Stop h => read_credentials w = (Stop h, w)
  end.
Proof.
  intros Hfile Hyaml Hdocker Hcolon.
  assert (Hrun : read_credentials w
            = bind (lift (first_entry (JObj conf) "github"))
                (fun github_token =>
                   docker_line <- lift (first_entry (JObj conf) "docker") ;;
                   match docker_line with
                   | Some line =>
                       if negb (Py.contains ":" line) then
                         print no_colon_message ;; sys_exit 1
                       else
                         match Py.split1 ":" line with
                         | [docker_user; docker_pass] =>
                             ret (github_token, Some docker_user, Some docker_pass)
                         | _ => lift (raise ValueError "not enough values to unpack")
                         end
                   | None => ret (github_token, None, None)
                   end) w).
  { unfold read_credentials.
    erewrite bind_ret_eq by (unfold path_exists; rewrite Hfile; reflexivity).
    cbn [negb].
    erewrite bind_ret_eq by (unfold read_text; rewrite Hfile; reflexivity).
    rewrite Hyaml. reflexivity. }
  rewrite Hrun. unfold bind at 1, lift at 1.
  destruct (first_entry (JObj conf) "github") as [token|h]; [|reflexivity].
  unfold bind at 1, lift at 1.
  rewrite (first_entry_of_list _ _ _ _ Hdocker).
  rewrite (contains_char_strip _ _ Hcolon). reflexivity.
Qed.

(** C6: with a credential file whose [docker] entry starts with a text
    that has no colon, the process stops in the loader, before any HTTP
    request is made and before any command is run.  It stops through
    [sys.exit(1)] with the message about the format, unless reading the
    [github] entry, which comes first, has already raised. *)
Theorem docker_entry_without_colon_is_fatal
    (a : args) (w : world) (text : string)
    (conf : list (string * json)) (line : string) (rest : list json) :
  fs w !! "cred.conf" = Some (TextFile text) ->
  yaml_safe_load (Py.universal_newlines text) = inr (JObj conf) ->
  Dyn.lookup "docker" conf = Some (JArr (JStr line :: rest)) ->
  Py.contains ":" line = false ->
  exists h w',
    main a w = (Stop h, w')
    /\ (h = Exited 1 \/ exists e, h = Raised e)
    /\ (forall token, first_entry (JObj conf) "github" = Ret token ->
                      h = Exited 1
                      /\ stdout w' = (stdout w ++ [no_colon_message])%list)
    /\ sent w' = sent w /\ net w' = net w /\ spawned w' = spawned w
    /\ fs w' = fs w.
Proof.
  intros Hfile Hyaml Hdocker Hcolon.
  pose proof (read_credentials_without_colon w text conf line rest
                Hfile Hyaml Hdocker Hcolon) as Hrc.
  destruct (first_entry_cases (JObj conf) "github") as [[o Ho]|[e He]].
  - rewrite Ho in Hrc. eexists _, _. split.
    + unfold main. apply bind_stop_eq. exact Hrc.
    + split; [now left|]. split; [|now cbn].
      intros _ _. split; reflexivity.
  - rewrite He in Hrc. eexists _, _. split.
    + unfold main. apply bind_stop_eq. exact Hrc.
    + split; [right; eauto|]. split; [|now cbn].
      intros token Htoken. rewrite He in Htoken. discriminate.
Qed.

(** ** Failures of a scan *)


(** ** The GitHub listings *)

Section GithubLoop.
Context {T : Type}.
Variable headers : list (string * string).
Variable item : json -> outcome T.
Variable on_failure : Z -> M unit.

Lemma fetched_refl w : fetched w w.
Proof. repeat split. exists []. now rewrite app_nil_r. Qed.

Lemma fetched_trans w1 w2 w3 : fetched w1 w2 -> fetched w2 w3 -> fetched w1 w3.
Proof.
  intros (Hf & Hs & Hn & m & Hm) (Hf' & Hs' & Hn' & m' & Hm').
  repeat split; try congruence.
  exists (m ++ m')%list. rewrite Hm', Hm. now rewrite app_assoc.
Qed.

Lemma github_page_more url params acc w r tail names :
  net w = Responds r :: tail ->
  page_with_next item (r, names) ->
  exists next,
    github_page headers item on_failure (url, params, acc) w
    = (Ret (inl (next, [], (acc ++ names)%list)),
       set_net tail (set_sent (sent w ++ [Request GET url headers params []]) w)).
Proof.
  intros Hnet [(Hstatus & data & elements & Hjson & Hiter & Hitems) Hnext].
  cbn [fst snd] in *.
  destruct (resp_next r) as [next|] eqn:Hn; [|discriminate].
  exists next. unfold github_page.
  erewrite bind_ret_eq
    by (unfold requests_get, http; rewrite Hnet; reflexivity).
  rewrite Hstatus. cbn [Z.eqb Pos.eqb negb].
  unfold response_json. rewrite Hjson.
  erewrite bind_ret_eq by reflexivity.
  erewrite bind_lift_ret by exact Hiter.
  erewrite bind_lift_ret by exact Hitems.
  rewrite Hn. cbn in Hnext. rewrite Hnext. reflexivity.
Qed.

(** Pages that link on are gathered one after the other. *)
Lemma github_pages_prefix (pages : list (response * list T)) :
  forall fuel url params acc w tail,
    Forall (page_with_next item) pages ->
    net w = (responses pages ++ tail)%list ->
    exists url' params' w',
      while_fuel (length pages + fuel) (github_page headers item on_failure)
        (url, params, acc) w
      = while_fuel fuel (github_page headers item on_failure)
          (url', params', (acc ++ gathered pages)%list) w'
      /\ net w' = tail /\ stdout w' = stdout w /\ fetched w w'
      /\ (pages = [] -> url' = url /\ params' = params /\ w' = w).
Proof.
  induction pages as [|[r names] pages IH];
    intros fuel url params acc w tail Hpages Hnet.
  - exists url, params, w. cbn. rewrite app_nil_r.
    repeat split; auto using fetched_refl.
    exists []. now rewrite app_nil_r.
  - inversion Hpages as [|? ? Hpage Hrest]; subst.
    destruct (github_page_more url params acc w r
                (responses pages ++ tail)%list names Hnet Hpage)
      as [next Hstep].
    edestruct (IH fuel next [] (acc ++ names)%list
                 (set_net (responses pages ++ tail)%list
                    (set_sent (sent w ++ [Request GET url headers params []]) w))
                 tail Hrest eq_refl)
      as (url' & params' & w' & Hrun & Hnet' & Hout & Hfetched & _).
    exists url', params', w'. split; [|split; [|split; [|split]]].
    + cbn [length Nat.add while_fuel].
      erewrite bind_ret_eq by exact Hstep.
      cbv beta iota. rewrite Hrun. unfold gathered. cbn [map concat snd].
      now rewrite app_assoc.
    + exact Hnet'.
    + exact Hout.
    + eapply fetched_trans; [|exact Hfetched].
      repeat split. eexists. reflexivity.
    + discriminate.
Qed.

(** A response that is not a 200 ends the loop with what was gathered. *)
Lemma github_page_failed fuel url params acc w bad rest :
  net w = Responds bad :: rest ->
  status_code bad <> 200 ->
  while_fuel (S fuel) (github_page headers item on_failure) (url, params, acc) w
  = (_ <- on_failure (status_code bad) ;; ret acc)
      (set_net rest (set_sent (sent w ++ [Request GET url headers params []]) w)).
Proof.
  intros Hnet Hbad. cbn [while_fuel]. unfold github_page.
  unfold bind at 1. unfold bind at 1.
  unfold requests_get, http. rewrite Hnet.
  apply Z.eqb_neq in Hbad. rewrite Hbad. cbn [negb].
  unfold bind. destruct (on_failure _ _) as [[[]|h] w']; reflexivity.
Qed.

(** A page without a link to a next one ends the loop as well. *)
Lemma github_page_last fuel url params acc w r names rest :
  net w = Responds r :: rest ->
  page_yields item r names ->
  Py.truthy_opt (resp_next r) = false ->
  while_fuel (S fuel) (github_page headers item on_failure) (url, params, acc) w
  = (Ret (acc ++ names)%list,
     set_net rest (set_sent (sent w ++ [Request GET url headers params []]) w)).
Proof.
  intros Hnet (Hstatus & data & elements & Hjson & Hiter & Hitems) Hnext.
  cbn [while_fuel]. unfold github_page.
  erewrite bind_ret_eq.
  2:{ erewrite bind_ret_eq
        by (unfold requests_get, http; rewrite Hnet; reflexivity).
      rewrite Hstatus. cbn [Z.eqb Pos.eqb negb].
      unfold response_json. rewrite Hjson.
      erewrite bind_ret_eq by reflexivity.
      erewrite bind_lift_ret by exact Hiter.
      erewrite bind_lift_ret by exact Hitems.
      destruct (resp_next r) as [next|]; [|reflexivity].
      cbn in Hnext. rewrite Hnext. reflexivity. }
  reflexivity.
Qed.

(** [on_failure] does no more than print. *)
Hypothesis on_failure_prints :
  forall c w, exists w',
    on_failure c w = (Ret tt, w') /\ net w' = net w /\ fetched w w'.

Lemma length_responses (pages : list (response * list T)) :
  length (responses pages) = length pages.
Proof. unfold responses. now rewrite length_map. Qed.

(** The listing that meets a response other than a 200 returns the
    pages gathered before it. *)
Lemma github_listing_failed url params w pages bad rest :
  Forall (page_with_next item) pages ->
  net w = (responses pages ++ Responds bad :: rest)%list ->
  status_code bad <> 200 ->
  exists w',
    while_net (github_page headers item on_failure) (url, params, []) w
    = (Ret (gathered pages), w')
    /\ net w' = rest /\ fetched w w'.
Proof.
  intros Hpages Hnet Hbad.
  destruct (github_pages_prefix pages (S (S (length rest))) url params [] w
              (Responds bad :: rest) Hpages Hnet)
    as (url' & params' & w1 & Hrun & Hnet1 & _ & Hfetched & _).
  destruct (on_failure_prints (status_code bad)
              (set_net rest
                 (set_sent (sent w1 ++ [Request GET url' headers params' []]) w1)))
    as (w2 & Hfail & Hnet2 & Hfetched2).
  exists w2. split; [|split].
  - unfold while_net. rewrite Hnet, length_app, length_responses.
    cbn [length]. rewrite <- Nat.add_succ_r, Hrun.
    rewrite (github_page_failed _ _ _ _ _ _ _ Hnet1 Hbad).
    erewrite bind_ret_eq by exact Hfail. reflexivity.
  - rewrite Hnet2. reflexivity.
  - eapply fetched_trans; [exact Hfetched|].
    eapply fetched_trans; [|exact Hfetched2].
    repeat split. eexists. reflexivity.
Qed.

(** The listing whose last page links no further returns all pages. *)
Lemma github_listing_complete url params w pages r names rest :
  Forall (page_with_next item) pages ->
  page_yields item r names ->
  Py.truthy_opt (resp_next r) = false ->
  net w = (responses pages ++ Responds r :: rest)%list ->
  exists w',
    while_net (github_page headers item on_failure) (url, params, []) w
    = (Ret (gathered pages ++ names)%list, w')
    /\ net w' = rest /\ stdout w' = stdout w /\ fetched w w'.
Proof.
  intros Hpages Hlast Hnext Hnet.
  destruct (github_pages_prefix pages (S (S (length rest))) url params [] w
              (Responds r :: rest) Hpages Hnet)
    as (url' & params' & w1 & Hrun & Hnet1 & Hout & Hfetched & _).
  eexists. split; [|split; [|split]].
  - unfold while_net. rewrite Hnet, length_app, length_responses.
    cbn [length]. rewrite <- Nat.add_succ_r, Hrun.
    rewrite (github_page_last _ _ _ _ _ _ _ _ Hnet1 Hlast Hnext).
    reflexivity.
  - reflexivity.
  - exact Hout.
  - eapply fetched_trans; [exact Hfetched|].
    repeat split. eexists. reflexivity.
Qed.

End GithubLoop.

Lemma silent_only_prints :
  forall (c : Z) w, exists w',
    (fun _ : Z => ret tt) c w = (Ret tt, w') /\ net w' = net w /\ fetched w w'.
Proof. intros c w. exists w. auto using fetched_refl. Qed.

Lemma print_only_prints (message : Z -> string) :
  forall (c : Z) w, exists w',
    (fun c => print (message c)) c w = (Ret tt, w')
    /\ net w' = net w /\ fetched w w'.
Proof.
  intros c w. eexists. split; [reflexivity|]. split; [reflexivity|].
  repeat split. exists []. now rewrite app_nil_r.
Qed.

(** ** The Docker Hub repository listing *)

Lemma hub_page_more headers u acc w r tail names :
  net w = Responds r :: tail ->
  hub_page_with_next (r, names) ->
  exists next,
    hub_page headers (JStr u, acc) w
    = (Ret (inl (JStr next, (acc ++ names)%list)),
       set_net tail (set_sent (sent w ++ [Request GET u headers [] []]) w)).
Proof.
  intros Hnet (next & (Hstatus & data & results & elements & Hjson & Hres
                       & Hiter & Hnames & Hnext) & Htruthy).
  cbn [fst snd] in *. exists next. unfold hub_page, requests_get_dyn.
  erewrite bind_ret_eq
    by (unfold requests_get, http; rewrite Hnet; reflexivity).
  rewrite Hstatus. cbn [Z.eqb Pos.eqb negb].
  unfold response_json. rewrite Hjson.
  erewrite bind_ret_eq by reflexivity.
  erewrite bind_lift_ret by exact Hres.
  erewrite bind_lift_ret by exact Hiter.
  erewrite bind_lift_ret by exact Hnames.
  erewrite bind_lift_ret by exact Hnext.
  cbn [Dyn.truthy]. rewrite Htruthy. reflexivity.
Qed.

Lemma hub_pages_prefix headers (pages : list (response * list json)) :
  forall fuel u acc w tail,
    Forall hub_page_with_next pages ->
    net w = (responses pages ++ tail)%list ->
    exists u' w',
      while_fuel (length pages + fuel) (hub_page headers) (JStr u, acc) w
      = while_fuel fuel (hub_page headers)
          (JStr u', (acc ++ gathered pages)%list) w'
      /\ net w' = tail /\ stdout w' = stdout w /\ fetched w w'.
Proof.
  induction pages as [|[r names] pages IH]; intros fuel u acc w tail Hpages Hnet.
  - exists u, w. cbn. rewrite app_nil_r. auto using fetched_refl.
  - inversion Hpages as [|? ? Hpage Hrest]; subst.
    destruct (hub_page_more headers u acc w r (responses pages ++ tail)%list
                names Hnet Hpage) as [next Hstep].
    edestruct (IH fuel next (acc ++ names)%list
                 (set_net (responses pages ++ tail)%list
                    (set_sent (sent w ++ [Request GET u headers [] []]) w))
                 tail Hrest eq_refl)
      as (u' & w' & Hrun & Hnet' & Hout & Hfetched).
    exists u', w'. split; [|split; [|split]].
    + cbn [length Nat.add while_fuel].
      erewrite bind_ret_eq by exact Hstep.
      cbv beta iota. rewrite Hrun. unfold gathered. cbn [map concat snd].
      now rewrite app_assoc.
    + exact Hnet'.
    + exact Hout.
    + eapply fetched_trans; [|exact Hfetched].
      repeat split. eexists. reflexivity.
Qed.

(** The Docker Hub listing that meets a response other than a 200 ends
    the process. *)
Lemma list_repositories_failed username token w pages bad rest :
  Forall hub_page_with_next pages ->
  net w = (responses pages ++ Responds bad :: rest)%list ->
  status_code bad <> 200 ->
  exists w',
    list_repositories username token w = (Stop (Exited 1), w')
    /\ net w' = rest
    /\ stdout w' = (stdout w ++ [hub_failure_message bad])%list
    /\ fetched w w'.
Proof.
  intros Hpages Hnet Hbad. unfold list_repositories.
  set (headers := [("Authorization", "JWT " ++ fstr token)]).
  set (u := "https://hub.docker.com/v2/repositories/" ++ username ++ "/").
  destruct (hub_pages_prefix headers pages (S (S (length rest))) u [] w
              (Responds bad :: rest) Hpages Hnet)
    as (u' & w1 & Hrun & Hnet1 & Hout & Hfetched).
  eexists. split; [|split; [|split]].
  - unfold while_net. rewrite Hnet, length_app, length_responses.
    cbn [length]. rewrite <- Nat.add_succ_r, Hrun.
    cbn [while_fuel]. unfold hub_page, requests_get_dyn.
    apply bind_stop_eq.
    erewrite bind_ret_eq
      by (unfold requests_get, http; rewrite Hnet1; reflexivity).
    apply Z.eqb_neq in Hbad. rewrite Hbad. cbn [negb]. reflexivity.
  - reflexivity.
  - cbn. rewrite Hout. reflexivity.
  - eapply fetched_trans; [exact Hfetched|].
    repeat split. eexists. reflexivity.
Qed.

Ltac apply_listing_failed Hprints Hpages Hnet Hbad :=
  match goal with
  | |- context [while_net (github_page ?h ?i ?f) (?u, ?p, [])] =>
      let w' := fresh "w'" in
      let Hrun := fresh "Hrun" in
      let Hnet' := fresh "Hnet'" in
      destruct (github_listing_failed h i f Hprints u p _ _ _ _ Hpages Hnet Hbad)
        as (w' & Hrun & Hnet' & _);
      exists w'; split; [exact Hrun | exact Hnet']
  end.

(** C1, amended.  When a page request of a listing is answered with a
    status other than 200 after pages that yielded their names and
    linked on: the three GitHub listings return the names of those
    earlier pages, in order, and the process goes on; the Docker Hub
    repository listing prints the status and ends the process through
    [sys.exit(1)]. *)
Theorem listing_on_failed_page (bad : response) (rest : list net_event) :
  status_code bad <> 200 ->
  (forall token pages w,
      Forall (page_with_next repo_url) pages ->
      net w = (responses pages ++ Responds bad :: rest)%list ->
      exists w',
        get_user_repos token w = (Ret (gathered pages), w') /\ net w' = rest)
  /\ (forall token pages w,
        Forall (page_with_next (fun org => Dyn.getitem org "login")) pages ->
        net w = (responses pages ++ Responds bad :: rest)%list ->
        exists w',
          get_orgs token w = (Ret (gathered pages), w') /\ net w' = rest)
  /\ (forall profile_url token path pages w,
        urlparse_path profile_url = Some path ->
        Py.truthy (Py.strip_chars "/" path) = true ->
        Forall (page_with_next repo_url) pages ->
        net w = (responses pages ++ Responds bad :: rest)%list ->
        exists w',
          get_profile_repos profile_url token w = (Ret (gathered pages), w')
          /\ net w' = rest)
  /\ (forall username token pages w,
        Forall hub_page_with_next pages ->
        net w = (responses pages ++ Responds bad :: rest)%list ->
        exists w',
          list_repositories username token w = (Stop (Exited 1), w')
          /\ net w' = rest
          /\ stdout w' = (stdout w ++ [hub_failure_message bad])%list).
Proof.
  intros Hbad. split; [|split; [|split]].
  - intros token pages w Hpages Hnet. unfold get_user_repos.
    cbv zeta. apply_listing_failed silent_only_prints Hpages Hnet Hbad.
  - intros token pages w Hpages Hnet. unfold get_orgs.
    cbv zeta. apply_listing_failed silent_only_prints Hpages Hnet Hbad.
  - intros profile_url token path pages w Hpath Huser Hpages Hnet.
    unfold get_profile_repos. rewrite Hpath.
    erewrite bind_lift_ret by reflexivity.
    rewrite Huser. cbn [negb].
    apply_listing_failed (print_only_prints
      (fun status => "Failed to fetch repos for " ++ Py.strip_chars "/" path
                     ++ ": " ++ pretty status)) Hpages Hnet Hbad.
  - intros username token pages w Hpages Hnet.
    destruct (list_repositories_failed username token w pages bad rest
                Hpages Hnet Hbad) as (w' & Hrun & Hnet' & Hout & _).
    eauto.
Qed.

(** ** The user name of a profile *)

Lemma char_in_slash (c : ascii) : Py.char_in "/" c = Ascii.eqb c "/".
Proof. cbn. apply orb_false_r. Qed.

Lemma prefix_char (a c : ascii) (s : string) :
  String.prefix (String a EmptyString) (String c s) = Ascii.eqb c a.
Proof.
  simpl. destruct (ascii_dec a c) as [<-|Hne].
  - rewrite Ascii.eqb_refl. now destruct s.
  - symmetry. apply Ascii.eqb_neq. congruence.
Qed.

Lemma prefix_slash (c : ascii) (s : string) :
  String.prefix "/" (String c s) = Ascii.eqb c "/".
Proof. apply prefix_char. Qed.

Lemma contains_slash_cons (c : ascii) (s : string) :
  Py.contains "/" (String c s) = Ascii.eqb c "/" || Py.contains "/" s.
Proof.
  change "/" with (String "/"%char EmptyString).
  now rewrite contains_char_cons, Ascii.eqb_sym.
Qed.

Lemma split_go_without_slash (s cur : string) :
  Py.contains "/" s = false ->
  Py.split_go "/" 0 cur s = [String.rev_app cur s].
Proof.
  revert cur. induction s as [|c s IH]; intros cur H; [reflexivity|].
  rewrite contains_slash_cons in H. apply orb_false_elim in H as [Hc Hs].
  cbn [Py.split_go]. rewrite prefix_slash, Hc. now rewrite IH.
Qed.

Lemma split_go_not_nil sep skip cur s : Py.split_go sep skip cur s <> [].
Proof.
  revert skip cur. induction s as [|c s IH]; intros skip cur;
    cbn [Py.split_go]; [easy|].
  destruct skip; [|apply IH].
  destruct (String.prefix sep (String c s)); [easy|apply IH].
Qed.

Lemma last_cons_not_nil {A} (x : A) l d : l <> [] -> List.last (x :: l) d = List.last l d.
Proof. now destruct l. Qed.

Lemma last_split_slash (s : string) :
  Py.contains "/" (Py.lstrip_by (Py.char_in "/") s) = false ->
  List.last (Py.split "/" s) "" = Py.lstrip_by (Py.char_in "/") s.
Proof.
  unfold Py.split. induction s as [|c s IH]; intros H; [reflexivity|].
  cbn [Py.lstrip_by] in *. rewrite char_in_slash in *.
  cbn [Py.split_go]. rewrite prefix_slash.
  destruct (Ascii.eqb c "/") eqn:Hc.
  - cbn [String.length Nat.pred].
    rewrite last_cons_not_nil by apply split_go_not_nil. now apply IH.
  - rewrite contains_slash_cons, Hc in H. cbn [orb] in H.
    now rewrite split_go_without_slash.
Qed.

Lemma lstrip_rstrip (p : ascii -> bool) (s : string) :
  Py.lstrip_by p (Py.rstrip_by p s) = Py.rstrip_by p (Py.lstrip_by p s).
Proof.
  induction s as [|c s IH]; [reflexivity|].
  cbn [Py.lstrip_by Py.rstrip_by]. destruct (p c) eqn:Hc.
  - rewrite <- IH. destruct (Py.rstrip_by p s); cbn [Py.lstrip_by];
      rewrite ?Hc; reflexivity.
  - cbn [Py.rstrip_by]. destruct (Py.rstrip_by p s); rewrite ?Hc;
      cbn [Py.lstrip_by]; rewrite ?Hc; reflexivity.
Qed.

(** A path of one segment: the path stripped of its slashes is that
    segment. *)
Lemma one_segment (path : string) :
  Py.contains "/" (Py.strip_chars "/" path) = false ->
  trailing_segment path = Py.strip_chars "/" path.
Proof.
  unfold trailing_segment, Py.strip_chars, Py.rstrip_chars, Py.strip_by.
  rewrite <- lstrip_rstrip. apply last_split_slash.
Qed.

(** The first thing a turn of the loop does is to send its request, and
    nothing that follows takes a request back. *)
Lemma github_page_sends {T} headers (item : json -> outcome T) message url params acc w :
  exists more,
    sent (snd (github_page headers item (fun c => print (message c))
                 (url, params, acc) w))
    = (sent w ++ Request GET url headers params [] :: more)%list.
Proof.
  exists []. unfold github_page, bind, requests_get, http.
  destruct (net w) as [|[r|e] tail]; [reflexivity| |reflexivity].
  destruct (negb (status_code r =? 200)); [reflexivity|].
  unfold response_json. destruct (resp_json r) as [data|]; [|reflexivity].
  cbn. destruct (Dyn.iter data) as [elements|h]; [|reflexivity].
  cbn. destruct (omap item elements) as [names|h]; [|reflexivity].
  destruct (resp_next r) as [next|]; [|reflexivity].
  destruct (Py.truthy next); reflexivity.
Qed.

Lemma github_page_fetched {T} headers (item : json -> outcome T) message st w :
  fetched w (snd (github_page headers item (fun c => print (message c)) st w)).
Proof.
  destruct st as [[url params] acc].
  destruct (github_page_sends headers item message url params acc w) as [more Hmore].
  repeat split; [| | |eexists; exact Hmore];
    unfold github_page, bind, requests_get, http;
    (destruct (net w) as [|[r|e] tail]; [reflexivity| |reflexivity]);
    (destruct (negb (status_code r =? 200)); [reflexivity|]);
    unfold response_json; (destruct (resp_json r) as [data|]; [|reflexivity]);
    cbn; (destruct (Dyn.iter data) as [elements|h]; [|reflexivity]);
    cbn; (destruct (omap item elements) as [names|h]; [|reflexivity]);
    (destruct (resp_next r) as [next|]; [|reflexivity]);
    destruct (Py.truthy next); reflexivity.
Qed.

Lemma github_loop_fetched {T} headers (item : json -> outcome T) message fuel :
  forall st w,
    fetched w (snd (while_fuel fuel
                      (github_page headers item (fun c => print (message c))) st w)).
Proof.
  induction fuel as [|fuel IH]; intros st w; [apply fetched_refl|].
  cbn [while_fuel]. unfold bind.
  pose proof (github_page_fetched headers item message st w) as Hstep.
  destruct (github_page headers item _ st w) as [[[st'|names]|h] w'];
    cbn [snd] in *; auto.
  eapply fetched_trans; [exact Hstep|apply IH].
Qed.

(** C4, amended: the user whose repositories a profile address asks for
    is named by the whole path of the address, its leading and trailing
    slashes stripped: the listing starts with the request for that user.
    When nothing is left of the path, no request is made and the listing
    is empty.  The user is the trailing segment of the path when the path
    has one segment only. *)
Theorem profile_user_is_stripped_path
    (profile_url : string) (token : option string) (path : string) (w : world) :
  urlparse_path profile_url = Some path ->
  (Py.truthy (Py.strip_chars "/" path) = true ->
   exists rq more,
     sent (snd (get_profile_repos profile_url token w)) = (sent w ++ rq :: more)%list
     /\ req_method rq = GET
     /\ req_url rq
        = "https://api.github.com/users/" ++ Py.strip_chars "/" path ++ "/repos")
  /\ (Py.truthy (Py.strip_chars "/" path) = false ->
      get_profile_repos profile_url token w
      = (Ret [], set_stdout (stdout w ++ ["Invalid profile URL: " ++ profile_url]) w))
  /\ (Py.contains "/" (Py.strip_chars "/" path) = false ->
      Py.strip_chars "/" path = trailing_segment path).
Proof.
  intros Hpath.
  split; [|split; [|intros H; symmetry; now apply one_segment]].
  - intros Huser.
    unfold get_profile_repos. rewrite Hpath.
    erewrite bind_lift_ret by reflexivity.
    rewrite Huser. cbn [negb]. cbv zeta.
    unfold while_net. cbn [while_fuel]. unfold bind at 1.
    match goal with
    | |- context [github_page ?h ?i (fun c => print (@?m c)) (?u, ?p, ?a) w] =>
        destruct (github_page_sends h i m u p a w) as [more Hmore];
        pose proof (github_loop_fetched h i m) as Hloop;
        destruct (github_page h i (fun c => print (m c)) (u, p, a) w)
          as [[[st'|names]|hlt] w'] eqn:Hstep
    end; cbn [snd] in *.
    + specialize (Hloop (length (net w)) st' w').
      destruct Hloop as (_ & _ & _ & more' & Hmore').
      eexists _, (more ++ more')%list.
      split; [rewrite Hmore', Hmore, <- app_assoc; reflexivity|].
      split; reflexivity.
    + eexists _, more. split; [exact Hmore|split; reflexivity].
    + eexists _, more. split; [exact Hmore|split; reflexivity].
  - intros Huser. unfold get_profile_repos. rewrite Hpath.
    erewrite bind_lift_ret by reflexivity.
    rewrite Huser. reflexivity.
Qed.

(** ** Scanning the images of a repository *)

Lemma scanned_refl w : scanned [] 0 w w.
Proof. unfold scanned. rewrite app_nil_r, Nat.add_0_r. auto. Qed.

Lemma scanned_trans c1 n1 c2 n2 w1 w2 w3 :
  scanned c1 n1 w1 w2 -> scanned c2 n2 w2 w3 ->
  scanned (c1 ++ c2)%list (n1 + n2) w1 w3.
Proof.
  intros (Hs & Hn & Hnet & Hsent & Hfs) (Hs' & Hn' & Hnet' & Hsent' & Hfs').
  unfold scanned. rewrite Hs', Hs, Hn', Hn, Hnet', Hsent', Hfs'.
  rewrite app_assoc, Nat.add_assoc. auto.
Qed.

Lemma scan_rows_findings full_repo image rows :
  scan_rows full_repo image = Some rows ->
  omap (parse_docker_finding full_repo) (scan_findings image) = Ret rows.
Proof.
  unfold scan_rows, scan_findings.
  destruct (run_command (docker_scan_cmd image)) as [out err|e|].
  - destruct (omap _ _); congruence.
  - destruct (is_Exception e); [|discriminate]. now intros [= <-].
  - discriminate.
Qed.

Lemma scan_image_rows full_repo image acc w rows :
  scan_rows full_repo image = Some rows ->
  exists w',
    scan_image full_repo image acc w = (Ret (acc ++ rows)%list, w')
    /\ scanned [docker_scan_cmd image] 0 w w'.
Proof.
  intros Hrows. pose proof (scan_rows_findings _ _ _ Hrows) as Hfind.
  unfold scan_rows in Hrows. unfold scan_findings in Hfind.
  unfold scan_image, scan_with_trufflehog, try_except, subprocess_run.
  unfold bind at 1. unfold bind at 1.
  destruct (run_command (docker_scan_cmd image)) as [out err|e|];
    [| |discriminate].
  - cbn [fst]. unfold ret at 1. erewrite bind_lift_ret by exact Hfind.
    eexists. split; [reflexivity|].
    unfold scanned. cbn. rewrite Nat.add_0_r. auto.
  - destruct (is_Exception e); [|discriminate]. injection Hrows as <-.
    unfold print, bind at 1, ret at 1. cbn [omap].
    erewrite bind_lift_ret by reflexivity.
    eexists. split; [reflexivity|].
    unfold scanned. cbn. rewrite Nat.add_0_r. auto.
Qed.

(** The loop over the images of a tag (lines 368-374). *)
Lemma scan_digests full_repo (elements digests : list json) :
  forall acc w (rowss : list (list docker_row)),
    omap (fun img => Dyn.getitem img "digest") elements = Ret digests ->
    Forall2 (fun image rows => scan_rows full_repo image = Some rows)
      (map (image_ref full_repo) digests) rowss ->
    exists w',
      for_each elements (scan_digest full_repo) acc w
      = (Ret (acc ++ concat rowss)%list, w')
      /\ scanned (map docker_scan_cmd (map (image_ref full_repo) digests))
           (length digests) w w'.
Proof.
  revert digests. induction elements as [|img elements IH];
    intros digests acc w rowss Hdigests Hrows.
  - injection Hdigests as <-. inversion Hrows; subst.
    exists w. cbn. rewrite app_nil_r. auto using scanned_refl.
  - cbn [omap] in Hdigests.
    destruct (Dyn.getitem img "digest") as [digest|] eqn:Hd; [|discriminate].
    cbn [obind] in Hdigests.
    destruct (omap _ elements) as [digests'|] eqn:Hds; [|discriminate].
    injection Hdigests as <-.
    cbn [map] in Hrows.
    inversion Hrows as [|? rows ? rowss' Hr Hrs]; subst.
    destruct (scan_image_rows full_repo (image_ref full_repo digest) acc w rows Hr)
      as (w1 & Hscan & Hw1).
    destruct (IH digests' (acc ++ rows)%list
                (set_naps (S (naps w1)) w1) rowss' eq_refl Hrs)
      as (w2 & Hloop & Hw2).
    exists w2. split.
    + cbn [for_each]. erewrite bind_ret_eq.
      2:{ unfold scan_digest.
          erewrite bind_lift_ret by exact Hd. cbv zeta.
          fold (image_ref full_repo digest).
          erewrite bind_ret_eq by exact Hscan.
          erewrite bind_ret_eq by reflexivity. reflexivity. }
      rewrite Hloop. cbn [concat]. now rewrite app_assoc.
    + assert (Hnap : scanned [] 1 w1 (set_naps (S (naps w1)) w1)).
      { unfold scanned. cbn. rewrite app_nil_r, Nat.add_1_r. auto. }
      pose proof (scanned_trans _ _ _ _ _ _ _
                    (scanned_trans _ _ _ _ _ _ _ Hw1 Hnap) Hw2) as H.
      cbn [app Nat.add map length] in *. exact H.
Qed.

Lemma kept_images_flat full_repo views :
  kept_images full_repo views = flat_map (view_images full_repo) views.
Proof.
  unfold kept_images, view_images. induction views as [|v views IH]; [reflexivity|].
  cbn [List.filter flat_map].
  destruct (skip_tag (tv_name v)); cbn [negb flat_map app]; now rewrite <- IH.
Qed.

Lemma kept_images_app full_repo v1 v2 :
  kept_images full_repo (v1 ++ v2)
  = (kept_images full_repo v1 ++ kept_images full_repo v2)%list.
Proof. rewrite !kept_images_flat. apply flat_map_app. Qed.

(** The loop body for one tag (lines 365-374). *)
Lemma scan_tag_view full_repo tag view acc w rowss :
  tag_is tag view ->
  Forall2 (fun image rows => scan_rows full_repo image = Some rows)
    (view_images full_repo view) rowss ->
  exists w',
    scan_tag full_repo tag acc w = (Ret (acc ++ concat rowss)%list, w')
    /\ scanned (map docker_scan_cmd (view_images full_repo view))
         (length (view_images full_repo view)) w w'.
Proof.
  intros (Hname & images & elements & Himages & Hiter & Hdigests) Hrows.
  unfold scan_tag. erewrite bind_lift_ret by exact Hname.
  cbn [Dyn.str_method]. erewrite bind_lift_ret by reflexivity.
  unfold view_images in *. destruct (skip_tag (tv_name view)).
  - inversion Hrows; subst. exists w. cbn. rewrite app_nil_r.
    auto using scanned_refl.
  - erewrite bind_lift_ret by exact Himages.
    erewrite bind_lift_ret by exact Hiter.
    destruct (scan_digests full_repo elements (tv_digests view) acc w rowss
                Hdigests Hrows) as (w' & Hrun & Hw').
    exists w'. split; [exact Hrun|]. now rewrite length_map.
Qed.

(** The loop over the tags of one page. *)
Lemma scan_tags full_repo (tags : list json) (views : list tag_view) :
  Forall2 tag_is tags views ->
  forall acc w rowss,
    Forall2 (fun image rows => scan_rows full_repo image = Some rows)
      (kept_images full_repo views) rowss ->
    exists w',
      for_each tags (scan_tag full_repo) acc w = (Ret (acc ++ concat rowss)%list, w')
      /\ scanned (map docker_scan_cmd (kept_images full_repo views))
           (length (kept_images full_repo views)) w w'.
Proof.
  induction 1 as [|tag view tags views Htag _ IH]; intros acc w rowss Hrows.
  - inversion Hrows; subst. exists w. cbn. rewrite app_nil_r.
    auto using scanned_refl.
  - rewrite kept_images_flat in Hrows. cbn [flat_map] in Hrows.
    apply Forall2_app_inv_l in Hrows as (rows1 & rows2 & Hr1 & Hr2 & ->).
    rewrite <- kept_images_flat in Hr2.
    destruct (scan_tag_view full_repo tag view acc w rows1 Htag Hr1)
      as (w1 & Hrun1 & Hw1).
    destruct (IH (acc ++ concat rows1)%list w1 rows2 Hr2) as (w2 & Hrun2 & Hw2).
    exists w2. split.
    + cbn [for_each]. erewrite bind_ret_eq by exact Hrun1.
      rewrite Hrun2, concat_app. now rewrite app_assoc.
    + pose proof (scanned_trans _ _ _ _ _ _ _ Hw1 Hw2) as H.
      rewrite (kept_images_flat _ (view :: views)). cbn [flat_map].
      rewrite <- kept_images_flat, map_app, length_app. exact H.
Qed.

Lemma listed_after_scanned c1 n1 c2 n2 rest w1 w2 w3 :
  listed c1 n1 (net w2) w1 w2 -> scanned c2 n2 w2 w3 -> net w2 = rest ->
  listed (c1 ++ c2)%list (n1 + n2) rest w1 w3.
Proof.
  intros (Hs & Hn & _ & Hfs) (Hs' & Hn' & Hnet' & _ & Hfs') <-.
  unfold listed. rewrite Hs', Hs, Hn', Hn, Hnet', Hfs', Hfs.
  rewrite app_assoc, Nat.add_assoc. auto.
Qed.

Lemma listed_trans c1 n1 c2 n2 mid rest w1 w2 w3 :
  listed c1 n1 mid w1 w2 -> listed c2 n2 rest w2 w3 ->
  listed (c1 ++ c2)%list (n1 + n2) rest w1 w3.
Proof.
  intros (Hs & Hn & _ & Hfs) (Hs' & Hn' & Hnet' & Hfs').
  unfold listed. rewrite Hs', Hs, Hn', Hn, Hnet', Hfs', Hfs.
  rewrite app_assoc, Nat.add_assoc. auto.
Qed.

(** One turn of the tag listing: the page is fetched and its tags are
    scanned. *)
Lemma tag_page_scanned full_repo page acc w r tail views next rowss :
  net w = Responds r :: tail ->
  tag_page_yields r views next ->
  Forall2 (fun image rows => scan_rows full_repo image = Some rows)
    (kept_images full_repo views) rowss ->
  exists w',
    tag_page_turn full_repo (scan_tag full_repo) (page, acc) w
    = (Ret (if Dyn.truthy next
            then inl (page + 1, (acc ++ concat rowss)%list)
            else inr (acc ++ concat rowss)%list), w')
    /\ listed (map docker_scan_cmd (kept_images full_repo views))
         (length (kept_images full_repo views)) tail w w'.
Proof.
  intros Hnet (data & results & tags & Hjson & Hresults & Hiter & Htags & Hnext) Hrows.
  set (w1 := set_net tail
               (set_sent (sent w ++ [Request GET (dockerhub_tag_endpoint full_repo page)
                                       [] [] []]) w)).
  destruct (scan_tags full_repo tags views Htags acc w1 rowss Hrows)
    as (w2 & Hrun & Hw2).
  exists w2. split.
  - unfold tag_page_turn, get_container_tag_page.
    erewrite bind_ret_eq.
    2:{ erewrite bind_ret_eq
          by (unfold requests_get, http; rewrite Hnet; reflexivity).
        unfold response_json. rewrite Hjson. reflexivity. }
    unfold yield_tags.
    erewrite bind_lift_ret by exact Hresults.
    erewrite bind_lift_ret by exact Hiter.
    erewrite bind_ret_eq by exact Hrun.
    erewrite bind_lift_ret by exact Hnext.
    destruct (Dyn.truthy next); reflexivity.
  - destruct Hw2 as (Hs & Hn & Hnet2 & _ & Hfs).
    unfold listed. rewrite Hs, Hn, Hnet2, Hfs. auto.
Qed.

Lemma tag_pages_prefix full_repo (pages : list (response * list tag_view)) :
  forall fuel page acc w tail rowss,
    Forall tag_page_with_next pages ->
    net w = (responses pages ++ tail)%list ->
    Forall2 (fun image rows => scan_rows full_repo image = Some rows)
      (kept_images full_repo (gathered pages)) rowss ->
    exists page' w',
      while_fuel (length pages + fuel) (tag_page_turn full_repo (scan_tag full_repo))
        (page, acc) w
      = while_fuel fuel (tag_page_turn full_repo (scan_tag full_repo))
          (page', (acc ++ concat rowss)%list) w'
      /\ listed (map docker_scan_cmd (kept_images full_repo (gathered pages)))
           (length (kept_images full_repo (gathered pages))) tail w w'.
Proof.
  induction pages as [|[r views] pages IH];
    intros fuel page acc w tail rowss Hpages Hnet Hrows.
  - inversion Hrows; subst. exists page, w. cbn. rewrite app_nil_r.
    split; [reflexivity|]. unfold listed.
    rewrite app_nil_r, Nat.add_0_r. auto.
  - inversion Hpages as [|? ? (next & Hpage & Hnext) Hrest]; subst.
    cbn [fst snd] in *.
    unfold gathered in Hrows. cbn [map concat snd] in Hrows.
    rewrite kept_images_app in Hrows.
    apply Forall2_app_inv_l in Hrows as (rows1 & rows2 & Hr1 & Hr2 & ->).
    destruct (tag_page_scanned full_repo page acc w r
                (responses pages ++ tail)%list views next rows1 Hnet Hpage Hr1)
      as (w1 & Hturn & Hw1).
    rewrite Hnext in Hturn.
    assert (Hnet1 : net w1 = (responses pages ++ tail)%list) by apply Hw1.
    destruct (IH fuel (page + 1) (acc ++ concat rows1)%list w1 tail rows2
                Hrest Hnet1 Hr2) as (page' & w2 & Hrun & Hw2).
    exists page', w2. split.
    + cbn [length Nat.add while_fuel].
      erewrite bind_ret_eq by exact Hturn.
      cbv beta iota. rewrite Hrun, concat_app. now rewrite app_assoc.
    + pose proof (listed_trans _ _ _ _ _ _ _ _ _ Hw1 Hw2) as H.
      unfold gathered. cbn [map concat snd].
      rewrite kept_images_app, map_app, length_app. exact H.
Qed.

(** The whole of a repository in the mode of all tags. *)
Lemma scan_all_tags full_repo acc w pages last views next rest rowss :
  Forall tag_page_with_next pages ->
  tag_page_yields last views next ->
  Dyn.truthy next = false ->
  net w = (responses pages ++ Responds last :: rest)%list ->
  Forall2 (fun image rows => scan_rows full_repo image = Some rows)
    (kept_images full_repo (gathered pages ++ views)) rowss ->
  exists w',
    scan_repository true full_repo acc w = (Ret (acc ++ concat rowss)%list, w')
    /\ listed (map docker_scan_cmd (kept_images full_repo (gathered pages ++ views)))
         (length (kept_images full_repo (gathered pages ++ views))) rest w w'.
Proof.
  intros Hpages Hlast Hnext Hnet Hrows.
  rewrite kept_images_app in Hrows.
  apply Forall2_app_inv_l in Hrows as (rows1 & rows2 & Hr1 & Hr2 & ->).
  set (w0 := set_stdout (stdout w ++ [Py.nl ++ "[+] Scanning repository: " ++ full_repo]) w).
  destruct (tag_pages_prefix full_repo pages (S (S (length rest))) 1 acc w0
              (Responds last :: rest) rows1 Hpages Hnet Hr1)
    as (page' & w1 & Hrun & Hw1).
  assert (Hnet1 : net w1 = Responds last :: rest) by apply Hw1.
  destruct (tag_page_scanned full_repo page' (acc ++ concat rows1)%list w1 last
              rest views next rows2 Hnet1 Hlast Hr2) as (w2 & Hturn & Hw2).
  rewrite Hnext in Hturn.
  exists w2. split.
  - unfold scan_repository. erewrite bind_ret_eq by reflexivity.
    fold w0. unfold get_container_tags, while_net.
    replace (net w0) with (responses pages ++ Responds last :: rest)%list
      by (symmetry; exact Hnet).
    rewrite length_app, length_responses. cbn [length].
    rewrite <- Nat.add_succ_r, Hrun. cbn [while_fuel].
    erewrite bind_ret_eq by exact Hturn.
    cbv beta iota. rewrite concat_app, app_assoc. reflexivity.
  - pose proof (listed_trans _ _ _ _ _ _ _ _ _ Hw1 Hw2) as H.
    rewrite kept_images_app, map_app, length_app. exact H.
Qed.

(** A repository in the mode of the latest tag. *)
Lemma scan_latest full_repo acc w rows :
  scan_rows full_repo (full_repo ++ ":latest") = Some rows ->
  exists w',
    scan_repository false full_repo acc w = (Ret (acc ++ rows)%list, w')
    /\ scanned [docker_scan_cmd (full_repo ++ ":latest")] 0 w w'.
Proof.
  intros Hrows.
  set (w0 := set_stdout (stdout w ++ [Py.nl ++ "[+] Scanning repository: " ++ full_repo]) w).
  destruct (scan_image_rows full_repo (full_repo ++ ":latest") acc w0 rows Hrows)
    as (w' & Hrun & Hw').
  exists w'. split.
  - unfold scan_repository. erewrite bind_ret_eq by reflexivity. exact Hrun.
  - exact Hw'.
Qed.

(** C5: in the mode of all tags, when the tag pages of a repository are
    fetched to the last one and every scan comes back, the commands run
    are the scans of [repo@digest] for the digests listed under the tags
    that are not skipped, one by one and in the order of the listing;
    without the mode, the one command run is the scan of [repo:latest].
    With the tags [v1] and [v1.sig], one digest each, the one command
    run is the scan of the digest of [v1]. *)
Theorem docker_scan_targets (full_repo : string) (acc : list docker_row) (w : world) :
  (forall pages last views next rest rowss,
      Forall tag_page_with_next pages ->
      tag_page_yields last views next ->
      Dyn.truthy next = false ->
      net w = (responses pages ++ Responds last :: rest)%list ->
      Forall2 (fun image rows => scan_rows full_repo image = Some rows)
        (kept_images full_repo (gathered pages ++ views)) rowss ->
      exists w',
        scan_repository true full_repo acc w = (Ret (acc ++ concat rowss)%list, w')
        /\ spawned w'
           = (spawned w
              ++ map docker_scan_cmd
                   (kept_images full_repo (gathered pages ++ views)))%list
        /\ net w' = rest)
  /\ (forall rows,
        scan_rows full_repo (full_repo ++ ":latest") = Some rows ->
        exists w',
          scan_repository false full_repo acc w = (Ret (acc ++ rows)%list, w')
          /\ spawned w' = (spawned w ++ [docker_scan_cmd (full_repo ++ ":latest")])%list
          /\ net w' = net w /\ sent w' = sent w)
  /\ (forall last next rest d1 d2 rows,
        tag_page_yields last [TagView "v1" [d1]; TagView "v1.sig" [d2]] next ->
        Dyn.truthy next = false ->
        net w = Responds last :: rest ->
        scan_rows full_repo (image_ref full_repo d1) = Some rows ->
        exists w',
          scan_repository true full_repo acc w = (Ret (acc ++ rows)%list, w')
          /\ spawned w'
             = (spawned w ++ [docker_scan_cmd (image_ref full_repo d1)])%list).
Proof.
  split; [|split].
  - intros pages last views next rest rowss Hpages Hlast Hnext Hnet Hrows.
    destruct (scan_all_tags full_repo acc w pages last views next rest rowss
                Hpages Hlast Hnext Hnet Hrows) as (w' & Hrun & Hs & _ & Hn & _).
    eauto.
  - intros rows Hrows.
    destruct (scan_latest full_repo acc w rows Hrows)
      as (w' & Hrun & Hs & _ & Hn & Hsent & _).
    eauto.
  - intros last next rest d1 d2 rows Hlast Hnext Hnet Hrows.
    destruct (scan_all_tags full_repo acc w [] last
                [TagView "v1" [d1]; TagView "v1.sig" [d2]] next rest [rows])
      as (w' & Hrun & Hs & _); auto.
    + repeat constructor. exact Hrows.
    + exists w'. cbn [concat] in Hrun. rewrite app_nil_r in Hrun.
      split; [exact Hrun|exact Hs].
Qed.

(** ** What a row says of its image *)

Lemma append_cons_ne (s : string) (c : ascii) (t : string) : s ++ String c t <> s.
Proof.
  induction s as [|a s IH]; cbn; [discriminate|].
  intros H. injection H as H. now apply IH.
Qed.

Lemma image_ref_ne full_repo digest : image_ref full_repo digest <> full_repo.
Proof. unfold image_ref. apply append_cons_ne. Qed.

Lemma omap_Forall2 {A B} (f : A -> outcome B) (l : list A) (r : list B) :
  omap f l = Ret r -> Forall2 (fun x y => f x = Ret y) l r.
Proof.
  revert r. induction l as [|x l IH]; intros r H; cbn in H.
  - injection H as <-. constructor.
  - destruct (f x) as [y|] eqn:Hx; [|discriminate]. cbn in H.
    destruct (omap f l) as [ys|]; [|discriminate]. injection H as <-.
    constructor; auto.
Qed.

Lemma absent_image_is_repository full_repo finding meta row :
  parse_docker_finding full_repo finding = Ret row ->
  source_metadata finding "Docker" = Ret (JObj meta) ->
  Dyn.lookup "image" meta = None ->
  image row = JStr full_repo.
Proof.
  intros Hrow Hmeta Himage. unfold parse_docker_finding in Hrow.
  rewrite Hmeta in Hrow. cbn [obind] in Hrow.
  repeat match type of Hrow with
         | obind ?o _ = _ =>
             let H := fresh "Hget" in
             destruct o eqn:H; cbn [obind] in Hrow; [|discriminate]
         end.
  injection Hrow as <-. cbn [image].
  cbn [Dyn.get] in *. rewrite Himage in *. congruence.
Qed.

Lemma scanned_rows_name_repository full_repo image rows :
  image <> full_repo ->
  scan_rows full_repo image = Some rows ->
  rows_name_repository full_repo image rows.
Proof.
  intros Hne Hrows. split; [exact Hne|].
  apply scan_rows_findings, omap_Forall2 in Hrows.
  eapply Forall2_impl; [exact Hrows|].
  intros finding row Hrow. split; [exact Hrow|].
  intros meta. now apply absent_image_is_repository.
Qed.

Lemma kept_images_are_refs full_repo views :
  Forall (fun image => image <> full_repo) (kept_images full_repo views).
Proof.
  rewrite kept_images_flat. apply List.Forall_forall. intros image Hin.
  apply in_flat_map in Hin as (v & _ & Hin). unfold view_images in Hin.
  destruct (skip_tag (tv_name v)); [easy|].
  apply in_map_iff in Hin as (d & <- & _). apply image_ref_ne.
Qed.

Lemma Forall2_with_Forall {A B} (P : A -> Prop) (R R' : A -> B -> Prop) l l' :
  (forall x y, P x -> R x y -> R' x y) ->
  Forall P l -> Forall2 R l l' -> Forall2 R' l l'.
Proof.
  intros HR HP H. induction H as [|x y l l' Hxy _ IH]; [constructor|].
  inversion HP; subst. constructor; auto.
Qed.

(** C10: the rows that a repository's scans add are normalised against
    the repository reference [full_repo], in the mode of the latest tag
    as in the mode of all tags, while what is scanned is [repo:latest]
    or [repo@digest]; so a finding that names no image yields a row
    whose image is [full_repo] and not the reference that was scanned. *)
Theorem image_defaults_to_repository (full_repo : string)
    (acc : list docker_row) (w : world) :
  (forall rows,
      scan_rows full_repo (full_repo ++ ":latest") = Some rows ->
      exists w',
        scan_repository false full_repo acc w = (Ret (acc ++ rows)%list, w')
        /\ rows_name_repository full_repo (full_repo ++ ":latest") rows)
  /\ (forall pages last views next rest rowss,
        Forall tag_page_with_next pages ->
        tag_page_yields last views next ->
        Dyn.truthy next = false ->
        net w = (responses pages ++ Responds last :: rest)%list ->
        Forall2 (fun image rows => scan_rows full_repo image = Some rows)
          (kept_images full_repo (gathered pages ++ views)) rowss ->
        exists w',
          scan_repository true full_repo acc w = (Ret (acc ++ concat rowss)%list, w')
          /\ Forall2 (rows_name_repository full_repo)
               (kept_images full_repo (gathered pages ++ views)) rowss).
Proof.
  split.
  - intros rows Hrows.
    destruct (scan_latest full_repo acc w rows Hrows) as (w' & Hrun & _).
    exists w'. split; [exact Hrun|].
    apply scanned_rows_name_repository; [apply append_cons_ne|exact Hrows].
  - intros pages last views next rest rowss Hpages Hlast Hnext Hnet Hrows.
    destruct (scan_all_tags full_repo acc w pages last views next rest rowss
                Hpages Hlast Hnext Hnet Hrows) as (w' & Hrun & _).
    exists w'. split; [exact Hrun|].
    eapply Forall2_with_Forall;
      [|apply kept_images_are_refs|exact Hrows].
    intros image rows. apply scanned_rows_name_repository.
Qed.

(** ** Skipped tags *)

Lemma endswith_spec (s suffix : string) :
  Py.endswith s suffix = true <-> exists p, s = p ++ suffix.
Proof.
  split.
  - induction s as [|c s IH]; cbn [Py.endswith]; intros H.
    + rewrite orb_false_r in H. apply String.eqb_eq in H as <-. now exists "".
    + apply orb_true_iff in H as [H|H].
      * apply String.eqb_eq in H as <-. now exists "".
      * destruct (IH H) as [p ->]. now exists (String c p).
  - intros [p ->]. induction p as [|c p IH].
    + change ("" ++ suffix) with suffix.
      destruct suffix; cbn [Py.endswith]; [reflexivity|].
      now rewrite String.eqb_refl.
    + change (String c p ++ suffix) with (String c (p ++ suffix)).
      cbn [Py.endswith]. rewrite IH. apply orb_true_r.
Qed.

Lemma skip_tag_spec (name : string) :
  skip_tag name = true <-> exists p, name = p ++ ".sig" \/ name = p ++ ".enc".
Proof.
  unfold skip_tag. cbn [existsb]. rewrite orb_false_r, orb_true_iff.
  rewrite !endswith_spec. split.
  - intros [[p H]|[p H]]; exists p; auto.
  - intros [p [H|H]]; [left|right]; now exists p.
Qed.

Lemma skipped_tag_is_passed full_repo tag acc w :
  is_skipped tag = true -> scan_tag full_repo tag acc w = (Ret acc, w).
Proof.
  unfold is_skipped, scan_tag. intros H.
  destruct (Dyn.getitem tag "name") as [[| | |name| |]|]; try discriminate.
  erewrite bind_lift_ret by reflexivity. cbn [Dyn.str_method].
  erewrite bind_lift_ret by reflexivity. now rewrite H.
Qed.

Lemma scan_tags_without_skipped full_repo (tags : list json) :
  forall acc w,
    for_each (List.filter (fun t => negb (is_skipped t)) tags) (scan_tag full_repo) acc w
    = for_each tags (scan_tag full_repo) acc w.
Proof.
  induction tags as [|tag tags IH]; intros acc w; [reflexivity|].
  cbn [List.filter for_each]. destruct (is_skipped tag) eqn:Hs; cbn [negb].
  - erewrite (bind_ret_eq (scan_tag full_repo tag acc))
      by (apply skipped_tag_is_passed, Hs).
    apply IH.
  - cbn [for_each]. unfold bind. destruct (scan_tag full_repo tag acc w) as [[acc'|h] w'];
      [apply IH|reflexivity].
Qed.

(** *** Computations that leave the network alone *)

Lemma set_net_same w : set_net (net w) w = w.
Proof. now destruct w. Qed.

Lemma net_blind_ret {A} (a : A) : net_blind (ret a).
Proof. intros n w. split; reflexivity. Qed.

Lemma net_blind_lift {A} (o : outcome A) : net_blind (lift o).
Proof. intros n w. split; reflexivity. Qed.

Lemma net_blind_print line : net_blind (print line).
Proof. intros n w. split; reflexivity. Qed.

Lemma net_blind_sleep : net_blind sleep_half.
Proof. intros n w. split; reflexivity. Qed.

Lemma net_blind_bind {A B} (m : M A) (f : A -> M B) :
  net_blind m -> (forall a, net_blind (f a)) -> net_blind (bind m f).
Proof.
  intros Hm Hf n w. destruct (Hm n w) as [Hnet Hset].
  unfold bind. rewrite Hset. destruct (m w) as [[a|h] w1]; cbn [fst snd] in *.
  - destruct (Hf a n w1) as [Hnet1 Hset1]. rewrite Hset1. split; [congruence|].
    now destruct (f a w1).
  - split; [exact Hnet|reflexivity].
Qed.

Lemma net_blind_for_each {A S} (l : list A) (body : A -> S -> M S) :
  (forall x s, net_blind (body x s)) -> forall s, net_blind (for_each l body s).
Proof.
  intros Hbody. induction l as [|x l IH]; intros s; cbn [for_each].
  - apply net_blind_ret.
  - apply net_blind_bind; auto.
Qed.

Lemma net_blind_scan_with_trufflehog image : net_blind (scan_with_trufflehog image).
Proof.
  intros n w. unfold scan_with_trufflehog, try_except, bind, subprocess_run.
  destruct (run_command (docker_scan_cmd image)) as [out err|e|];
    [split; reflexivity| |split; reflexivity].
  destruct (is_Exception e); split; reflexivity.
Qed.

Lemma net_blind_scan_image full_repo image acc : net_blind (scan_image full_repo image acc).
Proof.
  unfold scan_image. apply net_blind_bind; [apply net_blind_scan_with_trufflehog|].
  intros findings. apply net_blind_bind; [apply net_blind_lift|].
  intros rows. apply net_blind_ret.
Qed.

Lemma net_blind_scan_digest full_repo img acc : net_blind (scan_digest full_repo img acc).
Proof.
  unfold scan_digest. apply net_blind_bind; [apply net_blind_lift|].
  intros digest. cbv zeta.
  apply net_blind_bind; [apply net_blind_scan_image|].
  intros rows. apply net_blind_bind; [apply net_blind_sleep|].
  intros _. apply net_blind_ret.
Qed.

Lemma net_blind_scan_tag full_repo tag acc : net_blind (scan_tag full_repo tag acc).
Proof.
  unfold scan_tag. apply net_blind_bind; [apply net_blind_lift|].
  intros tag_name. apply net_blind_bind; [apply net_blind_lift|].
  intros [|]; [apply net_blind_ret|].
  apply net_blind_bind; [apply net_blind_lift|].
  intros images. apply net_blind_bind; [apply net_blind_lift|].
  intros elements. apply net_blind_for_each. intros img s.
  apply net_blind_scan_digest.
Qed.

(** *** A page without its skipped tags *)

Lemma lookup_results_hidden fields :
  Dyn.lookup "results" (hide_results fields)
  = option_map without_skipped (Dyn.lookup "results" fields).
Proof.
  induction fields as [|[k v] fields IH]; [reflexivity|].
  cbn [hide_results Dyn.lookup].
  destruct (String.eqb "results" k) eqn:Hk; cbn [Dyn.lookup]; rewrite Hk;
    [reflexivity|exact IH].
Qed.

Lemma lookup_next_hidden fields :
  Dyn.lookup "next" (hide_results fields) = Dyn.lookup "next" fields.
Proof.
  induction fields as [|[k v] fields IH]; [reflexivity|].
  cbn [hide_results Dyn.lookup].
  destruct (String.eqb "results" k) eqn:Hk; cbn [Dyn.lookup].
  - apply String.eqb_eq in Hk as <-. reflexivity.
  - now rewrite IH.
Qed.

Lemma get_results_hidden data :
  Dyn.get (hide_in_page data) "results" (JArr [])
  = obind (Dyn.get data "results" (JArr [])) (fun v => Ret (without_skipped v)).
Proof.
  destruct data; try reflexivity. cbn [hide_in_page Dyn.get obind].
  rewrite lookup_results_hidden. now destruct (Dyn.lookup "results" fields).
Qed.

Lemma get_next_hidden data :
  Dyn.get (hide_in_page data) "next" JNull = Dyn.get data "next" JNull.
Proof.
  destruct data; try reflexivity. cbn [hide_in_page Dyn.get].
  now rewrite lookup_next_hidden.
Qed.

(** Scanning the tags of a page goes the same way without the skipped
    ones. *)
Lemma scan_results_hidden full_repo results acc w :
  bind (lift (Dyn.iter (without_skipped results)))
    (fun elements => for_each elements (scan_tag full_repo) acc) w
  = bind (lift (Dyn.iter results))
      (fun elements => for_each elements (scan_tag full_repo) acc) w.
Proof.
  destruct results; try reflexivity.
  cbn [without_skipped Dyn.iter]. unfold bind, lift.
  apply scan_tags_without_skipped.
Qed.

Lemma yield_tags_hidden full_repo page acc data w :
  yield_tags (scan_tag full_repo) page acc (hide_in_page data) w
  = yield_tags (scan_tag full_repo) page acc data w.
Proof.
  unfold yield_tags. unfold bind at 1 5. unfold lift at 1 4.
  rewrite get_results_hidden.
  destruct (Dyn.get data "results" (JArr [])) as [results|h]; cbn [obind];
    [|reflexivity].
  assert (Hrest : forall elements,
             bind (for_each elements (scan_tag full_repo) acc)
               (fun s =>
                  next <- lift (Dyn.get (hide_in_page data) "next" JNull) ;;
                  if negb (Dyn.truthy next) then ret (inr s)
                  else ret (inl (page + 1, s))) w
             = bind (for_each elements (scan_tag full_repo) acc)
                 (fun s =>
                    next <- lift (Dyn.get data "next" JNull) ;;
                    if negb (Dyn.truthy next) then ret (inr s)
                    else ret (inl (page + 1, s))) w).
  { intros elements. unfold bind at 1 3.
    destruct (for_each elements (scan_tag full_repo) acc w) as [[rows|h] w2];
      [|reflexivity].
    unfold bind, lift. now rewrite get_next_hidden. }
  destruct results; cbn [without_skipped Dyn.iter];
    try (unfold bind at 1 3; unfold lift at 1 3; cbn [raise]; reflexivity);
    try (erewrite !bind_lift_ret by reflexivity; apply Hrest).
  erewrite !bind_lift_ret by reflexivity.
  rewrite Hrest. unfold bind at 1 3.
  now rewrite scan_tags_without_skipped.
Qed.

Lemma net_blind_yield_tags full_repo page acc data :
  net_blind (yield_tags (scan_tag full_repo) page acc data).
Proof.
  unfold yield_tags. apply net_blind_bind; [apply net_blind_lift|].
  intros results. apply net_blind_bind; [apply net_blind_lift|].
  intros elements. apply net_blind_bind.
  { apply net_blind_for_each. intros. apply net_blind_scan_tag. }
  intros rows. apply net_blind_bind; [apply net_blind_lift|].
  intros next. destruct (negb (Dyn.truthy next)); apply net_blind_ret.
Qed.

(** A computation that leaves the network alone goes the same way on
    the world without the skipped tags. *)
Lemma net_blind_hidden {A} (m : M A) w :
  net_blind m -> m (hide_skipped w) = (fst (m w), hide_skipped (snd (m w))).
Proof.
  intros Hm. destruct (Hm (map hide_in_event (net w)) w) as [Hnet Hset].
  unfold hide_skipped. now rewrite Hset, Hnet.
Qed.

(** One turn of the tag listing goes the same way on the world without
    the skipped tags. *)
Lemma tag_page_turn_hidden full_repo (st : Z * list docker_row) w :
  tag_page_turn full_repo (scan_tag full_repo) st (hide_skipped w)
  = (fst (tag_page_turn full_repo (scan_tag full_repo) st w),
     hide_skipped (snd (tag_page_turn full_repo (scan_tag full_repo) st w))).
Proof.
  destruct st as [page acc]. unfold tag_page_turn.
  assert (Hpage :
            get_container_tag_page full_repo page (hide_skipped w)
            = (match fst (get_container_tag_page full_repo page w) with
               | Ret data => Ret (hide_in_page data)
               | Stop h => Stop h
               end,
               hide_skipped (snd (get_container_tag_page full_repo page w)))).
  { unfold get_container_tag_page, requests_get, http, bind, hide_skipped.
    cbn [net set_net].
    destruct (net w) as [|[r|e] tail] eqn:Hnet; cbn [map hide_in_event].
    - cbn [fst snd net set_sent]. now rewrite Hnet.
    - unfold response_json. cbn [resp_json].
      destruct (resp_json r); reflexivity.
    - reflexivity. }
  unfold bind. rewrite Hpage.
  destruct (get_container_tag_page full_repo page w) as [[data|h] w1];
    cbn [fst snd]; [|reflexivity].
  rewrite yield_tags_hidden.
  apply net_blind_hidden, net_blind_yield_tags.
Qed.

Lemma tag_listing_hidden full_repo fuel :
  forall (st : Z * list docker_row) w,
    while_fuel fuel (tag_page_turn full_repo (scan_tag full_repo)) st (hide_skipped w)
    = (fst (while_fuel fuel (tag_page_turn full_repo (scan_tag full_repo)) st w),
       hide_skipped
         (snd (while_fuel fuel (tag_page_turn full_repo (scan_tag full_repo)) st w))).
Proof.
  induction fuel as [|fuel IH]; intros st w; [reflexivity|].
  cbn [while_fuel]. unfold bind. rewrite tag_page_turn_hidden.
  destruct (tag_page_turn full_repo (scan_tag full_repo) st w) as [[[st'|rows]|h] w1];
    cbn [fst snd]; [apply IH|reflexivity|reflexivity].
Qed.

Lemma scan_repository_hidden all_tags full_repo acc w :
  scan_repository all_tags full_repo acc (hide_skipped w)
  = (fst (scan_repository all_tags full_repo acc w),
     hide_skipped (snd (scan_repository all_tags full_repo acc w))).
Proof.
  unfold scan_repository. unfold bind, print.
  set (line := Py.nl ++ "[+] Scanning repository: " ++ full_repo).
  change (set_stdout (stdout (hide_skipped w) ++ [line]) (hide_skipped w))
    with (hide_skipped (set_stdout (stdout w ++ [line]) w)).
  set (w0 := set_stdout (stdout w ++ [line]) w).
  destruct all_tags.
  - unfold get_container_tags, while_net.
    replace (length (net (hide_skipped w0))) with (length (net w0))
      by (unfold hide_skipped; cbn [net set_net]; now rewrite length_map).
    apply tag_listing_hidden.
  - apply net_blind_hidden, net_blind_scan_image.
Qed.

Lemma scan_latest_command full_repo acc w :
  spawned (snd (scan_repository false full_repo acc w))
  = (spawned w ++ [docker_scan_cmd (full_repo ++ ":latest")])%list
  /\ sent (snd (scan_repository false full_repo acc w)) = sent w.
Proof.
  unfold scan_repository, scan_image, scan_with_trufflehog, try_except,
    subprocess_run, bind, print, lift, ret.
  destruct (run_command (docker_scan_cmd (full_repo ++ ":latest"))) as [out err|e|];
    cbn [fst snd].
  - destruct (omap (parse_docker_finding full_repo) (parse_findings out));
      split; reflexivity.
  - destruct (is_Exception e); cbn [omap]; split; reflexivity.
  - split; reflexivity.
Qed.

(** C3, amended: the tags are filtered by their names, not by their
    images.  [skip_tag] refuses the names that end in [.sig] or [.enc];
    the loop body passes over a tag with such a name without running a
    command, whatever images it lists; scanning a repository goes the
    same way, in either mode, when these tags are taken out of
    everything the tag listing delivers; without the mode of all tags
    the one command run is the scan of [repo:latest], with no tag listed
    at all; and in the mode of all tags, when the tag pages are fetched
    to the last one and every scan comes back, a command is run for an
    image if and only if a tag that is not skipped lists its digest.  So
    an image of a skipped tag is scanned exactly when a tag that is kept
    lists the same digest. *)
Theorem skipped_tags_are_never_scanned (full_repo : string) :
  (forall name,
      skip_tag name = true <-> exists p, name = p ++ ".sig" \/ name = p ++ ".enc")
  /\ (forall tag name acc w,
        Dyn.getitem tag "name" = Ret (JStr name) ->
        skip_tag name = true ->
        scan_tag full_repo tag acc w = (Ret acc, w))
  /\ (forall all_tags acc w,
        scan_repository all_tags full_repo acc (hide_skipped w)
        = (fst (scan_repository all_tags full_repo acc w),
           hide_skipped (snd (scan_repository all_tags full_repo acc w))))
  /\ (forall acc w,
        spawned (snd (scan_repository false full_repo acc w))
        = (spawned w ++ [docker_scan_cmd (full_repo ++ ":latest")])%list
        /\ sent (snd (scan_repository false full_repo acc w)) = sent w)
  /\ (forall acc w pages last views next rest rowss,
        Forall tag_page_with_next pages ->
        tag_page_yields last views next ->
        Dyn.truthy next = false ->
        net w = (responses pages ++ Responds last :: rest)%list ->
        Forall2 (fun image rows => scan_rows full_repo image = Some rows)
          (kept_images full_repo (gathered pages ++ views)) rowss ->
        exists cmds,
          spawned (snd (scan_repository true full_repo acc w))
          = (spawned w ++ cmds)%list
          /\ forall cmd,
               In cmd cmds <->
               exists v digest,
                 In v (gathered pages ++ views)
                 /\ skip_tag (tv_name v) = false
                 /\ In digest (tv_digests v)
                 /\ cmd = docker_scan_cmd (image_ref full_repo digest)).
Proof.
  split; [exact skip_tag_spec|]. split; [|split; [|split]].
  - intros tag name acc w Hname Hskip. apply skipped_tag_is_passed.
    unfold is_skipped. now rewrite Hname.
  - intros all_tags acc w. apply scan_repository_hidden.
  - intros acc w. apply scan_latest_command.
  - intros acc w pages last views next rest rowss Hpages Hlast Hnext Hnet Hrows.
    destruct (scan_all_tags full_repo acc w pages last views next rest rowss
                Hpages Hlast Hnext Hnet Hrows) as (w' & Hrun & Hs & _).
    exists (map docker_scan_cmd (kept_images full_repo (gathered pages ++ views))).
    rewrite Hrun. split; [exact Hs|].
    intros cmd. unfold kept_images. rewrite in_map_iff. split.
    + intros (target & <- & Hin).
      apply in_flat_map in Hin as (v & Hv & Hd).
      apply List.filter_In in Hv as [Hv Hkept].
      apply in_map_iff in Hd as (digest & <- & Hd).
      exists v, digest. repeat split; auto.
      now destruct (skip_tag (tv_name v)).
    + intros (v & digest & Hv & Hkept & Hd & ->).
      exists (image_ref full_repo digest). split; [reflexivity|].
      apply in_flat_map. exists v. split.
      * apply List.filter_In. split; [exact Hv|]. now rewrite Hkept.
      * apply in_map_iff. eauto.
Qed.

(** ** The scan of one's own repositories and organizations *)

Lemma run_trufflehog_completed cmd out err w :
  run_command cmd = Completed out err ->
  run_trufflehog cmd w = (Ret (out ++ err), set_spawned (spawned w ++ [cmd]) w).
Proof.
  intros H. unfold run_trufflehog, try_except, bind, subprocess_run.
  now rewrite H.
Qed.

(** The loops that scan one GitHub target after the other. *)
Lemma github_scan_loop {A} (items : list A) (line : A -> string)
    (cmd_of : A -> list string) :
  (forall cmd, exists out err, run_command cmd = Completed out err) ->
  forall acc w,
    exists outs w',
      for_each items
        (fun x all_output =>
           print (line x) ;;
           out <- run_trufflehog (cmd_of x) ;;
           ret (all_output ++ [out])%list) acc w
      = (Ret (acc ++ outs)%list, w')
      /\ length outs = length items
      /\ scanned (map cmd_of items) 0 w w'.
Proof.
  intros Hrun. induction items as [|x items IH]; intros acc w.
  - exists [], w. cbn. rewrite app_nil_r. auto using scanned_refl.
  - destruct (Hrun (cmd_of x)) as (out & err & Hx).
    set (w1 := set_spawned (spawned (set_stdout (stdout w ++ [line x]) w) ++ [cmd_of x])
                 (set_stdout (stdout w ++ [line x]) w)).
    destruct (IH (acc ++ [(out ++ err)%string])%list w1)
      as (outs & w' & Hloop & Hlen & Hw').
    exists ((out ++ err)%string :: outs), w'. split; [|split].
    + cbn [for_each]. erewrite bind_ret_eq.
      2:{ erewrite bind_ret_eq by reflexivity.
          erewrite bind_ret_eq by (apply run_trufflehog_completed, Hx).
          reflexivity. }
      fold w1. rewrite Hloop, <- app_assoc. reflexivity.
    + cbn. now rewrite Hlen.
    + assert (H1 : scanned [cmd_of x] 0 w w1) by (unfold scanned; cbn; auto).
      exact (scanned_trans _ _ _ _ _ _ _ H1 Hw').
Qed.

(** C9: the user's listing yields two repositories and one organization
    and the scanner runs to its end each time.  Then [personal.txt]
    holds the two addresses, sorted, one per line; [org.txt] holds the
    name of the organization; and three commands are run: the scan of
    the organization, then the scans of the two repositories. *)
Theorem self_scan_of_two_repositories_and_one_organization
    (token : string) (w : world)
    (repo_pages : list (response * list string)) (repo_last : response)
    (repo_names : list string)
    (org_pages : list (response * list json)) (org_last : response)
    (org_names : list json)
    (rest : list net_event) (url1 url2 org : string) :
  Forall (page_with_next repo_url) repo_pages ->
  page_yields repo_url repo_last repo_names ->
  Py.truthy_opt (resp_next repo_last) = false ->
  (gathered repo_pages ++ repo_names)%list = [url1; url2] ->
  Forall (page_with_next (fun o => Dyn.getitem o "login")) org_pages ->
  page_yields (fun o => Dyn.getitem o "login") org_last org_names ->
  Py.truthy_opt (resp_next org_last) = false ->
  (gathered org_pages ++ org_names)%list = [JStr org] ->
  net w = (responses repo_pages ++ Responds repo_last
           :: responses org_pages ++ Responds org_last :: rest)%list ->
  (forall cmd, exists out err, run_command cmd = Completed out err) ->
  exists outputs w' listing,
    scan_my_repos_and_orgs token w = (Ret outputs, w')
    /\ fs w' !! "personal.txt" = Some (TextFile (Py.join Py.nl listing))
    /\ listing ≡ₚ [url1; url2]
    /\ Sorted String.le listing
    /\ fs w' !! "org.txt" = Some (TextFile org)
    /\ spawned w'
       = (spawned w ++ [org_scan_cmd token org; repo_scan_cmd token url1;
                        repo_scan_cmd token url2])%list
    /\ length outputs = 3%nat.
Proof.
  intros Hrp Hrl Hrn Hrepos Hop Hol Hon Horgs Hnet Hrun.
  set (w0 := set_stdout
               (stdout w ++ ["=== STEP 1: Fetching my repositories and organizations ==="])
               w).
  destruct (github_listing_complete
              [("Authorization", "token " ++ token)] repo_url (fun _ => ret tt)
              "https://api.github.com/user/repos"
              [("per_page", "100"); ("type", "owner")] w0
              repo_pages repo_last repo_names
              (responses org_pages ++ Responds org_last :: rest)%list
              Hrp Hrl Hrn Hnet)
    as (w1 & Hrepos_run & Hnet1 & _ & Hfs1 & Hsp1 & _).
  rewrite Hrepos in Hrepos_run.
  destruct (github_listing_complete
              [("Authorization", "token " ++ token)]
              (fun o => Dyn.getitem o "login") (fun _ => ret tt)
              "https://api.github.com/user/orgs" [] w1
              org_pages org_last org_names rest Hop Hol Hon Hnet1)
    as (w2 & Horgs_run & Hnet2 & _ & Hfs2 & Hsp2 & _).
  rewrite Horgs in Horgs_run.
  set (personal := TextFile (Py.join Py.nl (Py.sorted [url1; url2]))).
  set (w3 := set_fs (<["personal.txt" := personal]> (fs w2)) w2).
  set (w4 := set_fs (<["org.txt" := TextFile org]> (fs w3)) w3).
  destruct (github_scan_loop [JStr org]
              (fun o => "Scanning organization: " ++ fstr o)
              (fun o => org_scan_cmd token (fstr o)) Hrun [] w4)
    as (outs1 & w5 & Hloop1 & Hlen1 & Hw5).
  destruct (github_scan_loop [url1; url2]
              (fun r => "Scanning repository: " ++ r)
              (fun r => repo_scan_cmd token r) Hrun ([] ++ outs1)%list w5)
    as (outs2 & w6 & Hloop2 & Hlen2 & Hw6).
  exists (([] ++ outs1) ++ outs2)%list, w6, (Py.sorted [url1; url2]).
  split; [|split; [|split; [|split; [|split; [|split]]]]].
  - unfold scan_my_repos_and_orgs.
    erewrite bind_ret_eq by reflexivity. fold w0.
    erewrite bind_ret_eq by exact Hrepos_run.
    erewrite bind_ret_eq by exact Horgs_run.
    erewrite bind_ret_eq by reflexivity.
    erewrite bind_ret_eq by reflexivity.
    erewrite bind_ret_eq by exact Hloop1.
    exact Hloop2.
  - destruct Hw6 as (_ & _ & _ & _ & ->). destruct Hw5 as (_ & _ & _ & _ & ->).
    cbn [fs w4 w3 set_fs].
    rewrite lookup_insert_ne by discriminate. apply lookup_insert_eq.
  - apply merge_sort_Permutation.
  - apply Sorted_merge_sort. apply _.
  - destruct Hw6 as (_ & _ & _ & _ & ->). destruct Hw5 as (_ & _ & _ & _ & ->).
    cbn [fs w4 set_fs]. apply lookup_insert_eq.
  - destruct Hw6 as (-> & _). destruct Hw5 as (-> & _).
    cbn [spawned w4 w3 set_fs]. rewrite Hsp2, Hsp1. cbn [spawned w0 set_stdout].
    rewrite <- app_assoc. reflexivity.
  - rewrite !length_app, Hlen1, Hlen2. reflexivity.
Qed.

(** ** The loops come to an end

    The loops of the model run under a bound on their iterations, one more
    than the responses the network still holds.  The script draws a
    response in every turn, so the bound is never met: a run of [main]
    ends in a value, an exception, [sys.exit] or a call that never
    returns. *)

Create HintDb finish.

Lemma raises_only_ret {A} (a : A) : raises_only (Ret a).
Proof. exact I. Qed.

Lemma raises_only_raise {A} c msg : raises_only (@raise A c msg).
Proof. exact I. Qed.

Lemma raises_only_obind {A B} (o : outcome A) (f : A -> outcome B) :
  raises_only o -> (forall a, raises_only (f a)) -> raises_only (obind o f).
Proof. destruct o as [a|[]]; cbn; auto. Qed.

Lemma raises_only_omap {A B} (f : A -> outcome B) (l : list A) :
  (forall a, raises_only (f a)) -> raises_only (omap f l).
Proof.
  intros Hf. induction l as [|x l IH]; cbn [omap]; [exact I|].
  apply raises_only_obind; [apply Hf|]. intros y.
  apply raises_only_obind; [exact IH|]. intros ys. exact I.
Qed.

Lemma raises_only_get v k d : raises_only (Dyn.get v k d).
Proof. destruct v; exact I. Qed.

Lemma raises_only_getitem v k : raises_only (Dyn.getitem v k).
Proof. destruct v; try exact I. cbn. destruct (Dyn.lookup k fields); exact I. Qed.

Lemma raises_only_getitem0 v : raises_only (Dyn.getitem0 v).
Proof. destruct v as [| | |[|]|[|]|]; exact I. Qed.

Lemma raises_only_contains k v : raises_only (Dyn.contains k v).
Proof. destruct v; exact I. Qed.

Lemma raises_only_iter v : raises_only (Dyn.iter v).
Proof. destruct v; exact I. Qed.

Lemma raises_only_str_method {A} (f : string -> A) v : raises_only (Dyn.str_method f v).
Proof. destruct v; exact I. Qed.

#[local] Hint Resolve raises_only_ret raises_only_raise raises_only_get
  raises_only_getitem raises_only_getitem0 raises_only_contains raises_only_iter
  raises_only_str_method : finish.

Ltac solve_raises_only :=
  repeat first
    [ apply raises_only_obind; [solve [auto with finish]|intros ?]
    | apply raises_only_omap; intros ?
    | match goal with |- raises_only (if ?b then _ else _) => destruct b end
    | solve [auto with finish] ].

Lemma raises_only_first_entry conf key : raises_only (first_entry conf key).
Proof. unfold first_entry. solve_raises_only. Qed.

Lemma raises_only_repo_url repo : raises_only (repo_url repo).
Proof. unfold repo_url. solve_raises_only. Qed.

Lemma raises_only_source_metadata finding source :
  raises_only (source_metadata finding source).
Proof. unfold source_metadata. solve_raises_only. Qed.

Lemma raises_only_parse_docker_finding img finding :
  raises_only (parse_docker_finding img finding).
Proof.
  unfold parse_docker_finding.
  apply raises_only_obind; [apply raises_only_source_metadata|intros ?].
  solve_raises_only.
Qed.

Lemma raises_only_github_finding_row data : raises_only (github_finding_row data).
Proof.
  unfold github_finding_row.
  apply raises_only_obind; [apply raises_only_source_metadata|intros ?].
  solve_raises_only.
Qed.

#[local] Hint Resolve raises_only_first_entry raises_only_repo_url
  raises_only_parse_docker_finding raises_only_github_finding_row : finish.

Lemma finishes_ret {A} (a : A) : finishes (ret a).
Proof. intros w. discriminate. Qed.

Lemma finishes_lift {A} (o : outcome A) : raises_only o -> finishes (lift o).
Proof. intros Ho w. destruct o as [a|[]]; cbn in *; try discriminate; easy. Qed.

Lemma finishes_bind {A B} (m : M A) (f : A -> M B) :
  finishes m -> (forall a, finishes (f a)) -> finishes (bind m f).
Proof.
  intros Hm Hf w. unfold bind. specialize (Hm w).
  destruct (m w) as [[a|h] w']; cbn [fst] in *; [apply Hf|].
  intros [= ->]. now apply Hm.
Qed.

Lemma finishes_for_each {A S} (l : list A) (body : A -> S -> M S) :
  (forall x s, finishes (body x s)) -> forall s, finishes (for_each l body s).
Proof.
  intros Hbody. induction l as [|x l IH]; intros s; cbn [for_each].
  - apply finishes_ret.
  - apply finishes_bind; auto.
Qed.

Lemma finishes_try_except {A} (m : M A) catches handler :
  finishes m -> (forall e, finishes (handler e)) -> finishes (try_except m catches handler).
Proof.
  intros Hm Hh w. unfold try_except. specialize (Hm w).
  destruct (m w) as [[a|[e| | |]] w']; cbn [fst] in *; try easy.
  destruct (catches e); [apply Hh|easy].
Qed.

Lemma finishes_print line : finishes (print line).
Proof. intros w. discriminate. Qed.

Lemma finishes_sys_exit {A} code : finishes (@sys_exit A code).
Proof. intros w. discriminate. Qed.

Lemma finishes_sleep : finishes sleep_half.
Proof. intros w. discriminate. Qed.

Lemma finishes_path_exists path : finishes (path_exists path).
Proof. intros w. discriminate. Qed.

Lemma finishes_read_text path : finishes (read_text path).
Proof. intros w. unfold read_text. destruct (fs w !! path) as [[]|]; discriminate. Qed.

Lemma finishes_read_path path : finishes (read_path path).
Proof.
  destruct path; [apply finishes_read_text|]. apply finishes_lift. exact I.
Qed.

Lemma finishes_write_text path text : finishes (write_text path text).
Proof. intros w. discriminate. Qed.

Lemma finishes_to_excel writer path sheet : finishes (to_excel writer path sheet).
Proof.
  intros w. unfold to_excel.
  destruct (writer path sheet) as [|e [remains|]]; discriminate.
Qed.

Lemma finishes_http rq : finishes (http rq).
Proof. intros w. unfold http. destruct (net w) as [|[r|e] tail]; discriminate. Qed.

Lemma finishes_response_json r : finishes (response_json r).
Proof.
  unfold response_json. destruct (resp_json r); [apply finishes_ret|].
  apply finishes_lift. exact I.
Qed.

Lemma finishes_subprocess_run cmd : finishes (subprocess_run cmd).
Proof. intros w. unfold subprocess_run. destruct (run_command cmd); discriminate. Qed.

#[local] Hint Resolve finishes_ret finishes_print finishes_sys_exit finishes_sleep
  finishes_path_exists finishes_read_text finishes_read_path finishes_write_text
  finishes_to_excel
  finishes_http finishes_response_json finishes_subprocess_run : finish.

(** A loop whose body draws a response in every turn ends within the
    bound. *)
Lemma while_fuel_finishes {S A} (body : S -> M (S + A)) :
  draws body ->
  forall fuel s w,
    (length (net w) < fuel)%nat ->
    fst (while_fuel fuel body s w) <> Stop Unfinished.
Proof.
  intros Hbody. induction fuel as [|fuel IH]; intros s w Hlt; [lia|].
  cbn [while_fuel]. unfold bind. destruct (Hbody s w) as [Hfin Hdraw].
  destruct (body s w) as [[[s'|a]|h] w']; cbn [fst] in *.
  - apply IH. specialize (Hdraw s' w' eq_refl). lia.
  - discriminate.
  - intros [= ->]. now apply Hfin.
Qed.

Lemma while_net_finishes {S A} (body : S -> M (S + A)) s :
  draws body -> finishes (while_net body s).
Proof. intros Hbody w. unfold while_net. apply while_fuel_finishes; [exact Hbody|lia]. Qed.

Ltac solve_finishes :=
  repeat first
    [ solve [auto with finish]
    | apply finishes_lift; solve [solve_raises_only]
    | apply finishes_bind; [|intros ?]
    | apply finishes_for_each; intros ? ?
    | apply finishes_try_except; [|intros ?]
    | match goal with |- finishes (if ?b then _ else _) => destruct b end
    | match goal with |- finishes (match ?x with _ => _ end) => destruct x end ].

Lemma finishes_read_credentials : finishes read_credentials.
Proof. unfold read_credentials. solve_finishes. Qed.

Lemma finishes_run_trufflehog cmd : finishes (run_trufflehog cmd).
Proof. unfold run_trufflehog. solve_finishes. Qed.

#[local] Hint Resolve finishes_read_credentials finishes_run_trufflehog : finish.

Lemma github_page_draws {T} headers (item : json -> outcome T) on_failure :
  (forall a, raises_only (item a)) ->
  (forall c, finishes (on_failure c)) ->
  draws (github_page headers item on_failure).
Proof.
  intros Hitem Hfail [[url params] acc] w. split.
  - revert w. change (finishes (github_page headers item on_failure (url, params, acc))).
    unfold github_page, requests_get. solve_finishes.
  - intros s' w'. unfold github_page, bind at 1, requests_get, http.
    destruct (net w) as [|[r|e] tail]; [discriminate| |discriminate].
    destruct (negb (status_code r =? 200)).
    + unfold bind. destruct (on_failure (status_code r) _) as [[[]|h] w1]; discriminate.
    + unfold bind, response_json, lift, ret.
      destruct (resp_json r) as [data|]; [|discriminate].
      destruct (Dyn.iter data) as [elements|]; [|discriminate].
      destruct (omap item elements) as [names|]; [|discriminate].
      destruct (resp_next r) as [next|]; [|discriminate].
      destruct (Py.truthy next); [|discriminate].
      intros [= _ <-]. cbn. lia.
Qed.

Lemma hub_page_draws headers : draws (hub_page headers).
Proof.
  intros [url acc] w. split.
  - revert w. change (finishes (hub_page headers (url, acc))).
    unfold hub_page, requests_get_dyn, requests_get. solve_finishes.
  - intros s' w'. unfold hub_page, bind at 1, requests_get_dyn.
    destruct url; try discriminate. unfold requests_get, http.
    destruct (net w) as [|[r|e] tail]; [discriminate| |discriminate].
    destruct (negb (status_code r =? 200)); [discriminate|].
    unfold bind, response_json, lift, ret.
    destruct (resp_json r) as [data|]; [|discriminate].
    destruct (Dyn.get data "results" (JArr [])) as [results|]; [|discriminate].
    destruct (Dyn.iter results) as [elements|]; [|discriminate].
    destruct (omap _ elements) as [names|]; [|discriminate].
    destruct (Dyn.get data "next" JNull) as [next|]; [|discriminate].
    destruct (Dyn.truthy next); [|discriminate].
    intros [= _ <-]. cbn. lia.
Qed.

Lemma finishes_get_user_repos token : finishes (get_user_repos token).
Proof.
  unfold get_user_repos. apply while_net_finishes, github_page_draws;
    intros; auto with finish.
Qed.

Lemma finishes_get_orgs token : finishes (get_orgs token).
Proof.
  unfold get_orgs. apply while_net_finishes, github_page_draws;
    intros; auto with finish.
Qed.

Lemma finishes_get_profile_repos profile_url token :
  finishes (get_profile_repos profile_url token).
Proof.
  unfold get_profile_repos.
  apply finishes_bind.
  { apply finishes_lift. destruct (urlparse_path profile_url); exact I. }
  intros path. cbv zeta.
  destruct (negb (Py.truthy (Py.strip_chars "/" path))); [solve_finishes|].
  apply while_net_finishes, github_page_draws; intros; auto with finish.
Qed.

Lemma finishes_list_repositories username token :
  finishes (list_repositories username token).
Proof. unfold list_repositories. apply while_net_finishes, hub_page_draws. Qed.

#[local] Hint Resolve finishes_get_user_repos finishes_get_orgs
  finishes_get_profile_repos finishes_list_repositories : finish.

Lemma finishes_scan_my_repos_and_orgs token : finishes (scan_my_repos_and_orgs token).
Proof. unfold scan_my_repos_and_orgs. solve_finishes. Qed.

Lemma finishes_scan_other_repos file_path : finishes (scan_other_repos file_path).
Proof. unfold scan_other_repos. solve_finishes. Qed.

Lemma finishes_scan_profile_repos file_path token :
  finishes (scan_profile_repos file_path token).
Proof. unfold scan_profile_repos. solve_finishes. Qed.

Lemma finishes_get_docker_token username password :
  finishes (get_docker_token username password).
Proof. unfold get_docker_token, requests_post. solve_finishes. Qed.

Lemma finishes_scan_with_trufflehog image : finishes (scan_with_trufflehog image).
Proof. unfold scan_with_trufflehog. solve_finishes. Qed.

#[local] Hint Resolve finishes_scan_my_repos_and_orgs finishes_scan_other_repos
  finishes_scan_profile_repos finishes_get_docker_token
  finishes_scan_with_trufflehog : finish.

Lemma finishes_scan_image full_repo image acc : finishes (scan_image full_repo image acc).
Proof. unfold scan_image. solve_finishes. Qed.

#[local] Hint Resolve finishes_scan_image : finish.

Lemma finishes_scan_digest full_repo img acc : finishes (scan_digest full_repo img acc).
Proof. unfold scan_digest. solve_finishes. Qed.

#[local] Hint Resolve finishes_scan_digest : finish.

Lemma finishes_scan_tag full_repo tag acc : finishes (scan_tag full_repo tag acc).
Proof. unfold scan_tag. solve_finishes. Qed.

#[local] Hint Resolve finishes_scan_tag : finish.

Lemma tag_page_turn_draws full_repo :
  draws (tag_page_turn (S := list docker_row) full_repo (scan_tag full_repo)).
Proof.
  intros [page acc] w. split.
  - revert w.
    change (finishes (tag_page_turn full_repo (scan_tag full_repo) (page, acc))).
    unfold tag_page_turn, get_container_tag_page, yield_tags, requests_get. solve_finishes.
  - intros s' w'. unfold tag_page_turn, bind at 1.
    destruct (get_container_tag_page full_repo page w) as [[data|h] w1] eqn:Hpage;
      [|discriminate].
    intros Hyield.
    assert (Hdrawn : (length (net w1) < length (net w))%nat).
    { revert Hpage. unfold get_container_tag_page, bind, requests_get, http.
      destruct (net w) as [|[r|e] tail]; try discriminate.
      unfold response_json. destruct (resp_json r); [|discriminate].
      intros [= _ <-]. cbn. lia. }
    destruct (net_blind_yield_tags full_repo page acc data [] w1) as [Hsame _].
    rewrite Hyield in Hsame. cbn [snd] in Hsame. now rewrite Hsame.
Qed.

Lemma finishes_scan_repository all_tags full_repo acc :
  finishes (scan_repository all_tags full_repo acc).
Proof.
  unfold scan_repository. apply finishes_bind; [solve_finishes|]. intros _.
  destruct all_tags; [|solve_finishes].
  unfold get_container_tags. apply while_net_finishes, tag_page_turn_draws.
Qed.

Lemma finishes_save_to_excel_github results_file output_file :
  finishes (save_to_excel_github results_file output_file).
Proof. unfold save_to_excel_github. solve_finishes. Qed.

Lemma finishes_save_to_excel_docker findings output_file :
  finishes (save_to_excel_docker findings output_file).
Proof. unfold save_to_excel_docker. solve_finishes. Qed.

#[local] Hint Resolve finishes_scan_repository finishes_save_to_excel_github
  finishes_save_to_excel_docker : finish.

(** No run of [main] is cut off by the bound on the loops. *)
Theorem main_finishes (a : args) : finishes (main a).
Proof. unfold main. solve_finishes. Qed.


(** ** More on the credential loader *)

(** With the credential file read and parsed, what is left of
    [read_credentials] (lines 31-42). *)
Lemma read_credentials_loaded w text conf :
  fs w !! "cred.conf" = Some (TextFile text) ->
  yaml_safe_load (Py.universal_newlines text) = inr conf ->
  read_credentials w
  = bind (lift (first_entry conf "github"))
      (fun github_token =>
         docker_line <- lift (first_entry conf "docker") ;;
         match docker_line with
         | Some line =>
             if negb (Py.contains ":" line) then
               print no_colon_message ;; sys_exit 1
             else
               match Py.split1 ":" line with
               | [docker_user; docker_pass] =>
                   ret (github_token, Some docker_user, Some docker_pass)
               | _ => lift (raise ValueError "not enough values to unpack")
               end
         | None => ret (github_token, None, None)
         end) w.
Proof.
  intros Hfile Hyaml. unfold read_credentials.
  erewrite bind_ret_eq by (unfold path_exists; rewrite Hfile; reflexivity).
  cbn [negb].
  erewrite bind_ret_eq by (unfold read_text; rewrite Hfile; reflexivity).
  rewrite Hyaml. reflexivity.
Qed.

(** X1: without a credential file, or with one that is not YAML, every
    mode ends through [sys.exit(1)] with the loader's message; nothing is
    requested, run or written. *)
Theorem credentials_that_do_not_load (a : args) (w : world) :
  (fs w !! "cred.conf" = None ->
   main a w
   = (Stop (Exited 1),
      set_stdout (stdout w ++ ["Error: cred.conf file not found."]) w))
  /\ (forall text e,
        fs w !! "cred.conf" = Some (TextFile text) ->
        yaml_safe_load (Py.universal_newlines text) = inl e ->
        main a w
        = (Stop (Exited 1),
           set_stdout (stdout w ++ ["Error parsing cred.conf: " ++ e]) w)).
Proof.
  split.
  - intros Hfile. unfold main. apply bind_stop_eq.
    unfold read_credentials.
    erewrite bind_ret_eq by (unfold path_exists; rewrite Hfile; reflexivity).
    reflexivity.
  - intros text e Hfile Hyaml. unfold main. apply bind_stop_eq.
    unfold read_credentials.
    erewrite bind_ret_eq by (unfold path_exists; rewrite Hfile; reflexivity).
    cbn [negb].
    erewrite bind_ret_eq by (unfold read_text; rewrite Hfile; reflexivity).
    rewrite Hyaml. reflexivity.
Qed.

(** X2: a credential file whose document is no mapping, list or text
    (an empty file gives [None]) is not reported by the loader: the test
    ["github" in conf] raises a [TypeError] that nothing catches, and the
    run ends there. *)
Theorem credentials_document_that_is_no_container
    (a : args) (w : world) (text : string) (conf : json) :
  fs w !! "cred.conf" = Some (TextFile text) ->
  yaml_safe_load (Py.universal_newlines text) = inr conf ->
  conf = JNull \/ (exists b, conf = JBool b) \/ (exists n, conf = JNum n) ->
  exists msg, main a w = (Stop (Raised (Exn TypeError msg)), w).
Proof.
  intros Hfile Hyaml Hconf. eexists. unfold main. apply bind_stop_eq.
  rewrite (read_credentials_loaded w text conf Hfile Hyaml).
  destruct Hconf as [->|[[b ->]|[n ->]]]; reflexivity.
Qed.

Lemma substring_whole (s : string) : String.substring 0 (String.length s) s = s.
Proof. induction s as [|c s IH]; [reflexivity|]. cbn. now rewrite IH. Qed.

(** [s.split(c, 1)] on a text that holds the character [c]: the two
    pieces are what comes before the first [c] and what follows it. *)
Lemma split1_at_char (c : ascii) (s : string) :
  Py.contains (String c EmptyString) s = true ->
  exists a b,
    Py.split1 (String c EmptyString) s = [a; b]
    /\ s = a ++ String c b
    /\ Py.contains (String c EmptyString) a = false.
Proof.
  unfold Py.split1. induction s as [|d s IH]; intros H.
  - discriminate.
  - rewrite contains_char_cons in H.
    cbn [String.index]. rewrite prefix_char, Ascii.eqb_sym.
    destruct (Ascii.eqb c d) eqn:Hcd.
    + apply Ascii.eqb_eq in Hcd as <-.
      exists EmptyString, s. split; [|split; reflexivity].
      cbn. now rewrite Nat.sub_0_r, substring_whole.
    + cbn [orb] in H. destruct (IH H) as (a & b & Hsplit & Hs & Ha).
      destruct (String.index 0 (String c EmptyString) s) as [n|];
        [|discriminate].
      injection Hsplit as <- <-.
      eexists _, _. split; [|split].
      * cbn. reflexivity.
      * rewrite Hs at 1. reflexivity.
      * cbn [String.substring]. rewrite contains_char_cons, Hcd. exact Ha.
Qed.

(** X3: when the first [docker] entry, stripped, holds a colon, the
    loader returns the credentials and leaves everything as it was; the
    user name is what comes before the first colon and has none, the
    password is all that follows, its own colons included. *)
Theorem docker_credentials_split_at_first_colon
    (w : world) (text : string) (conf : json)
    (github_token : option string) (line : string) :
  fs w !! "cred.conf" = Some (TextFile text) ->
  yaml_safe_load (Py.universal_newlines text) = inr conf ->
  first_entry conf "github" = Ret github_token ->
  first_entry conf "docker" = Ret (Some line) ->
  Py.contains ":" line = true ->
  exists docker_user docker_pass,
    read_credentials w = (Ret (github_token, Some docker_user, Some docker_pass), w)
    /\ line = docker_user ++ ":" ++ docker_pass
    /\ Py.contains ":" docker_user = false.
Proof.
  intros Hfile Hyaml Hgithub Hdocker Hcolon.
  destruct (split1_at_char ":" line Hcolon) as (user & pass & Hsplit & Hline & Huser).
  exists user, pass. split; [|split; assumption].
  rewrite (read_credentials_loaded w text conf Hfile Hyaml).
  erewrite bind_lift_ret by exact Hgithub.
  erewrite bind_lift_ret by exact Hdocker.
  cbv beta iota. rewrite Hcolon. cbn [negb]. rewrite Hsplit. reflexivity.
Qed.

(** X4: an entry of the credential file is meant to be a list, and
    [conf[key][0]] is taken of whatever is there.  When the [github]
    entry is a text that is not empty, the token is its first character
    alone; an entry that is absent, [None], or an empty list or text
    gives no token. *)
Theorem credential_entry_that_is_no_list
    (w : world) (text : string) (conf : list (string * json)) :
  fs w !! "cred.conf" = Some (TextFile text) ->
  yaml_safe_load (Py.universal_newlines text) = inr (JObj conf) ->
  Dyn.lookup "docker" conf = None ->
  (forall c s,
      Dyn.lookup "github" conf = Some (JStr (String c s)) ->
      read_credentials w = (Ret (Some (Py.strip (String c EmptyString)), None, None), w))
  /\ (Dyn.lookup "github" conf = None
      \/ Dyn.lookup "github" conf = Some JNull
      \/ Dyn.lookup "github" conf = Some (JArr [])
      \/ Dyn.lookup "github" conf = Some (JStr "") ->
      read_credentials w = (Ret (None, None, None), w)).
Proof.
  intros Hfile Hyaml Hdocker.
  rewrite (read_credentials_loaded w text (JObj conf) Hfile Hyaml).
  assert (Hd : first_entry (JObj conf) "docker" = Ret None).
  { unfold first_entry. cbn. now rewrite Hdocker. }
  split.
  - intros c s Hgithub.
    erewrite bind_lift_ret
      by (unfold first_entry; cbn; rewrite Hgithub; reflexivity).
    erewrite bind_lift_ret by exact Hd. reflexivity.
  - intros Hgithub.
    erewrite bind_lift_ret.
    2:{ unfold first_entry. cbn.
        destruct Hgithub as [H|[H|[H|H]]]; rewrite H; reflexivity. }
    erewrite bind_lift_ret by exact Hd. reflexivity.
Qed.

(** ** The user name of a Docker Hub address *)

Lemma append_cons (c : ascii) (s t : string) : String c s ++ t = String c (s ++ t).
Proof. reflexivity. Qed.

Lemma append_assoc (s t u : string) : (s ++ t) ++ u = s ++ t ++ u.
Proof.
  induction s as [|c s IH]; [reflexivity|].
  now rewrite !append_cons, IH.
Qed.

Lemma prefix_cons (a c : ascii) (s t : string) :
  String.prefix (String a s) (String c t) = Ascii.eqb a c && String.prefix s t.
Proof.
  simpl. destruct (ascii_dec a c) as [<-|Hne].
  - now rewrite Ascii.eqb_refl.
  - apply Ascii.eqb_neq in Hne. now rewrite Hne.
Qed.

Lemma prefix_append (sub t : string) : String.prefix sub (sub ++ t) = true.
Proof.
  induction sub as [|c sub IH]; [now destruct t|].
  now rewrite append_cons, prefix_cons, Ascii.eqb_refl, IH.
Qed.

Lemma contains_cons (sub : string) (c : ascii) (s : string) :
  Py.contains sub (String c s) = String.prefix sub (String c s) || Py.contains sub s.
Proof. reflexivity. Qed.

Lemma contains_of_prefix (sub s : string) :
  String.prefix sub s = true -> Py.contains sub s = true.
Proof. intros H. destruct s; cbn [Py.contains]; now rewrite H. Qed.

Lemma contains_in_the_middle (sub a b : string) : Py.contains sub (a ++ sub ++ b) = true.
Proof.
  induction a as [|c a IH].
  - change (EmptyString ++ sub ++ b) with (sub ++ b).
    apply contains_of_prefix, prefix_append.
  - rewrite append_cons, contains_cons, IH. apply orb_true_r.
Qed.

(** Inside a text without [/u], and where such a text meets what follows
    it, no [/u/] begins. *)
Lemma no_separator_begins (c : ascii) (site rest : string) :
  Py.contains "/u" (String c site) = false ->
  String.prefix "/u/" (String c (site ++ String "/" rest)) = false.
Proof.
  rewrite contains_cons. intros H. apply orb_false_elim in H as [H _].
  rewrite prefix_cons in *. destruct (Ascii.eqb "/" c); [|reflexivity].
  cbn [andb] in *. destruct site as [|d site].
  - reflexivity.
  - rewrite append_cons, prefix_cons in *.
    destruct (Ascii.eqb "u" d); [|reflexivity].
    now destruct site.
Qed.

Lemma split_go_without_first (a : ascii) (sep s cur : string) :
  Py.contains (String a EmptyString) s = false ->
  Py.split_go (String a sep) 0 cur s = [String.rev_app cur s].
Proof.
  revert cur. induction s as [|c s IH]; intros cur H; [reflexivity|].
  rewrite contains_char_cons in H. apply orb_false_elim in H as [Hc Hs].
  cbn [Py.split_go]. rewrite prefix_cons, Hc. cbn [andb]. now rewrite IH.
Qed.

(** The last piece of [(site + "/u/" + name).split("/u/")] *)
Lemma last_piece_after_u (site name cur : string) :
  Py.contains "/u" site = false ->
  Py.contains "/" name = false ->
  List.last (Py.split_go "/u/" 0 cur (site ++ "/u/" ++ name)) "" = name.
Proof.
  intros Hsite Hname. revert cur.
  induction site as [|c site IH]; intros cur.
  - change (EmptyString ++ "/u/" ++ name)
      with (String "/" (String "u" (String "/" name))).
    cbn [Py.split_go]. rewrite prefix_cons, prefix_cons, prefix_cons.
    cbn [Ascii.eqb Bool.eqb andb String.prefix String.length Nat.pred].
    replace (String.prefix "" name) with true by now destruct name.
    change "/u/" with (String "/" "u/").
    rewrite (split_go_without_first "/" "u/" name EmptyString Hname).
    reflexivity.
  - rewrite append_cons. cbn [Py.split_go].
    change ("/u/" ++ name) with (String "/" ("u/" ++ name)).
    rewrite (no_separator_begins c site ("u/" ++ name) Hsite).
    rewrite contains_cons in Hsite. apply orb_false_elim in Hsite as [_ Hsite].
    exact (IH Hsite (String c cur)).
Qed.

(** ... and all of [(site + "/u").split("/u/")]. *)
Lemma no_piece_after_u (site cur : string) :
  Py.contains "/u" site = false ->
  Py.split_go "/u/" 0 cur (site ++ "/u") = [String.rev_app cur (site ++ "/u")].
Proof.
  intros Hsite. revert cur.
  induction site as [|c site IH]; intros cur.
  - reflexivity.
  - rewrite append_cons. cbn [Py.split_go].
    rewrite (no_separator_begins c site "u" Hsite).
    rewrite contains_cons in Hsite. apply orb_false_elim in Hsite as [_ Hsite].
    rewrite (IH Hsite (String c cur)). reflexivity.
Qed.

Lemma rstrip_by_all (p : ascii -> bool) (t : string) :
  Py.all_chars p t = true -> Py.rstrip_by p t = EmptyString.
Proof.
  induction t as [|c t IH]; [reflexivity|].
  cbn [Py.all_chars Py.rstrip_by]. intros H.
  apply andb_prop in H as [Hc Ht]. now rewrite (IH Ht), Hc.
Qed.

Lemma rstrip_by_append_all (p : ascii -> bool) (s t : string) :
  Py.all_chars p t = true -> Py.rstrip_by p (s ++ t) = Py.rstrip_by p s.
Proof.
  intros Ht. induction s as [|c s IH].
  - exact (rstrip_by_all p t Ht).
  - rewrite append_cons. cbn [Py.rstrip_by]. now rewrite IH.
Qed.

Lemma rstrip_by_append_kept (p : ascii -> bool) (s t : string) :
  t <> EmptyString -> Py.rstrip_by p t = t -> Py.rstrip_by p (s ++ t) = s ++ t.
Proof.
  intros Hne Ht. induction s as [|c s IH]; [exact Ht|].
  rewrite append_cons. cbn [Py.rstrip_by]. rewrite IH.
  destruct (s ++ t) eqn:Hst; [|reflexivity].
  destruct s; [|discriminate]. now destruct Hne.
Qed.

Lemma rstrip_without_slash (name : string) :
  Py.contains "/" name = false -> Py.rstrip_chars "/" name = name.
Proof.
  unfold Py.rstrip_chars. induction name as [|c name IH]; [reflexivity|].
  rewrite contains_slash_cons. intros H. apply orb_false_elim in H as [Hc Hname].
  cbn [Py.rstrip_by]. rewrite (IH Hname), char_in_slash, Hc. now destruct name.
Qed.

Lemma all_slashes (t : string) :
  Py.all_chars (Ascii.eqb "/") t = true -> Py.all_chars (Py.char_in "/") t = true.
Proof.
  induction t as [|c t IH]; [reflexivity|].
  cbn [Py.all_chars]. intros H. apply andb_prop in H as [Hc Ht].
  now rewrite char_in_slash, Ascii.eqb_sym, Hc, IH.
Qed.

(** X5: of an address [site/u/name], with or without slashes at its end,
    [get_username_from_url] gives [name] (here [site] holds no [/u] and
    [name] no slash).  When no name follows [/u/], the result is not
    empty: the address is found to hold [/u/], loses its final slashes
    and, with them, the separator that the split looks for, so that the
    result is the address up to its [/u]. *)
Theorem user_name_of_a_hub_address (site slashes : string) :
  Py.contains "/u" site = false ->
  Py.all_chars (Ascii.eqb "/") slashes = true ->
  (forall name,
      name <> "" -> Py.contains "/" name = false ->
      get_username_from_url (site ++ "/u/" ++ name ++ slashes) = name)
  /\ get_username_from_url (site ++ "/u/" ++ slashes) = site ++ "/u".
Proof.
  intros Hsite Hslashes. apply all_slashes in Hslashes. split.
  - intros name Hne Hname. unfold get_username_from_url.
    rewrite contains_in_the_middle. unfold Py.rstrip_chars, Py.split.
    replace (site ++ "/u/" ++ name ++ slashes)
      with ((site ++ "/u/" ++ name) ++ slashes)
      by now rewrite !append_assoc.
    rewrite (rstrip_by_append_all _ _ _ Hslashes).
    replace (site ++ "/u/" ++ name) with ((site ++ "/u/") ++ name)
      by now rewrite append_assoc.
    rewrite (rstrip_by_append_kept _ _ _ Hne (rstrip_without_slash _ Hname)).
    rewrite append_assoc.
    now apply last_piece_after_u.
  - unfold get_username_from_url.
    rewrite contains_in_the_middle. unfold Py.rstrip_chars, Py.split.
    replace (site ++ "/u/" ++ slashes) with ((site ++ "/u") ++ "/" ++ slashes)
      by now rewrite append_assoc.
    rewrite (rstrip_by_append_all (Py.char_in "/") (site ++ "/u") ("/" ++ slashes))
      by (change ("/" ++ slashes) with (String "/" slashes);
          cbn [Py.all_chars]; now rewrite Hslashes).
    rewrite (rstrip_by_append_kept _ site "/u") by easy.
    now rewrite no_piece_after_u.
Qed.

(** ** The requests of a listing that runs to its last page *)

Lemma after_no_request w : after_requests [] (net w) w = w.
Proof. destruct w. unfold after_requests, set_net, set_sent. cbn. now rewrite app_nil_r. Qed.

Lemma after_requests_more rq rqs mid rest w :
  after_requests rqs rest (after_requests [rq] mid w)
  = after_requests (rq :: rqs) rest w.
Proof.
  unfold after_requests, set_net, set_sent. cbn. now rewrite <- app_assoc.
Qed.

Lemma github_page_linked {T} headers (item : json -> outcome T) on_failure
    url params acc w r tail names :
  net w = Responds r :: tail ->
  page_with_next item (r, names) ->
  github_page headers item on_failure (url, params, acc) w
  = (Ret (inl (next_link r, [], (acc ++ names)%list)),
     after_requests [Request GET url headers params []] tail w).
Proof.
  intros Hnet Hpage.
  destruct (github_page_more headers item on_failure url params acc w r tail names
              Hnet Hpage) as [next Hstep].
  rewrite Hstep. destruct Hpage as [_ Hnext]. cbn [fst] in Hnext.
  unfold github_page in Hstep. revert Hstep.
  erewrite bind_ret_eq
    by (unfold requests_get, http; rewrite Hnet; reflexivity).
  unfold next_link. destruct (resp_next r) as [u|]; [|discriminate].
  cbn in Hnext. rewrite Hnext.
  destruct (negb (status_code r =? 200)).
  - unfold bind at 1. destruct (on_failure _ _) as [[[]|h] w']; discriminate.
  - unfold bind at 1. destruct (response_json r _) as [[data|h] w1]; [|discriminate].
    unfold bind at 1, lift at 1. destruct (Dyn.iter data); [|discriminate].
    unfold bind at 1, lift at 1. destruct (omap item a); [|discriminate].
    unfold ret. now intros [= <- _].
Qed.

Lemma github_pages_requested {T} headers (item : json -> outcome T) on_failure
    (pages : list (response * list T)) :
  forall fuel url params acc w tail,
    Forall (page_with_next item) pages ->
    net w = (responses pages ++ tail)%list ->
    exists url' params',
      while_fuel (length pages + fuel) (github_page headers item on_failure)
        (url, params, acc) w
      = while_fuel fuel (github_page headers item on_failure)
          (url', params', (acc ++ gathered pages)%list)
          (after_requests (page_requests headers url params (map fst pages)) tail w)
      /\ forall last,
           page_requests headers url params (map fst pages ++ [last])
           = (page_requests headers url params (map fst pages)
              ++ [Request GET url' headers params' []])%list.
Proof.
  induction pages as [|[r names] pages IH];
    intros fuel url params acc w tail Hpages Hnet.
  - exists url, params. cbn. rewrite app_nil_r. cbn in Hnet. subst tail.
    now rewrite after_no_request.
  - inversion Hpages as [|? ? Hpage Hrest]; subst.
    pose proof (github_page_linked headers item on_failure url params acc w r
                  (responses pages ++ tail)%list names Hnet Hpage) as Hstep.
    destruct (IH fuel (next_link r) [] (acc ++ names)%list
                (after_requests [Request GET url headers params []]
                   (responses pages ++ tail)%list w)
                tail Hrest eq_refl)
      as (url' & params' & Hrun & Hlast).
    exists url', params'. split.
    + cbn [length Nat.add while_fuel].
      erewrite bind_ret_eq by exact Hstep.
      cbv beta iota. rewrite Hrun, after_requests_more.
      unfold gathered. cbn [map concat fst snd page_requests].
      now rewrite app_assoc.
    + intros last. cbn [map fst app page_requests]. now rewrite Hlast.
Qed.

(** A listing that runs to a page without a link returns the names of
    all its pages, having asked for each of them in turn. *)
Lemma github_listing_requests {T} headers (item : json -> outcome T) on_failure
    url params w pages last names rest :
  Forall (page_with_next item) pages ->
  page_yields item last names ->
  Py.truthy_opt (resp_next last) = false ->
  net w = (responses pages ++ Responds last :: rest)%list ->
  while_net (github_page headers item on_failure) (url, params, []) w
  = (Ret (gathered pages ++ names)%list,
     after_requests (page_requests headers url params (map fst pages ++ [last]))
       rest w).
Proof.
  intros Hpages Hlast Hnext Hnet.
  destruct (github_pages_requested headers item on_failure pages
              (S (S (length rest))) url params [] w
              (Responds last :: rest) Hpages Hnet)
    as (url' & params' & Hrun & Hrqs).
  unfold while_net. rewrite Hnet, length_app, length_responses.
  cbn [length]. rewrite <- Nat.add_succ_r, Hrun.
  erewrite github_page_last; [|reflexivity|exact Hlast|exact Hnext].
  rewrite Hrqs. cbn [app].
  unfold after_requests, set_net, set_sent. cbn. now rewrite <- app_assoc.
Qed.

(** X6: a GitHub listing whose pages all come with status 200 returns
    the names of all pages, in order, up to the first page without a
    link to a next one.  It asks for the first page with its parameters
    and for every other page at the address the page before it links
    to, without parameters and with the same headers; a profile is
    listed without [Authorization] header when there is no token.
    Nothing else happens: nothing is printed, run or written. *)
Theorem github_listings_follow_the_links (w : world) (rest : list net_event) :
  (forall token pages last names,
      Forall (page_with_next repo_url) pages ->
      page_yields repo_url last names ->
      Py.truthy_opt (resp_next last) = false ->
      net w = (responses pages ++ Responds last :: rest)%list ->
      get_user_repos token w
      = (Ret (gathered pages ++ names)%list,
         after_requests
           (page_requests [("Authorization", "token " ++ token)]
              "https://api.github.com/user/repos"
              [("per_page", "100"); ("type", "owner")] (map fst pages ++ [last]))
           rest w))
  /\ (forall token pages last names,
        Forall (page_with_next (fun org => Dyn.getitem org "login")) pages ->
        page_yields (fun org => Dyn.getitem org "login") last names ->
        Py.truthy_opt (resp_next last) = false ->
        net w = (responses pages ++ Responds last :: rest)%list ->
        get_orgs token w
        = (Ret (gathered pages ++ names)%list,
           after_requests
             (page_requests [("Authorization", "token " ++ token)]
                "https://api.github.com/user/orgs" [] (map fst pages ++ [last]))
             rest w))
  /\ (forall profile_url token path pages last names,
        urlparse_path profile_url = Some path ->
        Py.truthy (Py.strip_chars "/" path) = true ->
        Forall (page_with_next repo_url) pages ->
        page_yields repo_url last names ->
        Py.truthy_opt (resp_next last) = false ->
        net w = (responses pages ++ Responds last :: rest)%list ->
        get_profile_repos profile_url token w
        = (Ret (gathered pages ++ names)%list,
           after_requests
             (page_requests (profile_headers token)
                ("https://api.github.com/users/" ++ Py.strip_chars "/" path ++ "/repos")
                [("per_page", "100")] (map fst pages ++ [last]))
             rest w)).
Proof.
  split; [|split].
  - intros token pages last names Hpages Hlast Hnext Hnet.
    now apply github_listing_requests.
  - intros token pages last names Hpages Hlast Hnext Hnet.
    now apply github_listing_requests.
  - intros profile_url token path pages last names Hpath Huser Hpages Hlast Hnext Hnet.
    unfold get_profile_repos. rewrite Hpath.
    erewrite bind_lift_ret by reflexivity.
    rewrite Huser. cbn [negb].
    now apply github_listing_requests.
Qed.

Lemma hub_page_linked headers u acc w r tail names :
  net w = Responds r :: tail ->
  hub_page_with_next (r, names) ->
  hub_page headers (JStr u, acc) w
  = (Ret (inl (JStr (hub_next r), (acc ++ names)%list)),
     after_requests [Request GET u headers [] []] tail w).
Proof.
  intros Hnet (next & (Hstatus & data & results & elements & Hjson & Hres
                       & Hiter & Hnames & Hnext) & Htruthy).
  cbn [fst snd] in *. unfold hub_page, requests_get_dyn.
  erewrite bind_ret_eq
    by (unfold requests_get, http; rewrite Hnet; reflexivity).
  rewrite Hstatus. cbn [Z.eqb Pos.eqb negb].
  unfold response_json. rewrite Hjson.
  erewrite bind_ret_eq by reflexivity.
  erewrite bind_lift_ret by exact Hres.
  erewrite bind_lift_ret by exact Hiter.
  erewrite bind_lift_ret by exact Hnames.
  erewrite bind_lift_ret by exact Hnext.
  cbn [Dyn.truthy]. rewrite Htruthy.
  unfold hub_next. rewrite Hjson, Hnext. reflexivity.
Qed.

Lemma hub_page_last headers fuel u acc w r names next rest :
  net w = Responds r :: rest ->
  hub_page_yields r names next ->
  Dyn.truthy next = false ->
  while_fuel (S fuel) (hub_page headers) (JStr u, acc) w
  = (Ret (acc ++ names)%list, after_requests [Request GET u headers [] []] rest w).
Proof.
  intros Hnet (Hstatus & data & results & elements & Hjson & Hres
               & Hiter & Hnames & Hnext) Hfalsy.
  cbn [while_fuel]. unfold hub_page, requests_get_dyn.
  erewrite bind_ret_eq.
  2:{ erewrite bind_ret_eq
        by (unfold requests_get, http; rewrite Hnet; reflexivity).
      rewrite Hstatus. cbn [Z.eqb Pos.eqb negb].
      unfold response_json. rewrite Hjson.
      erewrite bind_ret_eq by reflexivity.
      erewrite bind_lift_ret by exact Hres.
      erewrite bind_lift_ret by exact Hiter.
      erewrite bind_lift_ret by exact Hnames.
      erewrite bind_lift_ret by exact Hnext.
      rewrite Hfalsy. reflexivity. }
  reflexivity.
Qed.

Lemma hub_pages_requested headers (pages : list (response * list json)) :
  forall fuel u acc w tail,
    Forall hub_page_with_next pages ->
    net w = (responses pages ++ tail)%list ->
    exists u',
      while_fuel (length pages + fuel) (hub_page headers) (JStr u, acc) w
      = while_fuel fuel (hub_page headers) (JStr u', (acc ++ gathered pages)%list)
          (after_requests (hub_requests headers u (map fst pages)) tail w)
      /\ forall last,
           hub_requests headers u (map fst pages ++ [last])
           = (hub_requests headers u (map fst pages)
              ++ [Request GET u' headers [] []])%list.
Proof.
  induction pages as [|[r names] pages IH]; intros fuel u acc w tail Hpages Hnet.
  - exists u. cbn. rewrite app_nil_r. cbn in Hnet. subst tail.
    now rewrite after_no_request.
  - inversion Hpages as [|? ? Hpage Hrest]; subst.
    pose proof (hub_page_linked headers u acc w r (responses pages ++ tail)%list
                  names Hnet Hpage) as Hstep.
    destruct (IH fuel (hub_next r) (acc ++ names)%list
                (after_requests [Request GET u headers [] []]
                   (responses pages ++ tail)%list w)
                tail Hrest eq_refl)
      as (u' & Hrun & Hlast).
    exists u'. split.
    + cbn [length Nat.add while_fuel].
      erewrite bind_ret_eq by exact Hstep.
      cbv beta iota. rewrite Hrun, after_requests_more.
      unfold gathered. cbn [map concat fst snd hub_requests].
      now rewrite app_assoc.
    + intros last. cbn [map fst app hub_requests]. now rewrite Hlast.
Qed.

(** The loop of the listing, when it runs to a last page. *)
Lemma hub_loop_requests headers u w pages last names next rest :
  Forall hub_page_with_next pages ->
  hub_page_yields last names next ->
  Dyn.truthy next = false ->
  net w = (responses pages ++ Responds last :: rest)%list ->
  while_net (hub_page headers) (JStr u, []) w
  = (Ret (gathered pages ++ names)%list,
     after_requests (hub_requests headers u (map fst pages ++ [last])) rest w).
Proof.
  intros Hpages Hlast Hnext Hnet.
  destruct (hub_pages_requested headers pages (S (S (length rest))) u [] w
              (Responds last :: rest) Hpages Hnet)
    as (u' & Hrun & Hrqs).
  unfold while_net. rewrite Hnet, length_app, length_responses.
  cbn [length]. rewrite <- Nat.add_succ_r, Hrun.
  erewrite hub_page_last; [|reflexivity|exact Hlast|exact Hnext].
  rewrite Hrqs. cbn [app].
  unfold after_requests, set_net, set_sent. cbn. now rewrite <- app_assoc.
Qed.

(** X7: the Docker Hub repository listing whose pages all come with
    status 200 returns the names of all pages, in order, up to the first
    page whose [next] is absent, [None] or empty.  It asks for the first
    page at the address of the user and for every other page at the
    [next] of the page before it, each time with the token in the
    [Authorization] header; nothing is printed, run or written. *)
Theorem hub_listing_follows_next
    (username : string) (token : json) (w : world)
    (pages : list (response * list json)) (last : response)
    (names : list json) (next : json) (rest : list net_event) :
  Forall hub_page_with_next pages ->
  hub_page_yields last names next ->
  Dyn.truthy next = false ->
  net w = (responses pages ++ Responds last :: rest)%list ->
  list_repositories username token w
  = (Ret (gathered pages ++ names)%list,
     after_requests
       (hub_requests [("Authorization", "JWT " ++ fstr token)]
          ("https://hub.docker.com/v2/repositories/" ++ username ++ "/")
          (map fst pages ++ [last]))
       rest w).
Proof.
  intros Hpages Hlast Hnext Hnet.
  unfold list_repositories. cbv zeta.
  now apply (hub_loop_requests _ _ w pages last names next rest).
Qed.

(** ** The pages of the tag listing *)

Lemma for_each_collect (l tags : list json) w :
  for_each l collect tags w = (Ret (tags ++ l)%list, w).
Proof.
  revert tags. induction l as [|x l IH]; intros tags; cbn [for_each].
  - unfold ret. now rewrite app_nil_r.
  - erewrite bind_ret_eq by reflexivity. rewrite IH, <- app_assoc. reflexivity.
Qed.

Lemma tag_requests_more name first n :
  tag_requests name first (S n)
  = (tag_requests name first n
     ++ [Request GET (dockerhub_tag_endpoint name (first + Z.of_nat n)) [] [] []])%list.
Proof.
  revert first. induction n as [|n IH]; intros first.
  - cbn. now rewrite Z.add_0_r.
  - cbn [tag_requests] in *. rewrite IH. cbn [app].
    replace (first + 1 + Z.of_nat n) with (first + Z.of_nat (S n)) by lia.
    reflexivity.
Qed.

Lemma tag_page_collected name page acc w r tail tags next :
  net w = Responds r :: tail ->
  tag_listing_page r tags next ->
  tag_page_turn name collect (page, acc) w
  = (Ret (if Dyn.truthy next then inl (page + 1, (acc ++ tags)%list)
          else inr (acc ++ tags)%list),
     after_requests [Request GET (dockerhub_tag_endpoint name page) [] [] []] tail w).
Proof.
  intros Hnet (data & results & Hjson & Hresults & Hiter & Hnext).
  unfold tag_page_turn, get_container_tag_page.
  erewrite bind_ret_eq.
  2:{ erewrite bind_ret_eq
        by (unfold requests_get, http; rewrite Hnet; reflexivity).
      unfold response_json. rewrite Hjson. reflexivity. }
  unfold yield_tags.
  erewrite bind_lift_ret by exact Hresults.
  erewrite bind_lift_ret by exact Hiter.
  erewrite bind_ret_eq by apply for_each_collect.
  erewrite bind_lift_ret by exact Hnext.
  destruct (Dyn.truthy next); reflexivity.
Qed.

Lemma tag_pages_collected name (pages : list (response * list json)) :
  forall fuel page acc w tail,
    Forall tag_listing_page_with_next pages ->
    net w = (responses pages ++ tail)%list ->
    while_fuel (length pages + fuel) (tag_page_turn name collect) (page, acc) w
    = while_fuel fuel (tag_page_turn name collect)
        (page + Z.of_nat (length pages), (acc ++ gathered pages)%list)
        (after_requests (tag_requests name page (length pages)) tail w).
Proof.
  induction pages as [|[r tags] pages IH]; intros fuel page acc w tail Hpages Hnet.
  - cbn. rewrite app_nil_r, Z.add_0_r. cbn in Hnet. subst tail.
    now rewrite after_no_request.
  - inversion Hpages as [|? ? (next & Hpage & Hnext) Hrest]; subst.
    cbn [fst snd] in *.
    pose proof (tag_page_collected name page acc w r (responses pages ++ tail)%list
                  tags next Hnet Hpage) as Hstep.
    rewrite Hnext in Hstep.
    cbn [length Nat.add while_fuel].
    erewrite bind_ret_eq by exact Hstep.
    cbv beta iota.
    erewrite IH; [|exact Hrest|reflexivity].
    rewrite after_requests_more.
    unfold gathered. cbn [map concat snd tag_requests].
    rewrite app_assoc.
    replace (page + 1 + Z.of_nat (length pages))
      with (page + Z.of_nat (S (length pages))) by lia.
    reflexivity.
Qed.

(** X8: the generator of the tags of a repository yields the [results]
    of page after page, in order, until a page whose [next] is absent,
    [None] or empty.  It asks for the pages 1, 2, 3, ... of the tag
    endpoint: of [next] it uses the truth value only, not the address.
    A page counts whatever the status of its response. *)
Theorem tag_listing_counts_its_pages
    (name : string) (w : world) (pages : list (response * list json))
    (last : response) (tags : list json) (next : json) (rest : list net_event) :
  Forall tag_listing_page_with_next pages ->
  tag_listing_page last tags next ->
  Dyn.truthy next = false ->
  net w = (responses pages ++ Responds last :: rest)%list ->
  get_container_tags name collect [] w
  = (Ret (gathered pages ++ tags)%list,
     after_requests (tag_requests name 1 (S (length pages))) rest w).
Proof.
  intros Hpages Hlast Hnext Hnet.
  unfold get_container_tags, while_net.
  rewrite Hnet, length_app, length_responses. cbn [length].
  rewrite <- Nat.add_succ_r.
  rewrite (tag_pages_collected name pages (S (S (length rest))) 1 [] w
             (Responds last :: rest) Hpages Hnet).
  cbn [while_fuel].
  erewrite bind_ret_eq
    by (eapply tag_page_collected; [reflexivity|exact Hlast]).
  rewrite Hnext. rewrite tag_requests_more.
  unfold after_requests, set_net, set_sent, ret. cbn. now rewrite <- app_assoc.
Qed.

(** X9: in the mode of all tags, the answer to the request for the tags of
    a repository is taken as it comes.  A JSON object without [results]
    and [next], an error report for instance, counts as an empty listing:
    the repository is passed over in silence and the loop goes on.  A
    body that is not JSON raises out of the loop over the repositories,
    and the repositories that follow are not scanned. *)
Theorem tag_page_that_is_no_listing
    (full_repo : string) (repos : list string) (acc : list docker_row)
    (w : world) (r : response) (rest : list net_event) :
  net w = Responds r :: rest ->
  (forall fields,
      resp_json r = Some (JObj fields) ->
      Dyn.lookup "results" fields = None ->
      Dyn.lookup "next" fields = None ->
      scan_repository true full_repo acc w
      = (Ret acc,
         after_requests [Request GET (dockerhub_tag_endpoint full_repo 1) [] [] []] rest
           (set_stdout (stdout w ++ [scanning_line full_repo]) w)))
  /\ (resp_json r = None ->
      exists msg,
        for_each (full_repo :: repos) (scan_repository true) acc w
        = (Stop (Raised (Exn JSONDecodeError msg)),
           after_requests [Request GET (dockerhub_tag_endpoint full_repo 1) [] [] []] rest
             (set_stdout (stdout w ++ [scanning_line full_repo]) w))).
Proof.
  intros Hnet. split.
  - intros fields Hjson Hresults Hnext.
    unfold scan_repository. erewrite bind_ret_eq by reflexivity.
    unfold get_container_tags, while_net. cbn [net set_stdout]. rewrite Hnet.
    cbn [length while_fuel].
    erewrite bind_ret_eq.
    2:{ unfold tag_page_turn, get_container_tag_page.
        erewrite bind_ret_eq.
        2:{ erewrite bind_ret_eq
              by (unfold requests_get, http; cbn [net set_stdout];
                  rewrite Hnet; reflexivity).
            unfold response_json. rewrite Hjson. reflexivity. }
        unfold yield_tags, Dyn.get. rewrite Hresults, Hnext.
        erewrite bind_lift_ret by reflexivity.
        erewrite bind_lift_ret by reflexivity.
        erewrite bind_ret_eq by reflexivity.
        erewrite bind_lift_ret by reflexivity.
        reflexivity. }
    reflexivity.
  - intros Hjson. eexists. cbn [for_each]. apply bind_stop_eq.
    unfold scan_repository. erewrite bind_ret_eq by reflexivity.
    unfold get_container_tags, while_net. cbn [net set_stdout]. rewrite Hnet.
    cbn [length while_fuel]. apply bind_stop_eq.
    unfold tag_page_turn, get_container_tag_page. apply bind_stop_eq.
    erewrite bind_ret_eq
      by (unfold requests_get, http; cbn [net set_stdout];
          rewrite Hnet; reflexivity).
    unfold response_json. rewrite Hjson. reflexivity.
Qed.

(** ** The pauses between the scans *)

(** X10: in the mode of all tags the script sleeps half a second after
    the scan of every digest, whether findings came of it or not, and
    not for a tag that is skipped; without the mode it does not sleep.
    Scanning a repository leaves the files as they are. *)
Theorem one_pause_after_each_digest
    (full_repo : string) (acc : list docker_row) (w : world) :
  (forall pages last views next rest rowss,
      Forall tag_page_with_next pages ->
      tag_page_yields last views next ->
      Dyn.truthy next = false ->
      net w = (responses pages ++ Responds last :: rest)%list ->
      Forall2 (fun image rows => scan_rows full_repo image = Some rows)
        (kept_images full_repo (gathered pages ++ views)) rowss ->
      exists w',
        scan_repository true full_repo acc w = (Ret (acc ++ concat rowss)%list, w')
        /\ naps w' = (naps w + length (kept_images full_repo (gathered pages ++ views)))%nat
        /\ fs w' = fs w)
  /\ (forall rows,
        scan_rows full_repo (full_repo ++ ":latest") = Some rows ->
        exists w',
          scan_repository false full_repo acc w = (Ret (acc ++ rows)%list, w')
          /\ naps w' = naps w
          /\ fs w' = fs w).
Proof.
  split.
  - intros pages last views next rest rowss Hpages Hlast Hnext Hnet Hrows.
    destruct (scan_all_tags full_repo acc w pages last views next rest rowss
                Hpages Hlast Hnext Hnet Hrows) as (w' & Hrun & _ & Hnaps & _ & Hfs).
    exists w'. auto.
  - intros rows Hrows.
    destruct (scan_latest full_repo acc w rows Hrows)
      as (w' & Hrun & _ & Hnaps & _ & _ & Hfs).
    exists w'. rewrite Nat.add_0_r in Hnaps. auto.
Qed.

(** ** The extra data of a finding *)

(** X11: [finding.get("ExtraData") or {}].  An [ExtraData] that counts
    as false ([None], an empty dictionary, list or text, zero, [False])
    is taken for an empty dictionary, and [rotation_guide] and [version]
    are the empty string.  A dictionary that is not empty gives the two
    fields as it has them, whatever they are.  Any other value that
    counts as true, a text for instance, has no [get]: the normaliser
    raises [AttributeError]. *)
Theorem extra_data_of_a_finding
    (img : string) (finding meta : list (string * json)) (v : json) :
  source_metadata (JObj finding) "Docker" = Ret (JObj meta) ->
  Dyn.lookup "ExtraData" finding = Some v ->
  (Dyn.truthy v = false ->
   exists r,
     parse_docker_finding img (JObj finding) = Ret r
     /\ rotation_guide r = JStr "" /\ version r = JStr "")
  /\ (forall extra,
        v = JObj extra -> extra <> [] ->
        exists r,
          parse_docker_finding img (JObj finding) = Ret r
          /\ rotation_guide r
             = match Dyn.lookup "rotation_guide" extra with
               | Some x => x
               | None => JStr ""
               end
          /\ version r
             = match Dyn.lookup "version" extra with
               | Some x => x
               | None => JStr ""
               end)
  /\ (Dyn.truthy v = true -> (forall extra, v <> JObj extra) ->
      exists e,
        parse_docker_finding img (JObj finding) = Stop (Raised e)
        /\ exn_cls e = AttributeError).
Proof.
  intros Hmeta Hextra.
  unfold parse_docker_finding. rewrite Hmeta. cbn [obind Dyn.get].
  rewrite Hextra. split; [|split].
  - intros Hfalse. rewrite Hfalse. cbn [obind Dyn.get Dyn.lookup].
    eexists. split; [reflexivity|]. split; reflexivity.
  - intros extra -> Hne.
    replace (Dyn.truthy (JObj extra)) with true by now destruct extra.
    cbn [obind Dyn.get]. eexists. split; [reflexivity|]. split; reflexivity.
  - intros Htrue Hno. rewrite Htrue.
    destruct v as [| | | | |extra]; try (eexists; split; reflexivity).
    now destruct (Hno extra).
Qed.

(** ** The export of the GitHub findings *)

(** The loop over the lines of the results file gathers the rows of the
    parsed lines, and stops where a row cannot be built. *)
Lemma github_rows_loop (ls : list string) (rows : list github_row) w :
  for_each ls
    (fun line rows =>
       let line := Py.strip line in
       if negb (Py.truthy line) then ret rows
       else
         match json_loads line with
         | Some data =>
             row <- lift (github_finding_row data) ;;
             ret (rows ++ [row])%list
         | None => ret rows
         end)
    rows w
  = match omap github_finding_row
            (flat_map
               (fun line =>
                  let line := Py.strip line in
                  if Py.truthy line then
                    match json_loads line with
                    | Some data => [data]
                    | None => []
                    end
                  else [])
               ls) with
    | Ret more => (Ret (rows ++ more)%list, w)
    | Stop h => (Stop h, w)
    end.
Proof.
  revert rows. induction ls as [|line ls IH]; intros rows.
  - cbn. unfold ret. now rewrite app_nil_r.
  - cbn [for_each flat_map]. cbv zeta.
    destruct (Py.truthy (Py.strip line)); cbn [negb].
    + destruct (json_loads (Py.strip line)) as [data|].
      * cbn [app omap]. unfold bind at 1. unfold bind at 1, lift at 1.
        destruct (github_finding_row data) as [row|h]; cbn [obind]; [|reflexivity].
        unfold ret at 1. rewrite IH.
        destruct (omap github_finding_row _) as [more|h]; cbn [obind];
          [|reflexivity].
        now rewrite <- app_assoc.
      * cbn [app]. erewrite bind_ret_eq by reflexivity. apply IH.
    + cbn [app]. erewrite bind_ret_eq by reflexivity. apply IH.
Qed.

Lemma attribute_error_github_finding_row data :
  attribute_error_at_worst (github_finding_row data).
Proof.
  unfold github_finding_row, source_metadata.
  repeat first
    [ apply attribute_error_at_worst_get
    | apply attribute_error_at_worst_obind; [|intros ?]
    | exact I ].
Qed.

Lemma omap_stops_at {A B} (f : A -> outcome B) (l : list A) (x : A) :
  (forall a, attribute_error_at_worst (f a)) ->
  In x l -> (forall b, f x <> Ret b) ->
  exists e, omap f l = Stop (Raised e) /\ exn_cls e = AttributeError.
Proof.
  intros Hf Hin Hx. induction l as [|a l IH]; [easy|].
  cbn [omap]. pose proof (Hf a) as Ha.
  destruct (f a) as [b|[e| | |]] eqn:Hfa; cbn in Ha; try easy.
  - destruct Hin as [->|Hin]; [now destruct (Hx b)|].
    destruct (IH Hin) as (e & -> & He). cbn. eauto.
  - cbn. eauto.
Qed.

(** X12: the GitHub export turns every line of the results file that is
    not blank and that [json.loads] accepts into one row, in the order of
    the lines, and hands the rows, when there is at least one, to
    [to_excel] as one sheet for the output file.  When [to_excel] writes
    the sheet, the export prints the number of the rows; when it raises,
    for a file name without an Excel extension for instance, the export
    ends with that exception and prints nothing. *)
Theorem github_export_writes_the_parsed_rows
    (results_file output_file text : string)
    (row : github_row) (rows : list github_row) (w : world) :
  fs w !! results_file = Some (TextFile text) ->
  omap github_finding_row (parsed_lines (Py.universal_newlines text))
  = Ret (row :: rows) ->
  (excel_writer output_file (GithubSheet (row :: rows)) = Saved ->
   save_to_excel_github results_file output_file w
   = (Ret tt,
      set_stdout (stdout w ++ [saved_line "GitHub" output_file (S (length rows))])
        (set_fs (<[output_file := GithubSheet (row :: rows)]> (fs w)) w)))
  /\ (forall e remains,
        excel_writer output_file (GithubSheet (row :: rows)) = Refused e remains ->
        save_to_excel_github results_file output_file w
        = (Stop (Raised e), after_refusal output_file remains w)).
Proof.
  intros Hfile Hrows.
  assert (Hloop : save_to_excel_github results_file output_file w
                  = (to_excel excel_writer output_file (GithubSheet (row :: rows)) ;;
                     print (saved_line "GitHub" output_file (S (length rows)))) w).
  { unfold save_to_excel_github.
    erewrite bind_ret_eq by (unfold read_text; rewrite Hfile; reflexivity).
    erewrite bind_ret_eq.
    2:{ rewrite github_rows_loop.
        change (omap github_finding_row (flat_map _ _))
          with (omap github_finding_row (parsed_lines (Py.universal_newlines text))).
        rewrite Hrows. reflexivity. }
    reflexivity. }
  rewrite Hloop. split.
  - intros Hsaved. unfold bind, to_excel. rewrite Hsaved. reflexivity.
  - intros e remains Hrefused. unfold bind, to_excel. rewrite Hrefused.
    destruct remains; reflexivity.
Qed.

(** X13: a line of the results file that is JSON but no dictionary (a
    number, a text, a list) ends the export with an [AttributeError]:
    the export catches the error of [json.loads] only.  No sheet is
    written, whatever the other lines hold. *)
Theorem github_export_of_a_line_that_is_no_dictionary
    (results_file output_file text line : string) (v : json) (w : world) :
  fs w !! results_file = Some (TextFile text) ->
  In line (Py.lines (Py.universal_newlines text)) ->
  Py.truthy (Py.strip line) = true ->
  json_loads (Py.strip line) = Some v ->
  no_dictionary v ->
  exists e,
    save_to_excel_github results_file output_file w = (Stop (Raised e), w)
    /\ exn_cls e = AttributeError.
Proof.
  intros Hfile Hin Htruthy Hloads Hv.
  destruct (omap_stops_at github_finding_row
              (parsed_lines (Py.universal_newlines text)) v
              attribute_error_github_finding_row) as (e & Hstop & He).
  { unfold parsed_lines. apply in_flat_map. exists line. split; [exact Hin|].
    cbv zeta. rewrite Htruthy, Hloads. now left. }
  { intros b. destruct v; try easy. }
  exists e. split; [|exact He].
  unfold save_to_excel_github.
  erewrite bind_ret_eq by (unfold read_text; rewrite Hfile; reflexivity).
  apply bind_stop_eq. rewrite github_rows_loop.
  change (omap github_finding_row (flat_map _ _))
    with (omap github_finding_row (parsed_lines (Py.universal_newlines text))).
  now rewrite Hstop.
Qed.

(** ** The scans of a list of repositories *)

Lemma after_no_scan w : after_scans [] [] w = w.
Proof. destruct w. unfold after_scans, set_spawned, set_stdout. cbn. now rewrite !app_nil_r. Qed.

Lemma after_scans_more line cmd printed cmds w :
  after_scans printed cmds (after_scans [line] [cmd] w)
  = after_scans (line :: printed) (cmd :: cmds) w.
Proof.
  unfold after_scans, set_spawned, set_stdout. cbn. now rewrite <- !app_assoc.
Qed.

(** The loops that scan one GitHub target after the other, when every
    scan runs to its end. *)
Lemma github_scans_run {A} (items : list A) (line : A -> string)
    (cmd_of : A -> list string) :
  Forall (fun x => runs_to_its_end (cmd_of x)) items ->
  forall acc w,
    for_each items
      (fun x all_output =>
         print (line x) ;;
         out <- run_trufflehog (cmd_of x) ;;
         ret (all_output ++ [out])%list) acc w
    = (Ret (acc ++ map (fun x => scan_output (cmd_of x)) items)%list,
       after_scans (map line items) (map cmd_of items) w).
Proof.
  induction 1 as [|x items (out & err & Hx) _ IH]; intros acc w.
  - cbn. unfold ret. now rewrite app_nil_r, after_no_scan.
  - cbn [for_each]. erewrite bind_ret_eq.
    2:{ erewrite bind_ret_eq by reflexivity.
        erewrite bind_ret_eq by (apply run_trufflehog_completed, Hx).
        reflexivity. }
    rewrite IH. cbn [map]. unfold scan_output at 2. rewrite Hx.
    rewrite <- app_assoc. cbn [app].
    now rewrite <- (after_scans_more (line x) (cmd_of x)).
Qed.

(** X14: [scan_other_repos] runs one scan for every line of the file that
    is not blank, in the order of the lines; the repository is the line
    without the white space around it, and no token is handed to the
    scanner.  When every scan runs to its end, the outputs come back in
    the same order.  A file that is not there is not reported: the
    [FileNotFoundError] of [open] ends the run before anything is
    scanned. *)
Theorem scan_of_the_repositories_of_a_file (file_path : string) (w : world) :
  (forall text,
      fs w !! file_path = Some (TextFile text) ->
      Forall (fun repo => runs_to_its_end (plain_scan_cmd repo))
        (stripped_lines (Py.universal_newlines text)) ->
      scan_other_repos file_path w
      = (Ret (map (fun repo => scan_output (plain_scan_cmd repo))
                (stripped_lines (Py.universal_newlines text))),
         after_scans
           (map (fun repo => "Scanning repository: " ++ repo)
              (stripped_lines (Py.universal_newlines text)))
           (map plain_scan_cmd (stripped_lines (Py.universal_newlines text))) w))
  /\ (fs w !! file_path = None ->
      exists e,
        scan_other_repos file_path w = (Stop (Raised e), w)
        /\ exn_cls e = FileNotFoundError).
Proof.
  split.
  - intros text Hfile Hruns. unfold scan_other_repos.
    erewrite bind_ret_eq by (unfold read_text; rewrite Hfile; reflexivity).
    cbv zeta.
    exact (github_scans_run _ (fun repo => "Scanning repository: " ++ repo)
             plain_scan_cmd Hruns [] w).
  - intros Hfile. eexists. split.
    + unfold scan_other_repos. apply bind_stop_eq.
      unfold read_text. rewrite Hfile. reflexivity.
    + reflexivity.
Qed.

(** ** What each mode needs *)

(** The loader that returns has left everything as it was. *)
Lemma read_credentials_returns w creds w' :
  read_credentials w = (Ret creds, w') -> w' = w.
Proof.
  intros H. unfold read_credentials in H.
  destruct (fs w !! "cred.conf") as [content|] eqn:Hfile.
  - erewrite bind_ret_eq in H
      by (unfold path_exists; rewrite Hfile; reflexivity).
    cbn [negb] in H. destruct content as [text|rows|rows].
    + erewrite bind_ret_eq in H
        by (unfold read_text; rewrite Hfile; reflexivity).
      destruct (yaml_safe_load (Py.universal_newlines text)) as [e|conf];
        [discriminate|].
      erewrite bind_ret_eq in H by reflexivity.
      destruct (first_entry conf "github") as [token|h]; [|discriminate].
      erewrite bind_lift_ret in H by reflexivity.
      destruct (first_entry conf "docker") as [[line|]|h]; [| |discriminate].
      * erewrite bind_lift_ret in H by reflexivity. cbv beta iota in H.
        destruct (negb (Py.contains ":" line)); [discriminate|].
        destruct (Py.split1 ":" line) as [|u [|p [|? ?]]];
          try discriminate.
        unfold ret in H. congruence.
      * erewrite bind_lift_ret in H by reflexivity. unfold ret in H. congruence.
    + erewrite bind_stop_eq in H
        by (unfold read_text; rewrite Hfile; reflexivity).
      discriminate.
    + erewrite bind_stop_eq in H
        by (unfold read_text; rewrite Hfile; reflexivity).
      discriminate.
  - erewrite bind_ret_eq in H
      by (unfold path_exists; rewrite Hfile; reflexivity).
    discriminate.
Qed.

(** X15: each mode tests what it needs right after the credentials are
    loaded: the token of the user's own scan, the file of the two other
    GitHub modes, both Docker credentials of the Docker modes.  When it
    is missing or empty, the process ends through [sys.exit(1)] with the
    message of the mode, and nothing has been requested, run or
    written. *)
Theorem what_a_mode_needs_is_tested_first
    (a : args) (w : world)
    (github_token docker_user docker_pass : option string) :
  fst (read_credentials w) = Ret (github_token, docker_user, docker_pass) ->
  (git_me a = true -> Py.truthy_opt github_token = false ->
   main a w
   = (Stop (Exited 1),
      set_stdout (stdout w ++ ["GitHub token not found in cred.conf"]) w))
  /\ (git_me a = false -> git_other a = true ->
      Py.truthy_opt (arg_file a) = false ->
      main a w
      = (Stop (Exited 1),
         set_stdout (stdout w ++ ["Error: --git-other requires -f <repos.txt>"]) w))
  /\ (git_me a = false -> git_other a = false -> git_profile a = true ->
      Py.truthy_opt (arg_file a) = false ->
      main a w
      = (Stop (Exited 1),
         set_stdout (stdout w ++ ["Error: --git-profile requires -f <profile.txt>"]) w))
  /\ (git_me a = false -> git_other a = false -> git_profile a = false ->
      Py.truthy_opt (docker_profile a) || Py.truthy_opt (docker_repo a) = true ->
      Py.truthy_opt docker_user && Py.truthy_opt docker_pass = false ->
      main a w
      = (Stop (Exited 1),
         set_stdout (stdout w ++ ["Docker credentials not found in cred.conf"]) w)).
Proof.
  intros Hcreds.
  assert (Hrc : read_credentials w = (Ret (github_token, docker_user, docker_pass), w)).
  { destruct (read_credentials w) as [o w'] eqn:Hrun. cbn in Hcreds. subst o.
    now rewrite (read_credentials_returns _ _ _ Hrun). }
  split; [|split; [|split]].
  - intros Hme Htoken. unfold main.
    erewrite bind_ret_eq by exact Hrc. cbv beta iota zeta.
    rewrite Hme. apply bind_stop_eq.
    destruct github_token as [token|]; [|reflexivity].
    cbn in Htoken. now rewrite Htoken.
  - intros Hme Hother Hfile. unfold main.
    erewrite bind_ret_eq by exact Hrc. cbv beta iota zeta.
    rewrite Hme, Hother. apply bind_stop_eq.
    destruct (arg_file a) as [path|]; [|reflexivity].
    cbn in Hfile. now rewrite Hfile.
  - intros Hme Hother Hprofile Hfile. unfold main.
    erewrite bind_ret_eq by exact Hrc. cbv beta iota zeta.
    rewrite Hme, Hother, Hprofile. apply bind_stop_eq.
    destruct (arg_file a) as [path|]; [|reflexivity].
    cbn in Hfile. now rewrite Hfile.
  - intros Hme Hother Hprofile Hdocker Hlogin. unfold main.
    erewrite bind_ret_eq by exact Hrc. cbv beta iota zeta.
    rewrite Hme, Hother, Hprofile.
    erewrite bind_ret_eq by reflexivity.
    erewrite bind_ret_eq by reflexivity.
    rewrite Hdocker.
    destruct docker_user as [user|], docker_pass as [pass|]; try reflexivity.
    cbn [Py.truthy_opt] in Hlogin. now rewrite Hlogin.
Qed.

(** ** The login at Docker Hub *)

Lemma hub_page_fetched headers st w : fetched w (snd (hub_page headers st w)).
Proof.
  destruct st as [url acc].
  assert (Hsent : exists more,
             sent (snd (hub_page headers (url, acc) w)) = (sent w ++ more)%list).
  { unfold hub_page, requests_get_dyn, bind.
    destruct url as [| | |u| |]; try (exists []; cbn; now rewrite app_nil_r).
    exists [Request GET u headers [] []].
    unfold requests_get, http.
    destruct (net w) as [|[r|e] tail]; [reflexivity| |reflexivity].
    destruct (negb (status_code r =? 200)); [reflexivity|].
    unfold response_json. destruct (resp_json r) as [data|]; [|reflexivity].
    cbn. destruct (Dyn.get data "results" (JArr [])) as [results|h]; [|reflexivity].
    cbn. destruct (Dyn.iter results) as [elements|h]; [|reflexivity].
    cbn. destruct (omap _ elements) as [names|h]; [|reflexivity].
    cbn. destruct (Dyn.get data "next" JNull) as [next|h]; [|reflexivity].
    cbn. destruct (Dyn.truthy next); reflexivity. }
  repeat split; [| | |exact Hsent];
    unfold hub_page, requests_get_dyn, bind;
    (destruct url as [| | |u| |]; try reflexivity);
    unfold requests_get, http;
    (destruct (net w) as [|[r|e] tail]; [reflexivity| |reflexivity]);
    (destruct (negb (status_code r =? 200)); [reflexivity|]);
    unfold response_json; (destruct (resp_json r) as [data|]; [|reflexivity]);
    cbn; (destruct (Dyn.get data "results" (JArr [])) as [results|h]; [|reflexivity]);
    cbn; (destruct (Dyn.iter results) as [elements|h]; [|reflexivity]);
    cbn; (destruct (omap _ elements) as [names|h]; [|reflexivity]);
    cbn; (destruct (Dyn.get data "next" JNull) as [next|h]; [|reflexivity]);
    cbn; destruct (Dyn.truthy next); reflexivity.
Qed.

Lemma hub_loop_fetched headers fuel :
  forall st w, fetched w (snd (while_fuel fuel (hub_page headers) st w)).
Proof.
  induction fuel as [|fuel IH]; intros st w; [apply fetched_refl|].
  cbn [while_fuel]. unfold bind.
  pose proof (hub_page_fetched headers st w) as Hstep.
  destruct (hub_page headers st w) as [[[st'|names]|h] w'];
    cbn [snd] in *; auto.
  eapply fetched_trans; [exact Hstep|apply IH].
Qed.

(** The listing begins with the request for the first page. *)
Lemma list_repositories_begins username token w :
  exists more,
    sent (snd (list_repositories username token w))
    = (sent w
       ++ Request GET
            ("https://hub.docker.com/v2/repositories/" ++ username ++ "/")%string
            [("Authorization", ("JWT " ++ fstr token)%string)] [] []
       :: more)%list.
Proof.
  unfold list_repositories, while_net. cbv zeta. cbn [while_fuel].
  set (headers := [("Authorization", "JWT " ++ fstr token)]).
  set (u := "https://hub.docker.com/v2/repositories/" ++ username ++ "/").
  assert (Hfirst : exists more,
             sent (snd (hub_page headers (JStr u, []) w))
             = (sent w ++ Request GET u headers [] [] :: more)%list).
  { exists []. unfold hub_page, requests_get_dyn, bind, requests_get, http.
    destruct (net w) as [|[r|e] tail]; [reflexivity| |reflexivity].
    destruct (negb (status_code r =? 200)); [reflexivity|].
    unfold response_json. destruct (resp_json r) as [data|]; [|reflexivity].
    cbn. destruct (Dyn.get data "results" (JArr [])) as [results|h]; [|reflexivity].
    cbn. destruct (Dyn.iter results) as [elements|h]; [|reflexivity].
    cbn. destruct (omap _ elements) as [names|h]; [|reflexivity].
    cbn. destruct (Dyn.get data "next" JNull) as [next|h]; [|reflexivity].
    cbn. destruct (Dyn.truthy next); reflexivity. }
  destruct Hfirst as [more Hmore]. unfold bind.
  pose proof (hub_loop_fetched headers (length (net w))) as Hloop.
  destruct (hub_page headers (JStr u, []) w) as [[[st'|names]|h] w'];
    cbn [snd] in *; eauto.
  destruct (Hloop st' w') as (_ & _ & _ & more' & Hmore').
  exists (more ++ more')%list. rewrite Hmore', Hmore, <- app_assoc. reflexivity.
Qed.

(** X16: the login sends the user name and the password as the JSON body
    of one POST request.  An answer other than a 200 ends the process
    through [sys.exit(1)], the status and the text of the answer
    printed.  From a 200 the login returns the [token] of the answer as
    it is; when the answer is a dictionary without one, the login
    returns [None] and nothing is said: the repository listing then asks
    with [JWT None] for its authorization. *)
Theorem login_at_docker_hub
    (username password : string) (w : world) (r : response) (rest : list net_event) :
  net w = Responds r :: rest ->
  (status_code r <> 200 ->
   get_docker_token username password w
   = (Stop (Exited 1),
      set_stdout (stdout w ++ [login_failed_line r])
        (after_requests [login_request username password] rest w)))
  /\ (status_code r = 200 ->
      forall fields,
        resp_json r = Some (JObj fields) ->
        get_docker_token username password w
        = (Ret match Dyn.lookup "token" fields with
               | Some token => token
               | None => JNull
               end,
           after_requests [login_request username password] rest w))
  /\ (forall user w',
        exists more,
          sent (snd (list_repositories user JNull w'))
          = (sent w'
             ++ Request GET
                  ("https://hub.docker.com/v2/repositories/" ++ user ++ "/")%string
                  [("Authorization", "JWT None")] [] []
             :: more)%list).
Proof.
  intros Hnet. split; [|split].
  - intros Hstatus. unfold get_docker_token. cbv zeta.
    erewrite bind_ret_eq
      by (unfold requests_post, http; rewrite Hnet; reflexivity).
    apply Z.eqb_neq in Hstatus. rewrite Hstatus. reflexivity.
  - intros Hstatus fields Hjson. unfold get_docker_token. cbv zeta.
    erewrite bind_ret_eq
      by (unfold requests_post, http; rewrite Hnet; reflexivity).
    rewrite Hstatus. cbn [Z.eqb Pos.eqb negb].
    unfold response_json. rewrite Hjson.
    erewrite bind_ret_eq by reflexivity. reflexivity.
  - intros user w'. exact (list_repositories_begins user JNull w').
Qed.

(** ** A token that GitHub does not accept *)

(** X17: the user's own scan does not tell a listing that GitHub refuses
    from an empty one.  When both listings are answered with a status
    other than 200, an invalid token for instance, the run goes to its
    end without a word of it: [personal.txt] and [org.txt] say that
    nothing was found, nothing is scanned, and neither [results.txt] nor
    a sheet is written. *)
Theorem refused_listings_read_as_nothing_found
    (a : args) (w : world) (token : string)
    (docker_user docker_pass : option string)
    (bad1 bad2 : response) (rest : list net_event) :
  fst (read_credentials w) = Ret (Some token, docker_user, docker_pass) ->
  Py.truthy token = true ->
  git_me a = true ->
  Py.truthy_opt (docker_profile a) || Py.truthy_opt (docker_repo a) = false ->
  net w = Responds bad1 :: Responds bad2 :: rest ->
  status_code bad1 <> 200 ->
  status_code bad2 <> 200 ->
  main a w
  = (Ret tt,
     set_fs (<["org.txt" := TextFile "No organizations found."]>
               (<["personal.txt" := TextFile "No personal repositories found."]>
                  (fs w)))
       (after_requests [user_repos_request token; orgs_request token] rest
          (set_stdout (stdout w ++ [step_1_line]) w))).
Proof.
  intros Hcreds Htoken Hme Hdocker Hnet Hbad1 Hbad2.
  assert (Hrc : read_credentials w = (Ret (Some token, docker_user, docker_pass), w)).
  { destruct (read_credentials w) as [o w'] eqn:Hrun. cbn in Hcreds. subst o.
    now rewrite (read_credentials_returns _ _ _ Hrun). }
  unfold main. erewrite bind_ret_eq by exact Hrc. cbv beta iota zeta.
  rewrite Hme, Htoken, Hdocker.
  erewrite bind_ret_eq.
  2:{ unfold scan_my_repos_and_orgs.
      erewrite bind_ret_eq by reflexivity.
      erewrite bind_ret_eq.
      2:{ unfold get_user_repos, while_net. cbv zeta.
          erewrite github_page_failed;
            [|cbn [net set_stdout]; exact Hnet|exact Hbad1].
          reflexivity. }
      erewrite bind_ret_eq.
      2:{ unfold get_orgs, while_net. cbv zeta.
          erewrite github_page_failed; [|reflexivity|exact Hbad2].
          reflexivity. }
      erewrite bind_ret_eq by reflexivity.
      erewrite bind_ret_eq by reflexivity.
      reflexivity. }
  erewrite bind_ret_eq by reflexivity.
  unfold ret, after_requests, set_fs, set_net, set_sent, set_stdout. cbn.
  now rewrite <- app_assoc.
Qed.

(** ** The lines of a text *)

Lemma append_nil_r (s : string) : s ++ "" = s.
Proof. induction s as [|c s IH]; [reflexivity|]. now rewrite append_cons, IH. Qed.

Lemma all_chars_append (p : ascii -> bool) (s t : string) :
  Py.all_chars p (s ++ t) = Py.all_chars p s && Py.all_chars p t.
Proof.
  induction s as [|c s IH]; [reflexivity|].
  rewrite append_cons. cbn [Py.all_chars]. now rewrite IH, andb_assoc.
Qed.

Lemma all_chars_rev_app (p : ascii -> bool) (s t : string) :
  Py.all_chars p (String.rev_app s t) = Py.all_chars p s && Py.all_chars p t.
Proof.
  revert t. induction s as [|c s IH]; intros t; [reflexivity|].
  cbn [String.rev_app Py.all_chars]. rewrite IH. cbn [Py.all_chars].
  now rewrite andb_assoc, (andb_comm (Py.all_chars p s)).
Qed.

Lemma rev_app_append (s t : string) :
  String.rev_app s t = String.rev_app s "" ++ t.
Proof.
  revert t. induction s as [|c s IH]; intros t; [reflexivity|].
  cbn [String.rev_app]. rewrite (IH (String c t)), (IH (String c "")).
  now rewrite append_assoc.
Qed.

Lemma all_chars_lstrip (p q : ascii -> bool) (s : string) :
  Py.all_chars q s = true -> Py.all_chars q (Py.lstrip_by p s) = true.
Proof.
  induction s as [|c s IH]; [easy|].
  cbn [Py.lstrip_by]. destruct (p c); [|easy].
  cbn [Py.all_chars]. intros H. apply andb_prop in H as [_ H]. auto.
Qed.

Lemma all_chars_rstrip (p q : ascii -> bool) (s : string) :
  Py.all_chars q s = true -> Py.all_chars q (Py.rstrip_by p s) = true.
Proof.
  induction s as [|c s IH]; [easy|].
  cbn [Py.all_chars]. intros H. apply andb_prop in H as [Hc H].
  specialize (IH H). cbn [Py.rstrip_by].
  destruct (Py.rstrip_by p s) as [|d t].
  - destruct (p c); [reflexivity|]. cbn. now rewrite Hc.
  - cbn [Py.all_chars] in *. now rewrite Hc.
Qed.

Lemma lstrip_twice (p : ascii -> bool) (s : string) :
  Py.lstrip_by p (Py.lstrip_by p s) = Py.lstrip_by p s.
Proof.
  induction s as [|c s IH]; [reflexivity|].
  cbn [Py.lstrip_by]. destruct (p c) eqn:Hc; [exact IH|].
  cbn [Py.lstrip_by]. now rewrite Hc.
Qed.

Lemma rstrip_twice (p : ascii -> bool) (s : string) :
  Py.rstrip_by p (Py.rstrip_by p s) = Py.rstrip_by p s.
Proof.
  induction s as [|c s IH]; [reflexivity|].
  cbn [Py.rstrip_by]. destruct (Py.rstrip_by p s) as [|d t] eqn:Hs.
  - destruct (p c) eqn:Hc; [reflexivity|]. cbn [Py.rstrip_by]. now rewrite Hc.
  - cbn [Py.rstrip_by]. cbn [Py.rstrip_by] in IH.
    destruct (match Py.rstrip_by p t with
              | "" => if p d then "" else String d ""
              | String a s0 => String d (String a s0)
              end); [discriminate|]. now rewrite IH.
Qed.

(** [s.strip().strip()] is [s.strip()]. *)
Lemma strip_twice (s : string) : Py.strip (Py.strip s) = Py.strip s.
Proof.
  unfold Py.strip, Py.strip_by.
  now rewrite lstrip_rstrip, rstrip_twice, lstrip_twice.
Qed.

(** A line end at the end of a line goes with the white space. *)
Lemma strip_line (s : string) : Py.strip (s ++ Py.nl) = Py.strip s.
Proof.
  unfold Py.strip, Py.strip_by.
  rewrite <- !lstrip_rstrip. now rewrite rstrip_by_append_all.
Qed.

Lemma universal_newlines_without_cr (s : string) :
  Py.all_chars (fun c => negb (Ascii.eqb c "013")) s = true ->
  Py.universal_newlines s = s.
Proof.
  induction s as [|c s IH]; [reflexivity|].
  cbn [Py.all_chars Py.universal_newlines]. intros H.
  apply andb_prop in H as [Hc H].
  destruct (Ascii.eqb c "013"); [discriminate|]. now rewrite IH.
Qed.

(** What arrives of a file holds no carriage return. *)
Lemma universal_newlines_no_cr (s : string) :
  Py.all_chars (fun c => negb (Ascii.eqb c "013")) (Py.universal_newlines s) = true.
Proof.
  enough (H : Py.all_chars (fun c => negb (Ascii.eqb c "013")) (Py.universal_newlines s)
              = true
              /\ forall c,
                   Py.all_chars (fun c => negb (Ascii.eqb c "013"))
                     (Py.universal_newlines (String c s)) = true)
    by apply H.
  induction s as [|d s [IH1 IH2]].
  - split; [reflexivity|]. intros c. cbn.
    destruct (Ascii.eqb c "013") eqn:Hc; cbn; [reflexivity|now rewrite Hc].
  - split; [apply IH2|]. intros c. cbn [Py.universal_newlines].
    destruct (Ascii.eqb c "013") eqn:Hc.
    + cbn [Py.all_chars]. cbn [Ascii.eqb Bool.eqb negb andb].
      destruct (Ascii.eqb d "010"); [exact IH1|apply IH2].
    + cbn [Py.all_chars]. rewrite Hc. cbn [negb andb]. apply IH2.
Qed.

(** The lines of a text without carriage returns: each is a text without
    a line end, followed by a line feed or, at the end, by nothing. *)
Lemma lines_go_shape (s cur : string) :
  Py.all_chars inside_a_line cur = true ->
  Py.all_chars (fun c => negb (Ascii.eqb c "013")) s = true ->
  Forall (fun line =>
            exists body,
              Py.all_chars inside_a_line body = true
              /\ (line = body ++ Py.nl \/ line = body))
    (Py.lines_go cur s).
Proof.
  revert cur. induction s as [|c s IH]; intros cur Hcur Hs.
  - cbn [Py.lines_go]. destruct cur as [|d cur]; [constructor|].
    constructor; [|constructor]. exists (String.rev (String d cur)).
    split; [|now right]. unfold String.rev.
    now rewrite all_chars_rev_app, Hcur.
  - cbn [Py.all_chars] in Hs. apply andb_prop in Hs as [Hc Hs].
    cbn [Py.lines_go]. destruct (Ascii.eqb c "010") eqn:Hnl.
    + constructor; [|now apply IH].
      exists (String.rev cur). split.
      * unfold String.rev. now rewrite all_chars_rev_app, Hcur.
      * left. apply Ascii.eqb_eq in Hnl as ->.
        unfold String.rev. cbn [String.rev_app]. apply rev_app_append.
    + apply IH; [|exact Hs]. cbn [Py.all_chars]. unfold inside_a_line at 1.
      now rewrite Hnl, Hc, Hcur.
Qed.

(** Every element of [[line.strip() for line in f if line.strip()]] is
    tidy. *)
Lemma stripped_lines_tidy (text : string) :
  Forall tidy (stripped_lines (Py.universal_newlines text)).
Proof.
  unfold stripped_lines. apply List.Forall_forall. intros r Hr.
  apply filter_In in Hr as [Hr Htruthy].
  apply in_map_iff in Hr as (line & <- & Hline).
  pose proof (lines_go_shape (Py.universal_newlines text) "" eq_refl
                (universal_newlines_no_cr text)) as Hshape.
  rewrite List.Forall_forall in Hshape.
  destruct (Hshape line Hline) as (body & Hbody & Hcase).
  assert (Hstrip : Py.strip line = Py.strip body).
  { destruct Hcase as [-> | ->]; [apply strip_line|reflexivity]. }
  split; [exact Htruthy|]. split; [apply strip_twice|].
  rewrite Hstrip. unfold Py.strip, Py.strip_by.
  now apply all_chars_rstrip, all_chars_lstrip.
Qed.

Lemma concat_cons (x : string) (l : list string) :
  String.concat "" (x :: l) = x ++ String.concat "" l.
Proof. destruct l; cbn [String.concat]; [now rewrite append_nil_r|reflexivity]. Qed.

Lemma lines_go_line (body rest cur : string) :
  Py.all_chars inside_a_line body = true ->
  Py.lines_go cur (body ++ Py.nl ++ rest)
  = String.rev_app cur (body ++ Py.nl) :: Py.lines_go "" rest.
Proof.
  revert cur. induction body as [|c body IH]; intros cur H.
  - reflexivity.
  - cbn [Py.all_chars] in H. apply andb_prop in H as [Hc H].
    rewrite !append_cons. cbn [Py.lines_go].
    unfold inside_a_line in Hc. apply andb_prop in Hc as [Hc _].
    destruct (Ascii.eqb c "010"); [discriminate|].
    now rewrite IH.
Qed.

Lemma lines_of_image_list (repos : list string) :
  Forall tidy repos ->
  Py.lines (image_list repos) = map (fun repo => repo ++ Py.nl) repos.
Proof.
  unfold Py.lines, image_list.
  induction 1 as [|r repos (_ & _ & Hr) _ IH]; [reflexivity|].
  cbn [map]. rewrite concat_cons, append_assoc.
  now rewrite (lines_go_line r _ "" Hr), IH.
Qed.

Lemma image_list_no_cr (repos : list string) :
  Forall tidy repos ->
  Py.all_chars (fun c => negb (Ascii.eqb c "013")) (image_list repos) = true.
Proof.
  unfold image_list.
  induction 1 as [|r repos (_ & _ & Hr) _ IH]; [reflexivity|].
  cbn [map]. rewrite concat_cons, !all_chars_append, IH.
  rewrite andb_true_r. cbn. rewrite andb_true_r.
  revert Hr. clear. induction r as [|c r IH]; [reflexivity|].
  cbn [Py.all_chars]. unfold inside_a_line at 1. intros H.
  apply andb_prop in H as [Hc H]. apply andb_prop in Hc as [_ Hc].
  now rewrite Hc, IH.
Qed.

(** X18: the repositories of the Docker modes, when they are read from a
    file, are the lines of the file that are not blank, without the
    white space around them: none is empty and none has white space at
    either end.  [image.txt], where the script writes them one per line,
    is a tidy copy of that file: read as a file of repositories, it gives
    the same repositories in the same order. *)
Theorem image_list_reads_back (text : string) :
  Forall (fun repo => repo <> "" /\ Py.strip repo = repo)
    (stripped_lines (Py.universal_newlines text))
  /\ stripped_lines
       (Py.universal_newlines
          (image_list (stripped_lines (Py.universal_newlines text))))
     = stripped_lines (Py.universal_newlines text).
Proof.
  pose proof (stripped_lines_tidy text) as Htidy.
  set (repos := stripped_lines (Py.universal_newlines text)) in *.
  split.
  - eapply Forall_impl; [exact Htidy|].
    intros r (Htruthy & Hstrip & _). split; [|exact Hstrip].
    intros ->. discriminate.
  - rewrite (universal_newlines_without_cr _ (image_list_no_cr repos Htidy)).
    unfold stripped_lines at 1. rewrite (lines_of_image_list repos Htidy).
    rewrite map_map. clearbody repos.
    induction Htidy as [|r repos (Htruthy & Hstrip & _) _ IH]; [reflexivity|].
    cbn [map List.filter]. rewrite strip_line, Hstrip, Htruthy. now rewrite IH.
Qed.

(** ** A run in the mode of a file of Docker repositories *)

(** The loop over the repositories, each scanned at its latest tag. *)
Lemma scan_latest_of_each (repos : list string) :
  forall rowss acc w,
    Forall2 (fun repo rows => scan_rows repo (repo ++ ":latest") = Some rows)
      repos rowss ->
    exists w',
      for_each repos (scan_repository false) acc w
      = (Ret (acc ++ concat rowss)%list, w')
      /\ scanned (map (fun repo => docker_scan_cmd (repo ++ ":latest")) repos) 0 w w'.
Proof.
  induction repos as [|repo repos IH]; intros rowss acc w Hrows.
  - inversion Hrows; subst. exists w. cbn. rewrite app_nil_r.
    auto using scanned_refl.
  - inversion Hrows as [|? rows ? rowss' Hrepo Hrest]; subst.
    destruct (scan_latest repo acc w rows Hrepo) as (w1 & Hrun1 & Hw1).
    destruct (IH rowss' (acc ++ rows)%list w1 Hrest) as (w2 & Hrun2 & Hw2).
    exists w2. split.
    + cbn [for_each]. erewrite bind_ret_eq by exact Hrun1.
      rewrite Hrun2. cbn [concat]. now rewrite app_assoc.
    + exact (scanned_trans _ _ _ _ _ _ _ Hw1 Hw2).
Qed.

(** X19: a whole run in the mode of a file of Docker repositories,
    without the mode of all tags, when the login is accepted and every
    scan comes back.  The run sends one request, the login; writes the
    repositories, the lines of the file that are not blank, to
    [image.txt]; scans [repo:latest] for each of them, in the order of
    the file; and hands the rows of all the scans, in that order, to
    [to_excel] as one sheet for the output file when there is a row.
    When [to_excel] writes the sheet, the run ends well.  When it
    raises, for a file name without an Excel extension for instance, the
    run ends with that exception, all scans done and no sheet
    written. *)
Theorem run_over_a_file_of_docker_repositories
    (a : args) (w : world) (github_token : option string)
    (user pass path text : string) (login : response)
    (fields : list (string * json)) (rest : list net_event)
    (rowss : list (list docker_row)) :
  fst (read_credentials w) = Ret (github_token, Some user, Some pass) ->
  Py.truthy user = true ->
  Py.truthy pass = true ->
  git_me a = false -> git_other a = false -> git_profile a = false ->
  Py.truthy_opt (docker_profile a) = false ->
  docker_repo a = Some path ->
  Py.truthy path = true ->
  all_tag a = false ->
  fs w !! path = Some (TextFile text) ->
  net w = Responds login :: rest ->
  status_code login = 200 ->
  resp_json login = Some (JObj fields) ->
  Forall2 (fun repo rows => scan_rows repo (repo ++ ":latest") = Some rows)
    (stripped_lines (Py.universal_newlines text)) rowss ->
  ((Py.truthy (output a) = true -> concat rowss <> [] ->
    excel_writer (output a) (DockerSheet (concat rowss)) = Saved) ->
   exists w',
     main a w = (Ret tt, w')
     /\ sent w' = (sent w ++ [login_request user pass])%list
     /\ net w' = rest
     /\ spawned w'
        = (spawned w
           ++ map (fun repo => docker_scan_cmd (repo ++ ":latest"))
                (stripped_lines (Py.universal_newlines text)))%list
     /\ fs w'
        = with_docker_sheet (output a) (concat rowss)
            (with_image_list (stripped_lines (Py.universal_newlines text)) (fs w)))
  /\ (forall e,
        Py.truthy (output a) = true -> concat rowss <> [] ->
        excel_writer (output a) (DockerSheet (concat rowss)) = Refused e None ->
        exists w',
          main a w = (Stop (Raised e), w')
          /\ spawned w'
             = (spawned w
                ++ map (fun repo => docker_scan_cmd (repo ++ ":latest"))
                     (stripped_lines (Py.universal_newlines text)))%list
          /\ fs w'
             = with_image_list (stripped_lines (Py.universal_newlines text)) (fs w)).
Proof.
  intros Hcreds Huser Hpass Hme Hother Hprofile Hdp Hdr Hpath Hall Hfile
    Hnet Hstatus Hjson Hrows.
  assert (Hrc : read_credentials w = (Ret (github_token, Some user, Some pass), w)).
  { destruct (read_credentials w) as [o w'] eqn:Hrun. cbn in Hcreds. subst o.
    now rewrite (read_credentials_returns _ _ _ Hrun). }
  set (repos := stripped_lines (Py.universal_newlines text)) in *.
  set (w1 := after_requests [login_request user pass] rest w).
  set (w2 := set_stdout
               (stdout w1 ++ ["Saved " ++ pretty (Z.of_nat (length repos))
                              ++ " repositories to image.txt"])
               (set_fs (with_image_list repos (fs w1)) w1)).
  destruct (scan_latest_of_each repos rowss [] w2 Hrows)
    as (w3 & Hscan & Hs & _ & Hn & Hsent & Hfs).
  cbn [app] in Hscan.
  assert (Hmain : main a w
                  = (if Py.truthy (output a)
                     then save_to_excel_docker (concat rowss) (output a)
                     else ret tt) w3).
  { unfold main. erewrite bind_ret_eq by exact Hrc. cbv beta iota zeta.
    rewrite Hme, Hother, Hprofile.
    erewrite bind_ret_eq by reflexivity.
    erewrite bind_ret_eq by reflexivity.
    rewrite Hdp, Hdr. cbn [Py.truthy_opt orb]. rewrite Hpath, Huser, Hpass.
    cbn [andb].
    erewrite bind_ret_eq.
    2:{ unfold get_docker_token. cbv zeta.
        erewrite bind_ret_eq
          by (unfold requests_post, http; rewrite Hnet; reflexivity).
        rewrite Hstatus. cbn [Z.eqb Pos.eqb negb].
        unfold response_json. rewrite Hjson.
        erewrite bind_ret_eq by reflexivity. reflexivity. }
    erewrite bind_ret_eq.
    2:{ erewrite bind_ret_eq
          by (unfold read_path, read_text; cbn [fs set_net set_sent];
              rewrite Hfile; reflexivity).
        reflexivity. }
    erewrite bind_ret_eq by reflexivity.
    erewrite bind_ret_eq by reflexivity.
    rewrite Hall. fold repos. fold w1.
    erewrite bind_ret_eq by exact Hscan.
    reflexivity. }
  rewrite Hmain. unfold with_docker_sheet. split.
  - intros Hwriter.
    destruct (Py.truthy (output a)); [destruct (concat rowss) as [|row rows]|].
    + eexists. split; [reflexivity|]. cbn. rewrite Hsent, Hn, Hs, Hfs.
      repeat split; reflexivity.
    + unfold save_to_excel_docker, bind, to_excel.
      rewrite (Hwriter eq_refl) by discriminate.
      eexists. split; [reflexivity|]. cbn. rewrite Hsent, Hn, Hs, Hfs.
      repeat split; reflexivity.
    + exists w3. split; [reflexivity|]. rewrite Hsent, Hn, Hs, Hfs.
      destruct (concat rowss); repeat split; reflexivity.
  - intros e Houtput Hsome Hrefused. rewrite Houtput.
    destruct (concat rowss) as [|row rows]; [now destruct Hsome|].
    unfold save_to_excel_docker, bind, to_excel. rewrite Hrefused.
    exists w3. split; [reflexivity|]. rewrite Hs, Hfs. split; reflexivity.
Qed.

(** ** The scan of the repositories of profiles *)

Lemma get_profile_repos_fetched profile_url token w :
  fetched w (snd (get_profile_repos profile_url token w)).
Proof.
  unfold get_profile_repos.
  destruct (urlparse_path profile_url) as [path|];
    [|cbn; apply fetched_refl].
  erewrite bind_lift_ret by reflexivity.
  destruct (negb (Py.truthy (Py.strip_chars "/" path))).
  - cbn. repeat split. exists []. now rewrite app_nil_r.
  - cbv zeta. unfold while_net. apply github_loop_fetched.
Qed.

Lemma list_profiles_loop_fetched token (profiles : list string) :
  forall acc w,
    fetched w
      (snd (for_each profiles
              (fun profile all_repos =>
                 repos <- get_profile_repos profile token ;;
                 print ("Profile " ++ profile ++ " has "
                        ++ pretty (Z.of_nat (length repos)) ++ " repos") ;;
                 ret (all_repos ++ repos)%list)
              acc w)).
Proof.
  induction profiles as [|profile profiles IH]; intros acc w.
  - apply fetched_refl.
  - cbn [for_each]. unfold bind at 1. unfold bind at 1.
    pose proof (get_profile_repos_fetched profile token w) as Hstep.
    destruct (get_profile_repos profile token w) as [[repos|h] w1];
      cbn [snd] in *; [|exact Hstep].
    unfold bind at 1, print at 1, ret at 1.
    eapply fetched_trans; [exact Hstep|].
    eapply fetched_trans; [|apply IH].
    cbn. repeat split. exists []. now rewrite app_nil_r.
Qed.

(** X20: in the mode of profiles the script first lists the repositories
    of all profiles and only then scans.  The listing runs no command
    and writes no file; when it stops with an exception, an address that
    [urlparse] refuses or a body that is not JSON for instance, the run
    ends there and none of the repositories listed so far is scanned;
    otherwise all of them are scanned, in the order in which they were
    listed, with a command that holds no token. *)
Theorem profiles_are_listed_before_any_scan
    (file_path : string) (token : option string) (text : string) (w : world) :
  fs w !! file_path = Some (TextFile text) ->
  (forall o w1,
      list_profiles token (stripped_lines (Py.universal_newlines text)) w = (o, w1) ->
      spawned w1 = spawned w /\ fs w1 = fs w)
  /\ (forall h w1,
        list_profiles token (stripped_lines (Py.universal_newlines text)) w
        = (Stop h, w1) ->
        scan_profile_repos file_path token w = (Stop h, w1))
  /\ (forall repos w1,
        list_profiles token (stripped_lines (Py.universal_newlines text)) w
        = (Ret repos, w1) ->
        Forall (fun repo => runs_to_its_end (plain_scan_cmd repo)) repos ->
        scan_profile_repos file_path token w
        = (Ret (map (fun repo => scan_output (plain_scan_cmd repo)) repos),
           after_scans (map (fun repo => "Scanning repository: " ++ repo) repos)
             (map plain_scan_cmd repos) w1)).
Proof.
  intros Hfile. split; [|split].
  - intros o w1 Hlist.
    pose proof (list_profiles_loop_fetched token
                  (stripped_lines (Py.universal_newlines text)) [] w) as H.
    unfold list_profiles in Hlist. rewrite Hlist in H.
    destruct H as (Hfs & Hs & _). auto.
  - intros h w1 Hlist. unfold scan_profile_repos.
    erewrite bind_ret_eq by (unfold read_text; rewrite Hfile; reflexivity).
    cbv zeta. apply bind_stop_eq. exact Hlist.
  - intros repos w1 Hlist Hruns. unfold scan_profile_repos.
    erewrite bind_ret_eq by (unfold read_text; rewrite Hfile; reflexivity).
    cbv zeta. erewrite bind_ret_eq by exact Hlist.
    exact (github_scans_run _ (fun repo => "Scanning repository: " ++ repo)
             plain_scan_cmd Hruns [] w1).
Qed.

(** ** The scan of one's own repositories, in general *)

Lemma all_str_of_texts (names : list string) : all_str (map JStr names) = Some names.
Proof.
  induction names as [|n names IH]; [reflexivity|].
  cbn [map all_str]. now rewrite IH.
Qed.

(** X21: the user's own scan when both listings run to their last page,
    every organization is named by a text and every scan runs to its
    end.  The organizations are scanned first and then the repositories,
    each in the order of its listing, with the token on the command
    line, and the outputs come back in that order.  [personal.txt] and
    [org.txt] hold the same names sorted, one per line, or the sentence
    that none was found. *)
Theorem own_scan_in_general
    (token : string) (w : world)
    (repo_pages : list (response * list string)) (repo_last : response)
    (repo_names : list string)
    (org_pages : list (response * list json)) (org_last : response)
    (org_names : list json) (logins : list string) (rest : list net_event) :
  Forall (page_with_next repo_url) repo_pages ->
  page_yields repo_url repo_last repo_names ->
  Py.truthy_opt (resp_next repo_last) = false ->
  Forall (page_with_next (fun o => Dyn.getitem o "login")) org_pages ->
  page_yields (fun o => Dyn.getitem o "login") org_last org_names ->
  Py.truthy_opt (resp_next org_last) = false ->
  (gathered org_pages ++ org_names)%list = map JStr logins ->
  net w = (responses repo_pages ++ Responds repo_last
           :: responses org_pages ++ Responds org_last :: rest)%list ->
  Forall runs_to_its_end
    (map (org_scan_cmd token) logins
     ++ map (repo_scan_cmd token) (gathered repo_pages ++ repo_names))%list ->
  exists w',
    scan_my_repos_and_orgs token w
    = (Ret (map scan_output
              (map (org_scan_cmd token) logins
               ++ map (repo_scan_cmd token) (gathered repo_pages ++ repo_names))%list),
       w')
    /\ spawned w'
       = (spawned w
          ++ map (org_scan_cmd token) logins
          ++ map (repo_scan_cmd token) (gathered repo_pages ++ repo_names))%list
    /\ net w' = rest
    /\ fs w' !! "personal.txt"
       = Some (TextFile
                 match (gathered repo_pages ++ repo_names)%list with
                 | [] => "No personal repositories found."
                 | _ :: _ => Py.join Py.nl (Py.sorted (gathered repo_pages ++ repo_names))
                 end)
    /\ fs w' !! "org.txt"
       = Some (TextFile
                 match logins with
                 | [] => "No organizations found."
                 | _ :: _ => Py.join Py.nl (Py.sorted logins)
                 end)
    /\ Sorted String.le (Py.sorted (gathered repo_pages ++ repo_names))
    /\ Py.sorted (gathered repo_pages ++ repo_names)
       ≡ₚ (gathered repo_pages ++ repo_names)%list
    /\ Sorted String.le (Py.sorted logins)
    /\ Py.sorted logins ≡ₚ logins.
Proof.
  intros Hrp Hrl Hrn Hop Hol Hon Hlogins Hnet Hruns.
  set (repos := (gathered repo_pages ++ repo_names)%list) in *.
  apply Forall_app in Hruns as [Horgs_run Hrepos_run].
  rewrite Forall_map in Horgs_run, Hrepos_run.
  set (w0 := set_stdout (stdout w ++ [step_1_line]) w).
  pose proof (github_listing_requests
                [("Authorization", "token " ++ token)] repo_url (fun _ => ret tt)
                "https://api.github.com/user/repos"
                [("per_page", "100"); ("type", "owner")] w0
                repo_pages repo_last repo_names
                (responses org_pages ++ Responds org_last :: rest)%list
                Hrp Hrl Hrn Hnet) as Hrepos.
  fold repos in Hrepos.
  match type of Hrepos with _ = (_, ?x) => set (w1 := x) in * end.
  pose proof (github_listing_requests
                [("Authorization", "token " ++ token)]
                (fun o => Dyn.getitem o "login") (fun _ => ret tt)
                "https://api.github.com/user/orgs" [] w1
                org_pages org_last org_names rest Hop Hol Hon eq_refl) as Horgs.
  rewrite Hlogins in Horgs.
  match type of Horgs with _ = (_, ?x) => set (w2 := x) in * end.
  set (personal := match repos with
                   | [] => "No personal repositories found."
                   | _ :: _ => Py.join Py.nl (Py.sorted repos)
                   end).
  set (org := match logins with
              | [] => "No organizations found."
              | _ :: _ => Py.join Py.nl (Py.sorted logins)
              end).
  set (w3 := set_fs (<["personal.txt" := TextFile personal]> (fs w2)) w2).
  set (w4 := set_fs (<["org.txt" := TextFile org]> (fs w3)) w3).
  pose proof (github_scans_run (map JStr logins)
                (fun o => "Scanning organization: " ++ fstr o)
                (fun o => org_scan_cmd token (fstr o))) as Hloop1.
  rewrite Forall_map in Hloop1. specialize (Hloop1 Horgs_run [] w4).
  rewrite !map_map in Hloop1. cbn [fstr Dyn.str app] in Hloop1.
  match type of Hloop1 with _ = (_, ?x) => set (w5 := x) in * end.
  pose proof (github_scans_run repos
                (fun r => "Scanning repository: " ++ r)
                (fun r => repo_scan_cmd token r) Hrepos_run
                (map (fun x => scan_output (org_scan_cmd token x)) logins) w5)
    as Hloop2.
  eexists. split; [|split; [|split; [|split; [|split]]]].
  - unfold scan_my_repos_and_orgs.
    erewrite bind_ret_eq by reflexivity. fold step_1_line. fold w0.
    erewrite bind_ret_eq by exact Hrepos.
    erewrite bind_ret_eq by exact Horgs.
    erewrite bind_ret_eq.
    2:{ instantiate (1 := w3). instantiate (1 := tt).
        unfold w3, personal. destruct repos; reflexivity. }
    erewrite bind_ret_eq.
    2:{ instantiate (1 := w4). instantiate (1 := tt).
        unfold w4, org. destruct logins as [|l logins']; [reflexivity|].
        change (JStr l :: map JStr logins') with (map JStr (l :: logins')).
        rewrite all_str_of_texts. reflexivity. }
    erewrite bind_ret_eq by exact Hloop1.
    etransitivity; [exact Hloop2|].
    rewrite map_app, !map_map. reflexivity.
  - cbn. now rewrite <- app_assoc.
  - reflexivity.
  - cbn. rewrite lookup_insert_ne by discriminate. apply lookup_insert_eq.
  - cbn. apply lookup_insert_eq.
  - repeat split; try apply merge_sort_Permutation;
      apply Sorted_merge_sort; apply _.
Qed.

(** ** The results file *)

Lemma lines_go_append (x y cur : string) :
  Py.lines_go cur (x ++ y)
  = (fst (lines_split cur x) ++ Py.lines_go (snd (lines_split cur x)) y)%list.
Proof.
  revert cur. induction x as [|c x IH]; intros cur; [reflexivity|].
  rewrite append_cons. cbn [Py.lines_go lines_split].
  destruct (Ascii.eqb c "010").
  - rewrite IH. destruct (lines_split "" x). reflexivity.
  - apply IH.
Qed.

Lemma lines_go_split (x cur : string) :
  Py.lines_go cur x
  = (fst (lines_split cur x)
     ++ match snd (lines_split cur x) with
        | EmptyString => []
        | rest => [String.rev rest]
        end)%list.
Proof.
  replace (Py.lines_go cur x) with (Py.lines_go cur (x ++ ""))
    by now rewrite append_nil_r.
  rewrite lines_go_append. now destruct (snd (lines_split cur x)).
Qed.

(** The lines of [x + "\n" + y] that are not blank, stripped, are those
    of [x] followed by those of [y]. *)
Lemma stripped_lines_joined (x y : string) :
  stripped_lines (x ++ Py.nl ++ y) = (stripped_lines x ++ stripped_lines y)%list.
Proof.
  unfold stripped_lines, Py.lines.
  rewrite lines_go_append, (lines_go_split x "").
  destruct (lines_split "" x) as [ls rest]. cbn [fst snd].
  change (Py.nl ++ y) with (String "010" y). cbn [Py.lines_go Ascii.eqb Bool.eqb].
  rewrite !map_app, !List.filter_app. rewrite <- app_assoc. f_equal.
  destruct rest as [|c rest]; [reflexivity|].
  assert (Hstrip : Py.strip (String.rev (String "010" (String c rest)))
                   = Py.strip (String.rev (String c rest))).
  { unfold String.rev. cbn [String.rev_app].
    rewrite (rev_app_append rest (String c (String "010" ""))).
    rewrite (rev_app_append rest (String c "")).
    change (String c (String "010" "")) with (String c "" ++ Py.nl).
    rewrite <- append_assoc. apply strip_line. }
  cbn [map List.filter]. rewrite Hstrip.
  now destruct (Py.truthy (Py.strip (String.rev (String c rest)))).
Qed.

(** What arrives of [a + "\n" + b] is what arrives of [a], a line feed
    and what arrives of [b]; a carriage return at the end of [a] forms
    one line end with the line feed. *)
Lemma universal_newlines_cr (d : ascii) (s : string) :
  Py.universal_newlines (String "013" (String d s))
  = String "010" (if Ascii.eqb d "010" then Py.universal_newlines s
                  else Py.universal_newlines (String d s)).
Proof. reflexivity. Qed.

Lemma universal_newlines_other (c : ascii) (s : string) :
  Ascii.eqb c "013" = false ->
  Py.universal_newlines (String c s) = String c (Py.universal_newlines s).
Proof. intros H. cbn [Py.universal_newlines]. now rewrite H. Qed.

Lemma universal_newlines_joined (a b : string) :
  Py.universal_newlines (a ++ Py.nl ++ b)
  = Py.universal_newlines a ++ Py.nl ++ Py.universal_newlines b
  \/ exists a',
       Py.universal_newlines a = a' ++ Py.nl
       /\ Py.universal_newlines (a ++ Py.nl ++ b)
          = a' ++ Py.nl ++ Py.universal_newlines b.
Proof.
  set (P := fun a =>
              Py.universal_newlines (a ++ Py.nl ++ b)
              = Py.universal_newlines a ++ Py.nl ++ Py.universal_newlines b
              \/ exists a',
                   Py.universal_newlines a = a' ++ Py.nl
                   /\ Py.universal_newlines (a ++ Py.nl ++ b)
                      = a' ++ Py.nl ++ Py.universal_newlines b).
  assert (Hcons : forall c s,
             P s ->
             (String c (Py.universal_newlines (s ++ Py.nl ++ b))
              = String c (Py.universal_newlines s) ++ Py.nl ++ Py.universal_newlines b
              \/ exists a',
                   String c (Py.universal_newlines s) = a' ++ Py.nl
                   /\ String c (Py.universal_newlines (s ++ Py.nl ++ b))
                      = a' ++ Py.nl ++ Py.universal_newlines b)).
  { intros c s [H|(a' & H1 & H2)].
    - left. now rewrite H.
    - right. exists (String c a'). now rewrite H1, H2. }
  enough (H : P a /\ forall c, P (String c a)) by apply H.
  induction a as [|d a [IH1 IH2]].
  - assert (H0 : P "") by now left.
    split; [exact H0|]. intros c.
    destruct (Ascii.eqb c "013") eqn:Hc.
    + right. exists "". apply Ascii.eqb_eq in Hc as ->. split; reflexivity.
    + unfold P. rewrite append_cons, !(universal_newlines_other c) by exact Hc.
      apply (Hcons c ""). exact H0.
  - split; [apply IH2|]. intros c.
    destruct (Ascii.eqb c "013") eqn:Hc.
    + apply Ascii.eqb_eq in Hc as ->. unfold P.
      rewrite !append_cons, !universal_newlines_cr.
      destruct (Ascii.eqb d "010").
      * apply (Hcons "010"%char a). exact IH1.
      * rewrite <- append_cons. apply (Hcons "010"%char (String d a)).
        apply IH2.
    + unfold P. rewrite append_cons, !(universal_newlines_other c) by exact Hc.
      apply (Hcons c (String d a)). apply IH2.
Qed.

Lemma stripped_lines_of_joined (a b : string) :
  stripped_lines (Py.universal_newlines (a ++ Py.nl ++ b))
  = (stripped_lines (Py.universal_newlines a)
     ++ stripped_lines (Py.universal_newlines b))%list.
Proof.
  destruct (universal_newlines_joined a b) as [->|(a' & H1 & ->)].
  - apply stripped_lines_joined.
  - rewrite H1, stripped_lines_joined.
    rewrite <- (append_nil_r (a' ++ Py.nl)), append_assoc, stripped_lines_joined.
    cbn [append]. change (stripped_lines (Py.nl ++ "")) with (@nil string).
    now rewrite app_nil_r.
Qed.

Lemma stripped_lines_of_join (outs : list string) :
  stripped_lines (Py.universal_newlines (Py.join Py.nl outs))
  = flat_map (fun out => stripped_lines (Py.universal_newlines out)) outs.
Proof.
  induction outs as [|x [|y outs] IH]; [reflexivity| |].
  - cbn. now rewrite app_nil_r.
  - change (Py.join Py.nl (x :: y :: outs))
      with (x ++ Py.nl ++ Py.join Py.nl (y :: outs)).
    rewrite stripped_lines_of_joined, IH. reflexivity.
Qed.

Lemma parsed_lines_stripped (text : string) :
  parsed_lines text = flat_map loaded (stripped_lines text).
Proof.
  unfold parsed_lines, stripped_lines.
  induction (Py.lines text) as [|line ls IH]; [reflexivity|].
  cbn [flat_map map List.filter]. cbv zeta.
  destruct (Py.truthy (Py.strip line)); [|exact IH].
  cbn [flat_map]. now rewrite IH.
Qed.

Lemma flat_map_flat_map {A B C} (f : A -> list B) (g : B -> list C) (l : list A) :
  flat_map g (flat_map f l) = flat_map (fun x => flat_map g (f x)) l.
Proof.
  induction l as [|x l IH]; [reflexivity|].
  cbn [flat_map]. now rewrite flat_map_app, IH.
Qed.

(** [results.txt] is the outputs of the scans, joined by line feeds.
    What the export reads of it are the JSON lines of the first output,
    then those of the second, and so on. *)
Lemma parsed_lines_of_join (outs : list string) :
  parsed_lines (Py.universal_newlines (Py.join Py.nl outs))
  = flat_map (fun out => parsed_lines (Py.universal_newlines out)) outs.
Proof.
  rewrite parsed_lines_stripped, stripped_lines_of_join, flat_map_flat_map.
  apply flat_map_ext. intros out. now rewrite parsed_lines_stripped.
Qed.

(** The export, when a row can be built of every line that is JSON and
    the sheet, if it comes to one, is written. *)
Lemma save_to_excel_github_rows results_file output_file text rows w :
  fs w !! results_file = Some (TextFile text) ->
  omap github_finding_row (parsed_lines (Py.universal_newlines text)) = Ret rows ->
  (rows <> [] -> excel_writer output_file (GithubSheet rows) = Saved) ->
  exists w',
    save_to_excel_github results_file output_file w = (Ret tt, w')
    /\ fs w' = match rows with
               | _ :: _ => <[output_file := GithubSheet rows]> (fs w)
               | [] => fs w
               end
    /\ spawned w' = spawned w /\ sent w' = sent w /\ net w' = net w.
Proof.
  intros Hfile Hrows Hwriter.
  assert (Hloop : save_to_excel_github results_file output_file w
                  = match rows with
                    | _ :: _ =>
                        (to_excel excel_writer output_file (GithubSheet rows) ;;
                         print (saved_line "GitHub" output_file (length rows))) w
                    | [] => print "No valid GitHub JSON found, Excel not created." w
                    end).
  { unfold save_to_excel_github.
    erewrite bind_ret_eq by (unfold read_text; rewrite Hfile; reflexivity).
    erewrite bind_ret_eq.
    2:{ rewrite github_rows_loop.
        change (omap github_finding_row (flat_map _ _))
          with (omap github_finding_row (parsed_lines (Py.universal_newlines text))).
        rewrite Hrows. reflexivity. }
    cbn [app]. destruct rows; reflexivity. }
  rewrite Hloop. destruct rows as [|row rows].
  - eexists. split; [reflexivity|]. cbn. auto.
  - unfold bind, to_excel. rewrite Hwriter by discriminate.
    eexists. split; [reflexivity|]. cbn. auto.
Qed.

(** X22: a whole run in the mode of a file of GitHub repositories, when
    every scan runs to its end.  The run scans the repositories, the
    lines of the file that are not blank, in the order of the file, and
    sends no request; [results.txt] holds the outputs of the scans,
    joined by line feeds; and the sheet, when [to_excel] writes it, holds
    one row for every JSON line of the first output, then of the second,
    and so on: joining the outputs neither merges two lines nor makes a
    new one.  Of a file without a repository nothing comes: no file is
    written and nothing is printed. *)
Theorem run_over_a_file_of_github_repositories
    (a : args) (w : world)
    (github_token docker_user docker_pass : option string) (path text : string) :
  fst (read_credentials w) = Ret (github_token, docker_user, docker_pass) ->
  git_me a = false ->
  git_other a = true ->
  arg_file a = Some path ->
  Py.truthy path = true ->
  Py.truthy_opt (docker_profile a) || Py.truthy_opt (docker_repo a) = false ->
  fs w !! path = Some (TextFile text) ->
  Forall (fun repo => runs_to_its_end (plain_scan_cmd repo))
    (stripped_lines (Py.universal_newlines text)) ->
  (stripped_lines (Py.universal_newlines text) = [] -> main a w = (Ret tt, w))
  /\ (forall rows,
        stripped_lines (Py.universal_newlines text) <> [] ->
        omap github_finding_row
          (flat_map
             (fun repo =>
                parsed_lines (Py.universal_newlines (scan_output (plain_scan_cmd repo))))
             (stripped_lines (Py.universal_newlines text)))
        = Ret rows ->
        (Py.truthy (output a) = true -> rows <> [] ->
         excel_writer (output a) (GithubSheet rows) = Saved) ->
        exists w',
          main a w = (Ret tt, w')
          /\ spawned w'
             = (spawned w
                ++ map plain_scan_cmd (stripped_lines (Py.universal_newlines text)))%list
          /\ sent w' = sent w
          /\ fs w'
             = with_github_sheet (output a) rows
                 (<["results.txt" :=
                      TextFile
                        (Py.join Py.nl
                           (map (fun repo => scan_output (plain_scan_cmd repo))
                              (stripped_lines (Py.universal_newlines text))))]>
                    (fs w))).
Proof.
  intros Hcreds Hme Hother Hfile Hpath Hdocker Htext Hruns.
  assert (Hrc : read_credentials w
                = (Ret (github_token, docker_user, docker_pass), w)).
  { destruct (read_credentials w) as [o w'] eqn:Hrun. cbn in Hcreds. subst o.
    now rewrite (read_credentials_returns _ _ _ Hrun). }
  set (repos := stripped_lines (Py.universal_newlines text)) in *.
  set (outs := map (fun repo => scan_output (plain_scan_cmd repo)) repos).
  set (w1 := after_scans (map (fun repo => "Scanning repository: " ++ repo) repos)
               (map plain_scan_cmd repos) w).
  assert (Hscan : scan_other_repos path w = (Ret outs, w1)).
  { unfold scan_other_repos.
    erewrite bind_ret_eq by (unfold read_text; rewrite Htext; reflexivity).
    cbv zeta.
    exact (github_scans_run _ (fun repo => "Scanning repository: " ++ repo)
             plain_scan_cmd Hruns [] w). }
  assert (Hmain : main a w
                  = (match outs with
                     | _ :: _ =>
                         write_text "results.txt" (Py.join Py.nl outs) ;;
                         if Py.truthy (output a)
                         then save_to_excel_github "results.txt" (output a)
                         else ret tt
                     | [] => ret tt
                     end) w1).
  { unfold main. erewrite bind_ret_eq by exact Hrc. cbv beta iota zeta.
    rewrite Hme, Hother, Hfile, Hpath, Hdocker.
    erewrite bind_ret_eq by exact Hscan.
    unfold bind at 1.
    destruct (match outs with [] => ret tt | _ :: _ => _ end w1) as [[[]|h] w']; reflexivity. }
  split.
  - intros Hnone. rewrite Hmain. unfold outs, w1. rewrite Hnone. cbn [map].
    unfold ret. now rewrite after_no_scan.
  - intros rows Hsome Hrows Hwriter. rewrite Hmain.
    destruct outs as [|out outs'] eqn:Houts.
    { unfold outs in Houts. destruct repos; [now destruct Hsome|discriminate]. }
    rewrite <- Houts in *. clear Houts.
    set (w2 := set_fs (<["results.txt" := TextFile (Py.join Py.nl outs)]> (fs w1)) w1).
    erewrite bind_ret_eq by reflexivity. fold w2.
    unfold with_github_sheet.
    destruct (Py.truthy (output a)).
    + destruct (save_to_excel_github_rows "results.txt" (output a)
                  (Py.join Py.nl outs) rows w2) as (w3 & Hrun & Hfs & Hs & Hsent & _).
      { cbn. apply lookup_insert_eq. }
      2:{ exact (Hwriter eq_refl). }
      { rewrite parsed_lines_of_join. unfold outs. rewrite flat_map_concat_map, map_map,
          <- flat_map_concat_map. exact Hrows. }
      exists w3. split; [exact Hrun|]. rewrite Hs, Hsent, Hfs. cbn.
      destruct rows; auto.
    + exists w2. split; [reflexivity|]. cbn.
      destruct rows; auto.
Qed.

(** ** A run in the mode of a Docker Hub profile *)

(** X23: a whole run in the mode of a Docker Hub profile, without the
    mode of all tags, when the login is accepted, the repository listing
    runs to its last page and every scan comes back.  The user is read
    off the text of the profile file, stripped; the listing is asked for
    with the token of the login; the repositories are [user/name] for the
    names listed, in the order of the listing; they are written to
    [image.txt] and scanned at their latest tag, and the rows of all the
    scans make the sheet, when [to_excel] writes it. *)
Theorem run_over_a_docker_profile
    (a : args) (w : world) (github_token : option string)
    (user pass path text : string) (login : response)
    (fields : list (string * json))
    (pages : list (response * list json)) (last : response)
    (names : list json) (next : json) (rest : list net_event)
    (rowss : list (list docker_row)) :
  fst (read_credentials w) = Ret (github_token, Some user, Some pass) ->
  Py.truthy user = true ->
  Py.truthy pass = true ->
  git_me a = false -> git_other a = false -> git_profile a = false ->
  docker_profile a = Some path ->
  Py.truthy path = true ->
  all_tag a = false ->
  fs w !! path = Some (TextFile text) ->
  status_code login = 200 ->
  resp_json login = Some (JObj fields) ->
  Forall hub_page_with_next pages ->
  hub_page_yields last names next ->
  Dyn.truthy next = false ->
  net w = (Responds login :: responses pages ++ Responds last :: rest)%list ->
  Forall2 (fun repo rows => scan_rows repo (repo ++ ":latest") = Some rows)
    (map (fun r => get_username_from_url (Py.strip (Py.universal_newlines text))
                   ++ "/" ++ fstr r)
       (gathered pages ++ names))
    rowss ->
  (Py.truthy (output a) = true -> concat rowss <> [] ->
   excel_writer (output a) (DockerSheet (concat rowss)) = Saved) ->
  exists w',
    main a w = (Ret tt, w')
    /\ sent w'
       = (sent w
          ++ login_request user pass
          :: hub_requests
               [("Authorization",
                 ("JWT " ++ fstr match Dyn.lookup "token" fields with
                                 | Some token => token
                                 | None => JNull
                                 end)%string)]
               ("https://hub.docker.com/v2/repositories/"
                ++ get_username_from_url (Py.strip (Py.universal_newlines text))
                ++ "/")%string
               (map fst pages ++ [last]))%list
    /\ net w' = rest
    /\ spawned w'
       = (spawned w
          ++ map (fun repo => docker_scan_cmd (repo ++ ":latest"))
               (map (fun r => get_username_from_url
                                (Py.strip (Py.universal_newlines text))
                              ++ "/" ++ fstr r)%string
                  (gathered pages ++ names)))%list
    /\ fs w'
       = with_docker_sheet (output a) (concat rowss)
           (with_image_list
              (map (fun r => get_username_from_url
                               (Py.strip (Py.universal_newlines text))
                             ++ "/" ++ fstr r)
                 (gathered pages ++ names))
              (fs w)).
Proof.
  intros Hcreds Huser Hpass Hme Hother Hprofile Hdp Hpath Hall Hfile
    Hstatus Hjson Hpages Hlast Hnext Hnet Hrows Hwriter.
  assert (Hrc : read_credentials w = (Ret (github_token, Some user, Some pass), w)).
  { destruct (read_credentials w) as [o w'] eqn:Hrun. cbn in Hcreds. subst o.
    now rewrite (read_credentials_returns _ _ _ Hrun). }
  set (username := get_username_from_url (Py.strip (Py.universal_newlines text))) in *.
  set (token := match Dyn.lookup "token" fields with
                | Some token => token
                | None => JNull
                end).
  set (repos := map (fun r => username ++ "/" ++ fstr r) (gathered pages ++ names)) in *.
  set (w1 := after_requests [login_request user pass]
               (responses pages ++ Responds last :: rest)%list w).
  pose proof (hub_loop_requests [("Authorization", "JWT " ++ fstr token)]
                ("https://hub.docker.com/v2/repositories/" ++ username ++ "/")
                w1 pages last names next rest Hpages Hlast Hnext eq_refl) as Hlist.
  change (while_net _ _ w1) with (list_repositories username token w1) in Hlist.
  match type of Hlist with _ = (_, ?x) => set (w2 := x) in * end.
  set (w3 := set_stdout
               (stdout w2 ++ ["Saved " ++ pretty (Z.of_nat (length repos))
                              ++ " repositories to image.txt"])
               (set_fs (with_image_list repos (fs w2)) w2)).
  destruct (scan_latest_of_each repos rowss [] w3 Hrows)
    as (w4 & Hscan & Hs & _ & Hn & Hsent & Hfs).
  cbn [app] in Hscan.
  assert (Hmain : main a w
                  = (if Py.truthy (output a)
                     then save_to_excel_docker (concat rowss) (output a)
                     else ret tt) w4).
  { unfold main. erewrite bind_ret_eq by exact Hrc. cbv beta iota zeta.
    rewrite Hme, Hother, Hprofile.
    erewrite bind_ret_eq by reflexivity.
    erewrite bind_ret_eq by reflexivity.
    rewrite Hdp. cbn [Py.truthy_opt orb]. rewrite Hpath, Huser, Hpass.
    cbn [andb orb].
    erewrite bind_ret_eq.
    2:{ unfold get_docker_token. cbv zeta.
        erewrite bind_ret_eq
          by (unfold requests_post, http; rewrite Hnet; reflexivity).
        rewrite Hstatus. cbn [Z.eqb Pos.eqb negb].
        unfold response_json. rewrite Hjson.
        erewrite bind_ret_eq by reflexivity. reflexivity. }
    erewrite bind_ret_eq.
    2:{ erewrite bind_ret_eq
          by (unfold read_path, read_text; cbn [fs set_net set_sent];
              rewrite Hfile; reflexivity).
        cbv zeta. fold username. fold w1. fold token.
        erewrite bind_ret_eq by exact Hlist.
        reflexivity. }
    erewrite bind_ret_eq by reflexivity.
    erewrite bind_ret_eq by reflexivity.
    rewrite Hall. fold repos. fold w3.
    erewrite bind_ret_eq by exact Hscan.
    reflexivity. }
  rewrite Hmain. unfold with_docker_sheet.
  assert (Hsent4 : sent w4
                   = (sent w ++ login_request user pass
                      :: hub_requests
                           [("Authorization", ("JWT " ++ fstr token)%string)]
                           ("https://hub.docker.com/v2/repositories/"
                            ++ username ++ "/")%string
                           (map fst pages ++ [last]))%list).
  { rewrite Hsent. cbn. now rewrite <- app_assoc. }
  destruct (Py.truthy (output a)); [destruct (concat rowss) as [|row rows]|].
  - eexists. split; [reflexivity|]. cbn. rewrite Hsent4, Hn, Hs, Hfs.
    repeat split; reflexivity.
  - unfold save_to_excel_docker, bind, to_excel.
    rewrite (Hwriter eq_refl) by discriminate.
    eexists. split; [reflexivity|]. cbn. rewrite Hsent4, Hn, Hs, Hfs.
    repeat split; reflexivity.
  - exists w4. split; [reflexivity|]. rewrite Hsent4, Hn, Hs, Hfs.
    destruct (concat rowss); repeat split; reflexivity.
Qed.

(** ** A finding that is no dictionary *)

End Trufflex.

(** * The script on the sample surroundings *)

(** ** The scenarios, run from [main] *)

(** Scenario A: the two addresses are listed sorted, the organization is
    named, and three commands are run. *)
Example scenario_A :
  let run := main Sample.yaml_safe_load Sample.json_loads Py.url_path
               Sample.scanner_reports Sample.py_repr Sample.excel_writer
                 Sample.args_A Sample.world_A in
  fst run = Ret tt
  /\ fs (snd run) !! "personal.txt"
     = Some (TextFile ("https://github.com/zoe/app" ++ Py.nl ++ "https://github.com/zoe/site"))
  /\ fs (snd run) !! "org.txt" = Some (TextFile "acme")
  /\ spawned (snd run)
     = [ org_scan_cmd "tok123" "acme";
         repo_scan_cmd "tok123" "https://github.com/zoe/site";
         repo_scan_cmd "tok123" "https://github.com/zoe/app" ].
Proof. vm_compute. repeat split; reflexivity. Qed.

(** Scenario B: one command is run, the scan of the digest of [v1]. *)
Example scenario_B :
  let run := main Sample.yaml_safe_load Sample.json_loads Py.url_path
               Sample.scanner_reports Sample.py_repr Sample.excel_writer
                 Sample.args_B Sample.world_B in
  fst run = Ret tt
  /\ spawned (snd run) = [docker_scan_cmd "alice/app@sha256:aaa"]
  /\ fs (snd run) !! "output.xlsx" = Some (DockerSheet [Sample.empty_row]).
Proof. vm_compute. repeat split; reflexivity. Qed.

(** Scenario B without the scanner on the path: the missing binary is
    caught like any other exception and the run goes to its end. *)
Example scenario_B_without_scanner :
  let run := main Sample.yaml_safe_load Sample.json_loads Py.url_path
               Sample.scanner_missing Sample.py_repr Sample.excel_writer
                 Sample.args_B Sample.world_B in
  fst run = Ret tt
  /\ spawned (snd run) = [docker_scan_cmd "alice/app@sha256:aaa"]
  /\ List.last (stdout (snd run)) "" = "No Docker findings, Excel not created.".
Proof. vm_compute. repeat split; reflexivity. Qed.

(** ** The listings *)

(** C1 on a listing of the user's repositories whose second page request
    is answered with a 500, and on a Docker Hub listing whose first one
    is. *)
Lemma listing_on_failed_page_witness :
  (exists w',
      get_user_repos Sample.py_repr "tok123" Sample.world_failing_listing
      = (Ret ["https://github.com/zoe/site"], w')
      /\ net w' = [])
  /\ (exists w',
        list_repositories Sample.py_repr "alice" (JStr "jwt") Sample.world_failing_hub
        = (Stop (Exited 1), w')
        /\ net w' = []
        /\ stdout w' = ["Error fetching repositories: 500 Internal Server Error"]).
Proof.
  destruct (listing_on_failed_page Py.url_path Sample.py_repr Sample.failed_page [])
    as (Hrepos & _ & _ & Hhub); [discriminate|].
  split.
  - apply (Hrepos "tok123" [(Sample.first_page, ["https://github.com/zoe/site"])]).
    + repeat constructor. eexists _, _. repeat split; reflexivity.
    + reflexivity.
  - apply (Hhub "alice" (JStr "jwt") []); [constructor|reflexivity].
Defined.

(** C1 as stated fails on the Docker Hub listing: answered with a 500 it
    ends the process, where the claim has it return the empty list. *)
Lemma docker_hub_listing_ends_the_process :
  fst (list_repositories Sample.py_repr "alice" (JStr "jwt") Sample.world_failing_hub)
  = Stop (Exited 1)
  /\ ~ returns_gathered (list_repositories Sample.py_repr "alice" (JStr "jwt")) []
         Sample.world_failing_hub.
Proof.
  split; [reflexivity|]. unfold returns_gathered. vm_compute. discriminate.
Qed.

(** ** Failures of a scan *)



(** ** Skipped tags *)

(** C3 on the tag [v1.sig] of scenario B, which is passed over, and on
    a listing where [v1] and [v1.sig] name the same image: the commands
    run are those of the tags that are kept. *)
Lemma skipped_tags_are_never_scanned_witness :
  scan_tag Sample.json_loads Sample.scanner_reports Sample.py_repr "alice/app"
    (Sample.tag_record "v1.sig" ["sha256:bbb"]) [] Sample.nowhere
  = (Ret [], Sample.nowhere)
  /\ exists cmds,
       spawned (snd (scan_repository Sample.json_loads Sample.scanner_reports
                       Sample.py_repr true "alice/app" [] Sample.world_tags_shared))
       = (spawned Sample.world_tags_shared ++ cmds)%list
       /\ forall cmd,
            In cmd cmds <->
            exists v digest,
              In v [TagView "v1" [JStr "sha256:aaa"];
                    TagView "v1.sig" [JStr "sha256:aaa"]]
              /\ skip_tag (tv_name v) = false
              /\ In digest (tv_digests v)
              /\ cmd = docker_scan_cmd (image_ref Sample.py_repr "alice/app" digest).
Proof.
  destruct (skipped_tags_are_never_scanned Sample.json_loads Sample.scanner_reports
              Sample.py_repr "alice/app") as (_ & Hpass & _ & _ & Hkept).
  split.
  - apply (Hpass _ "v1.sig"); reflexivity.
  - apply (Hkept [] Sample.world_tags_shared [] Sample.tags_shared_response
             [TagView "v1" [JStr "sha256:aaa"]; TagView "v1.sig" [JStr "sha256:aaa"]]
             JNull [] [[Sample.empty_row]]).
    + constructor.
    + eexists _, _, _. split; [reflexivity|]. split; [reflexivity|].
      split; [reflexivity|]. split; [|reflexivity].
      repeat constructor; eexists _, _; repeat split; reflexivity.
    + reflexivity.
    + reflexivity.
    + repeat constructor.
Defined.

(** C3 as stated fails where a tag that is kept lists the digest of a
    skipped one: of [v1] and [v1.sig], both naming [sha256:aaa], the tag
    [v1.sig] is passed over, and its image is scanned all the same,
    through [v1]. *)
Lemma shared_digest_is_scanned :
  spawned (snd (scan_repository Sample.json_loads Sample.scanner_reports
                  Sample.py_repr true "alice/app" [] Sample.world_tags_shared))
  = [docker_scan_cmd "alice/app@sha256:aaa"]
  /\ skip_tag "v1.sig" = true
  /\ tag_page_yields Sample.tags_shared_response
       [TagView "v1" [JStr "sha256:aaa"]; TagView "v1.sig" [JStr "sha256:aaa"]] JNull
  /\ ~ skipped_images_are_not_scanned Sample.json_loads Sample.scanner_reports
         Sample.py_repr true "alice/app"
         [TagView "v1" [JStr "sha256:aaa"]; TagView "v1.sig" [JStr "sha256:aaa"]]
         Sample.world_tags_shared.
Proof.
  split; [reflexivity|]. split; [reflexivity|]. split.
  - eexists _, _, _. split; [reflexivity|]. split; [reflexivity|].
    split; [reflexivity|]. split; [|reflexivity].
    repeat constructor; eexists _, _; repeat split; reflexivity.
  - intros Hclaim.
    apply (Hclaim (TagView "v1.sig" [JStr "sha256:aaa"]) (JStr "sha256:aaa")).
    + right. left. reflexivity.
    + reflexivity.
    + left. reflexivity.
    + left. reflexivity.
Qed.

(** ** The user name of a profile *)

(** C4 on a profile address of one segment. *)
Lemma profile_user_is_stripped_path_witness :
  (exists rq more,
      sent (snd (get_profile_repos Py.url_path Sample.py_repr
                   "https://github.com/alice/" None Sample.nowhere))
      = rq :: more
      /\ req_method rq = GET
      /\ req_url rq = "https://api.github.com/users/alice/repos")
  /\ trailing_segment "/alice/" = "alice".
Proof.
  destruct (profile_user_is_stripped_path Py.url_path Sample.py_repr
              "https://github.com/alice/" None "/alice/" Sample.nowhere
              eq_refl) as (Hsent & _ & Hsegment).
  split; [exact (Hsent eq_refl)|]. symmetry. exact (Hsegment eq_refl).
Defined.

(** C4 as stated fails on a path of two segments: the user asked for is
    [orgs/foo], the trailing segment is [foo]. *)
Lemma profile_path_of_two_segments :
  sent (snd (get_profile_repos Py.url_path Sample.py_repr
               "https://github.com/orgs/foo" None Sample.nowhere))
  = [Request GET "https://api.github.com/users/orgs/foo/repos" []
       [("per_page", "100")] []]
  /\ trailing_segment "/orgs/foo" = "foo"
  /\ ~ requests_trailing_segment Py.url_path Sample.py_repr
         "https://github.com/orgs/foo" None Sample.nowhere.
Proof.
  split; [reflexivity|]. split; [reflexivity|].
  intros (path & rq & more & Hpath & Hsent & Hurl).
  vm_compute in Hpath. injection Hpath as <-.
  vm_compute in Hsent. injection Hsent as <- _.
  vm_compute in Hurl. discriminate Hurl.
Qed.

(** ** The scan targets of a repository *)

(** C5 on scenario B: of the tags [v1] and [v1.sig] the digest of [v1]
    alone is scanned. *)
Lemma docker_scan_targets_witness :
  exists w',
    scan_repository Sample.json_loads Sample.scanner_reports Sample.py_repr true
      "alice/app" [] Sample.world_tags_B
    = (Ret [Sample.empty_row], w')
    /\ spawned w' = [docker_scan_cmd "alice/app@sha256:aaa"].
Proof.
  destruct (docker_scan_targets Sample.json_loads Sample.scanner_reports Sample.py_repr
              "alice/app" [] Sample.world_tags_B) as (_ & _ & Hscenario).
  apply (Hscenario Sample.tags_B_response JNull [] (JStr "sha256:aaa")
           (JStr "sha256:bbb") [Sample.empty_row]); try reflexivity.
  eexists _, _, _. split; [reflexivity|]. split; [reflexivity|].
  split; [reflexivity|]. split; [|reflexivity].
  repeat constructor; eexists _, _; repeat split; reflexivity.
Defined.

(** ** The credential loader *)

(** C6 on a credential file with the Docker entry [alice-secret]: the
    process ends with the message about the format, and nothing is sent. *)
Lemma docker_entry_without_colon_witness :
  exists h w',
    main Sample.yaml_safe_load Sample.json_loads Py.url_path Sample.scanner_reports
      Sample.py_repr Sample.excel_writer Sample.args_B Sample.world_no_colon
    = (Stop h, w')
    /\ (h = Exited 1 \/ exists e, h = Raised e)
    /\ (forall token,
           first_entry (JObj [("docker", JArr [JStr "alice-secret"])]) "github"
           = Ret token ->
           h = Exited 1
           /\ stdout w' = (stdout Sample.world_no_colon ++ [no_colon_message])%list)
    /\ sent w' = sent Sample.world_no_colon
    /\ net w' = net Sample.world_no_colon
    /\ spawned w' = spawned Sample.world_no_colon
    /\ fs w' = fs Sample.world_no_colon.
Proof.
  exact (docker_entry_without_colon_is_fatal
           Sample.yaml_safe_load Sample.json_loads Py.url_path Sample.scanner_reports
           Sample.py_repr Sample.excel_writer Sample.args_B Sample.world_no_colon
           ("docker: [alice-secret]" ++ Py.nl)
           [("docker", JArr [JStr "alice-secret"])] "alice-secret" []
           eq_refl eq_refl eq_refl eq_refl).
Defined.

(** ** Normalising a Docker finding *)

(** C7 on a finding that names its detector and nothing else. *)
Lemma normalised_defaults_witness :
  exists r,
    parse_docker_finding "alice/app" (JObj [("DetectorName", JStr "AWS")]) = Ret r
    /\ rotation_guide r = JStr "" /\ version r = JStr ""
    /\ image r = JStr "alice/app"
    /\ verified r = JBool false.
Proof.
  destruct (normalised_defaults "alice/app" [("DetectorName", JStr "AWS")]
              (or_introl eq_refl)) as [_ Hdefaults].
  destruct (Hdefaults [] eq_refl)
    as (r & Hr & Hguide & Hversion & Himage & _ & _ & _ & _ & _ & _ & _ & _ & Hverified).
  exists r. repeat split; auto.
Defined.

(** C7 as stated fails on the image: absent from the finding, it comes
    out as the reference handed to the normaliser, which is neither the
    empty string nor [False]. *)
Lemma absent_image_is_not_blank :
  parse_docker_finding "alice/app" (JObj []) = Ret Sample.empty_row
  /\ ~ absent_fields_are_blank "alice/app" [].
Proof.
  split; [reflexivity|].
  intros (r & Hr & _ & _ & Hfields).
  injection Hr as <-.
  destruct (Hfields [] eq_refl) as (Himage & _).
  destruct (Himage eq_refl) as [H|H]; discriminate H.
Qed.

(** ** Exporting nothing *)

(** C8 on a results file without a line of JSON. *)
Lemma export_of_no_finding_witness :
  exists w',
    save_to_excel_github Sample.no_json Sample.excel_writer "results.txt" "output.xlsx"
      Sample.world_no_finding
    = (Ret tt, w')
    /\ fs w' = fs Sample.world_no_finding
    /\ stdout w' = ["No valid GitHub JSON found, Excel not created."].
Proof.
  destruct (export_of_no_finding_writes_no_file Sample.no_json Sample.excel_writer) as [_ Hgithub].
  apply (Hgithub "results.txt" "output.xlsx"
           ("scanning" ++ Py.nl ++ Py.nl ++ "done") Sample.world_no_finding).
  - reflexivity.
  - repeat constructor.
Defined.

(** ** The scan of one's own repositories and organizations *)

(** C9 on scenario A. *)
Lemma self_scan_witness :
  exists outputs w' listing,
    scan_my_repos_and_orgs Sample.scanner_reports Sample.py_repr "tok123" Sample.world_A
    = (Ret outputs, w')
    /\ fs w' !! "personal.txt" = Some (TextFile (Py.join Py.nl listing))
    /\ listing ≡ₚ ["https://github.com/zoe/site"; "https://github.com/zoe/app"]
    /\ Sorted String.le listing
    /\ fs w' !! "org.txt" = Some (TextFile "acme")
    /\ spawned w'
       = [ org_scan_cmd "tok123" "acme";
           repo_scan_cmd "tok123" "https://github.com/zoe/site";
           repo_scan_cmd "tok123" "https://github.com/zoe/app" ]
    /\ length outputs = 3%nat.
Proof.
  apply (self_scan_of_two_repositories_and_one_organization
           Sample.scanner_reports Sample.py_repr "tok123" Sample.world_A
           [] Sample.repositories_A
           ["https://github.com/zoe/site"; "https://github.com/zoe/app"]
           [] Sample.organizations_A [JStr "acme"] []).
  - constructor.
  - split; [reflexivity|]. eexists _, _. repeat split; reflexivity.
  - reflexivity.
  - reflexivity.
  - constructor.
  - split; [reflexivity|]. eexists _, _. repeat split; reflexivity.
  - reflexivity.
  - reflexivity.
  - reflexivity.
  - intros cmd. eexists _, _. reflexivity.
Defined.

(** ** What a row says of its image *)

(** C10 on [alice/app], scanned as [alice/app:latest] with one finding
    that names no image: the row names [alice/app]. *)
Lemma image_defaults_to_repository_witness :
  exists w',
    scan_repository Sample.json_loads Sample.scanner_reports Sample.py_repr false
      "alice/app" [] Sample.nowhere
    = (Ret [Sample.empty_row], w')
    /\ rows_name_repository Sample.json_loads Sample.scanner_reports
         "alice/app" "alice/app:latest" [Sample.empty_row].
Proof.
  destruct (image_defaults_to_repository Sample.json_loads Sample.scanner_reports
              Sample.py_repr "alice/app" [] Sample.nowhere) as [Hlatest _].
  exact (Hlatest [Sample.empty_row] eq_refl).
Defined.

(** ** More on the credential loader *)

(** X1 without a credential file, and with one that holds the one word
    [github]. *)
Lemma credentials_that_do_not_load_witness :
  main Sample.yaml_safe_load Sample.json_loads Py.url_path Sample.scanner_reports
    Sample.py_repr Sample.excel_writer Sample.args_A Sample.nowhere
  = (Stop (Exited 1),
     set_stdout (stdout Sample.nowhere ++ ["Error: cred.conf file not found."])
       Sample.nowhere)
  /\ main Sample.yaml_safe_load Sample.json_loads Py.url_path Sample.scanner_reports
       Sample.py_repr Sample.excel_writer Sample.args_A Sample.world_not_yaml
     = (Stop (Exited 1),
        set_stdout
          (stdout Sample.world_not_yaml
           ++ ["Error parsing cred.conf: " ++ "could not find expected ':'"])
          Sample.world_not_yaml).
Proof.
  split.
  - exact (proj1 (credentials_that_do_not_load
                    Sample.yaml_safe_load Sample.json_loads Py.url_path
                    Sample.scanner_reports Sample.py_repr
                    Sample.excel_writer Sample.args_A Sample.nowhere) eq_refl).
  - exact (proj2 (credentials_that_do_not_load
                    Sample.yaml_safe_load Sample.json_loads Py.url_path
                    Sample.scanner_reports Sample.py_repr
                    Sample.excel_writer Sample.args_A Sample.world_not_yaml)
             "github" "could not find expected ':'" eq_refl eq_refl).
Defined.

(** X2 on a credential file whose document is [None]. *)
Lemma credentials_document_that_is_no_container_witness :
  exists msg,
    main (Sample.yaml_of JNull) Sample.json_loads Py.url_path Sample.scanner_reports
      Sample.py_repr Sample.excel_writer Sample.args_A Sample.world_not_yaml
    = (Stop (Raised (Exn TypeError msg)), Sample.world_not_yaml).
Proof.
  exact (credentials_document_that_is_no_container
           (Sample.yaml_of JNull) Sample.json_loads Py.url_path
           Sample.scanner_reports Sample.py_repr
           Sample.excel_writer Sample.args_A Sample.world_not_yaml "github" JNull
           eq_refl eq_refl (or_introl eq_refl)).
Defined.

(** X3 on the entry [alice:secret]. *)
Lemma docker_credentials_split_at_first_colon_witness :
  exists docker_user docker_pass,
    read_credentials Sample.yaml_safe_load Sample.world_B
    = (Ret (None, Some docker_user, Some docker_pass), Sample.world_B)
    /\ "alice:secret" = docker_user ++ ":" ++ docker_pass
    /\ Py.contains ":" docker_user = false.
Proof.
  exact (docker_credentials_split_at_first_colon
           Sample.yaml_safe_load Sample.world_B
           ("docker: [alice:secret]" ++ Py.nl)
           (JObj [("docker", JArr [JStr "alice:secret"])]) None "alice:secret"
           eq_refl eq_refl eq_refl eq_refl eq_refl).
Defined.

(** X4 on a credential file that gives the token as a text, not as a
    list: the token is [g]. *)
Lemma credential_entry_that_is_no_list_witness :
  read_credentials (Sample.yaml_of (JObj [("github", JStr "ghp_123")]))
    Sample.world_not_yaml
  = (Ret (Some (Py.strip "g"), None, None), Sample.world_not_yaml).
Proof.
  exact (proj1 (credential_entry_that_is_no_list
                  (Sample.yaml_of (JObj [("github", JStr "ghp_123")]))
                  Sample.world_not_yaml "github" [("github", JStr "ghp_123")]
                  eq_refl eq_refl eq_refl)
           "g"%char "hp_123" eq_refl).
Defined.

(** ** The user name of a Docker Hub address *)

(** X5 on the address of the profile of [alice], and on the address that
    stops after [/u/]. *)
Lemma user_name_of_a_hub_address_witness :
  get_username_from_url ("https://hub.docker.com" ++ "/u/" ++ "alice" ++ "/") = "alice"
  /\ get_username_from_url ("https://hub.docker.com" ++ "/u/" ++ "/")
     = "https://hub.docker.com" ++ "/u".
Proof.
  destruct (user_name_of_a_hub_address "https://hub.docker.com" "/" eq_refl eq_refl)
    as [Hname Hnone].
  split; [|exact Hnone].
  apply Hname; [discriminate|reflexivity].
Defined.

(** ** The requests of the listings *)

(** X6 on a listing of the user's repositories in two pages: the second
    page is asked for at the address the first one links to; and on the
    profile of [zoe], listed without a token. *)
Lemma github_listings_follow_the_links_witness :
  get_user_repos Sample.py_repr "tok123" Sample.world_two_pages
  = (Ret ["https://github.com/zoe/site"; "https://github.com/zoe/site";
          "https://github.com/zoe/app"],
     after_requests
       [user_repos_request "tok123";
        Request GET "https://api.github.com/user/repos?page=2"
          [("Authorization", "token tok123")] [] []]
       [] Sample.world_two_pages)
  /\ get_profile_repos Py.url_path Sample.py_repr "https://github.com/zoe/" None
       Sample.world_other
     = (Ret ["https://github.com/zoe/site"; "https://github.com/zoe/app"],
        after_requests
          [Request GET "https://api.github.com/users/zoe/repos" []
             [("per_page", "100")] []]
          [] Sample.world_other).
Proof.
  split.
  - destruct (github_listings_follow_the_links Py.url_path Sample.py_repr
                Sample.world_two_pages []) as (Hrepos & _ & _).
    apply (Hrepos "tok123" [(Sample.first_page, ["https://github.com/zoe/site"])]
             Sample.repositories_A
             ["https://github.com/zoe/site"; "https://github.com/zoe/app"]).
    + repeat constructor. eexists _, _. repeat split; reflexivity.
    + split; [reflexivity|]. eexists _, _. repeat split; reflexivity.
    + reflexivity.
    + reflexivity.
  - destruct (github_listings_follow_the_links Py.url_path Sample.py_repr
                Sample.world_other []) as (_ & _ & Hprofile).
    apply (Hprofile "https://github.com/zoe/" None "/zoe/" [] Sample.repositories_A
             ["https://github.com/zoe/site"; "https://github.com/zoe/app"]).
    + reflexivity.
    + reflexivity.
    + constructor.
    + split; [reflexivity|]. eexists _, _. repeat split; reflexivity.
    + reflexivity.
    + reflexivity.
Defined.

(** X7 on a Docker Hub listing in two pages. *)
Lemma hub_listing_follows_next_witness :
  list_repositories Sample.py_repr "alice" (JStr "jwt") Sample.world_hub
  = (Ret [JStr "app"; JStr "web"],
     after_requests
       [Request GET "https://hub.docker.com/v2/repositories/alice/"
          [("Authorization", "JWT jwt")] [] [];
        Request GET "https://hub.docker.com/v2/repositories/alice/?page=2"
          [("Authorization", "JWT jwt")] [] []]
       [] Sample.world_hub).
Proof.
  apply (hub_listing_follows_next Sample.py_repr "alice" (JStr "jwt") Sample.world_hub
           [(Sample.hub_first, [JStr "app"])] Sample.hub_last [JStr "web"] JNull []).
  - repeat constructor. eexists. split.
    + split; [reflexivity|]. eexists _, _, _. repeat split; reflexivity.
    + reflexivity.
  - split; [reflexivity|]. eexists _, _, _. repeat split; reflexivity.
  - reflexivity.
  - reflexivity.
Defined.

(** X8 on a tag listing in two pages: the first page is answered with the
    status 203 and names page 7 as the next one; the second page asked
    for is page 2 all the same. *)
Lemma tag_listing_counts_its_pages_witness :
  get_container_tags "alice/app" collect [] Sample.world_two_tag_pages
  = (Ret [Sample.tag_record "v0" ["sha256:000"];
          Sample.tag_record "v1" ["sha256:aaa"];
          Sample.tag_record "v1.sig" ["sha256:bbb"]],
     after_requests
       [Request GET (dockerhub_tag_endpoint "alice/app" 1) [] [] [];
        Request GET (dockerhub_tag_endpoint "alice/app" 2) [] [] []]
       [] Sample.world_two_tag_pages).
Proof.
  apply (tag_listing_counts_its_pages "alice/app" Sample.world_two_tag_pages
           [(Sample.tags_first_response, [Sample.tag_record "v0" ["sha256:000"]])]
           Sample.tags_B_response
           [Sample.tag_record "v1" ["sha256:aaa"];
            Sample.tag_record "v1.sig" ["sha256:bbb"]] JNull []).
  - repeat constructor. eexists. split.
    + eexists _, _. repeat split; reflexivity.
    + reflexivity.
  - eexists _, _. repeat split; reflexivity.
  - reflexivity.
  - reflexivity.
Defined.

(** X9 on a repository that Docker Hub does not know, and on an answer
    without a body. *)
Lemma tag_page_that_is_no_listing_witness :
  scan_repository Sample.json_loads Sample.scanner_reports Sample.py_repr true
    "alice/gone" [] Sample.world_not_found
  = (Ret [],
     after_requests [Request GET (dockerhub_tag_endpoint "alice/gone" 1) [] [] []] []
       (set_stdout (stdout Sample.world_not_found ++ [scanning_line "alice/gone"])
          Sample.world_not_found))
  /\ exists msg,
       for_each ["alice/gone"; "alice/app"]
         (scan_repository Sample.json_loads Sample.scanner_reports Sample.py_repr true)
         [] Sample.world_failing_hub
       = (Stop (Raised (Exn JSONDecodeError msg)),
          after_requests [Request GET (dockerhub_tag_endpoint "alice/gone" 1) [] [] []] []
            (set_stdout (stdout Sample.world_failing_hub ++ [scanning_line "alice/gone"])
               Sample.world_failing_hub)).
Proof.
  split.
  - exact (proj1 (tag_page_that_is_no_listing
                    Sample.json_loads Sample.scanner_reports Sample.py_repr
                    "alice/gone" [] [] Sample.world_not_found
                    Sample.not_found_page [] eq_refl)
             [("message", JStr "object not found")] eq_refl eq_refl eq_refl).
  - exact (proj2 (tag_page_that_is_no_listing
                    Sample.json_loads Sample.scanner_reports Sample.py_repr
                    "alice/gone" ["alice/app"] [] Sample.world_failing_hub
                    Sample.failed_page [] eq_refl)
             eq_refl).
Defined.

(** ** The pauses between the scans *)

(** X10 on scenario B: one digest is scanned, and the script sleeps once. *)
Lemma one_pause_after_each_digest_witness :
  exists w',
    scan_repository Sample.json_loads Sample.scanner_reports Sample.py_repr true
      "alice/app" [] Sample.world_tags_B
    = (Ret ([] ++ concat [[Sample.empty_row]])%list, w')
    /\ naps w'
       = (naps Sample.world_tags_B
          + length (kept_images Sample.py_repr "alice/app"
                      (gathered []
                       ++ [TagView "v1" [JStr "sha256:aaa"];
                           TagView "v1.sig" [JStr "sha256:bbb"]])))%nat
    /\ fs w' = fs Sample.world_tags_B.
Proof.
  destruct (one_pause_after_each_digest
              Sample.json_loads Sample.scanner_reports Sample.py_repr
              "alice/app" [] Sample.world_tags_B) as [Hall _].
  apply (Hall [] Sample.tags_B_response
           [TagView "v1" [JStr "sha256:aaa"]; TagView "v1.sig" [JStr "sha256:bbb"]]
           JNull [] [[Sample.empty_row]]).
  - constructor.
  - eexists _, _, _. split; [reflexivity|]. split; [reflexivity|].
    split; [reflexivity|]. split; [|reflexivity].
    repeat constructor; eexists _, _; repeat split; reflexivity.
  - reflexivity.
  - reflexivity.
  - repeat constructor.
Defined.

(** ** The extra data of a finding *)

(** X11 on a finding whose [ExtraData] is the empty text, and on one
    where it is a text that is not empty. *)
Lemma extra_data_of_a_finding_witness :
  (exists r,
      parse_docker_finding "alice/app" (JObj [("ExtraData", JStr "")]) = Ret r
      /\ rotation_guide r = JStr "" /\ version r = JStr "")
  /\ exists e,
       parse_docker_finding "alice/app" (JObj [("ExtraData", JStr "by hand")])
       = Stop (Raised e)
       /\ exn_cls e = AttributeError.
Proof.
  split.
  - exact (proj1 (extra_data_of_a_finding "alice/app" [("ExtraData", JStr "")] []
                    (JStr "") eq_refl eq_refl) eq_refl).
  - apply (proj2 (proj2 (extra_data_of_a_finding "alice/app"
                           [("ExtraData", JStr "by hand")] []
                           (JStr "by hand") eq_refl eq_refl)));
      [reflexivity|discriminate].
Defined.

(** ** The export of the GitHub findings *)

(** X12 on a results file that holds one finding among other lines,
    exported to [output.xlsx] and to [output]. *)
Lemma github_export_writes_the_parsed_rows_witness :
  save_to_excel_github Sample.json_loads Sample.excel_writer "results.txt" "output.xlsx"
    Sample.world_one_finding
  = (Ret tt,
     set_stdout
       (stdout Sample.world_one_finding ++ [saved_line "GitHub" "output.xlsx" 1])
       (set_fs (<["output.xlsx" := GithubSheet [Sample.empty_github_row]]>
                  (fs Sample.world_one_finding))
          Sample.world_one_finding))
  /\ save_to_excel_github Sample.json_loads Sample.excel_writer "results.txt" "output"
       Sample.world_one_finding
     = (Stop (Raised (Exn ValueError "No engine for filetype")),
        after_refusal "output" None Sample.world_one_finding).
Proof.
  split.
  - exact (proj1 (github_export_writes_the_parsed_rows Sample.json_loads
                    Sample.excel_writer "results.txt" "output.xlsx"
                    ("scanning" ++ Py.nl ++ "{}" ++ Py.nl)
                    Sample.empty_github_row [] Sample.world_one_finding
                    eq_refl eq_refl) eq_refl).
  - exact (proj2 (github_export_writes_the_parsed_rows Sample.json_loads
                    Sample.excel_writer "results.txt" "output"
                    ("scanning" ++ Py.nl ++ "{}" ++ Py.nl)
                    Sample.empty_github_row [] Sample.world_one_finding
                    eq_refl eq_refl)
             (Exn ValueError "No engine for filetype") None eq_refl).
Defined.

(** X13 on a results file that holds a number. *)
Lemma github_export_of_a_line_that_is_no_dictionary_witness :
  exists e,
    save_to_excel_github Sample.json_loads_number Sample.excel_writer
      "results.txt" "output.xlsx"
      Sample.world_number
    = (Stop (Raised e), Sample.world_number)
    /\ exn_cls e = AttributeError.
Proof.
  exact (github_export_of_a_line_that_is_no_dictionary Sample.json_loads_number Sample.excel_writer
           "results.txt" "output.xlsx" ("7" ++ Py.nl) ("7" ++ Py.nl) (JNum 7)
           Sample.world_number eq_refl (or_introl eq_refl) eq_refl eq_refl I).
Defined.

(** ** The scans of a list of repositories *)

(** X14 on a file that names one repository between blank lines, and on
    a file that is not there. *)
Lemma scan_of_the_repositories_of_a_file_witness :
  scan_other_repos Sample.scanner_reports "repos.txt" Sample.world_other
  = (Ret [scan_output Sample.scanner_reports
            (plain_scan_cmd "https://github.com/zoe/app")],
     after_scans ["Scanning repository: https://github.com/zoe/app"]
       [plain_scan_cmd "https://github.com/zoe/app"] Sample.world_other)
  /\ exists e,
       scan_other_repos Sample.scanner_reports "missing.txt" Sample.world_other
       = (Stop (Raised e), Sample.world_other)
       /\ exn_cls e = FileNotFoundError.
Proof.
  split.
  - apply (proj1 (scan_of_the_repositories_of_a_file Sample.scanner_reports
                    "repos.txt" Sample.world_other)
             (Py.nl ++ "  https://github.com/zoe/app" ++ Py.nl ++ Py.nl)).
    + reflexivity.
    + repeat constructor. eexists _, _. reflexivity.
  - exact (proj2 (scan_of_the_repositories_of_a_file Sample.scanner_reports
                    "missing.txt" Sample.world_other) eq_refl).
Defined.

(** ** What each mode needs *)

(** X15: the user's own scan with Docker credentials only, the two
    other GitHub modes without a file, and a Docker mode with a token
    only. *)
Lemma what_a_mode_needs_is_tested_first_witness :
  main Sample.yaml_safe_load Sample.json_loads Py.url_path Sample.scanner_reports
    Sample.py_repr Sample.excel_writer Sample.args_A Sample.world_B
  = (Stop (Exited 1),
     set_stdout (stdout Sample.world_B ++ ["GitHub token not found in cred.conf"])
       Sample.world_B)
  /\ main Sample.yaml_safe_load Sample.json_loads Py.url_path Sample.scanner_reports
       Sample.py_repr Sample.excel_writer (Sample.args_other None) Sample.world_B
     = (Stop (Exited 1),
        set_stdout
          (stdout Sample.world_B ++ ["Error: --git-other requires -f <repos.txt>"])
          Sample.world_B)
  /\ main Sample.yaml_safe_load Sample.json_loads Py.url_path Sample.scanner_reports
       Sample.py_repr Sample.excel_writer (Sample.args_profiles None) Sample.world_B
     = (Stop (Exited 1),
        set_stdout
          (stdout Sample.world_B ++ ["Error: --git-profile requires -f <profile.txt>"])
          Sample.world_B)
  /\ main Sample.yaml_safe_load Sample.json_loads Py.url_path Sample.scanner_reports
       Sample.py_repr Sample.excel_writer Sample.args_B Sample.world_A
     = (Stop (Exited 1),
        set_stdout
          (stdout Sample.world_A ++ ["Docker credentials not found in cred.conf"])
          Sample.world_A).
Proof.
  split; [|split; [|split]].
  - destruct (what_a_mode_needs_is_tested_first
                Sample.yaml_safe_load Sample.json_loads Py.url_path
                Sample.scanner_reports Sample.py_repr Sample.excel_writer
                  Sample.args_A Sample.world_B
                None (Some "alice") (Some "secret") eq_refl) as (H & _).
    exact (H eq_refl eq_refl).
  - destruct (what_a_mode_needs_is_tested_first
                Sample.yaml_safe_load Sample.json_loads Py.url_path
                Sample.scanner_reports Sample.py_repr Sample.excel_writer
                  (Sample.args_other None)
                Sample.world_B None (Some "alice") (Some "secret") eq_refl)
      as (_ & H & _).
    exact (H eq_refl eq_refl eq_refl).
  - destruct (what_a_mode_needs_is_tested_first
                Sample.yaml_safe_load Sample.json_loads Py.url_path
                Sample.scanner_reports Sample.py_repr Sample.excel_writer
                  (Sample.args_profiles None)
                Sample.world_B None (Some "alice") (Some "secret") eq_refl)
      as (_ & _ & H & _).
    exact (H eq_refl eq_refl eq_refl eq_refl).
  - destruct (what_a_mode_needs_is_tested_first
                Sample.yaml_safe_load Sample.json_loads Py.url_path
                Sample.scanner_reports Sample.py_repr Sample.excel_writer
                  Sample.args_B Sample.world_A
                (Some "tok123") None None eq_refl) as (_ & _ & _ & H).
    exact (H eq_refl eq_refl eq_refl eq_refl eq_refl).
Defined.

(** ** The login at Docker Hub *)

(** X16 on a login that is refused with a 500, and on one that is
    accepted. *)
Lemma login_at_docker_hub_witness :
  get_docker_token "alice" "secret" Sample.world_login_refused
  = (Stop (Exited 1),
     set_stdout
       (stdout Sample.world_login_refused ++ [login_failed_line Sample.failed_page])
       (after_requests [login_request "alice" "secret"] [] Sample.world_login_refused))
  /\ get_docker_token "alice" "secret" Sample.world_login
     = (Ret (JStr "jwt"),
        after_requests [login_request "alice" "secret"] [] Sample.world_login).
Proof.
  split.
  - destruct (login_at_docker_hub Sample.py_repr "alice" "secret"
                Sample.world_login_refused Sample.failed_page [] eq_refl)
      as (H & _).
    apply H. discriminate.
  - destruct (login_at_docker_hub Sample.py_repr "alice" "secret"
                Sample.world_login Sample.login_page [] eq_refl)
      as (_ & H & _).
    exact (H eq_refl [("token", JStr "jwt")] eq_refl).
Defined.

(** ** A token that GitHub does not accept *)

(** X17 on scenario A with both listings answered with a 500. *)
Lemma refused_listings_read_as_nothing_found_witness :
  main Sample.yaml_safe_load Sample.json_loads Py.url_path Sample.scanner_reports
    Sample.py_repr Sample.excel_writer Sample.args_A Sample.world_refused
  = (Ret tt,
     set_fs (<["org.txt" := TextFile "No organizations found."]>
               (<["personal.txt" := TextFile "No personal repositories found."]>
                  (fs Sample.world_refused)))
       (after_requests [user_repos_request "tok123"; orgs_request "tok123"] []
          (set_stdout (stdout Sample.world_refused ++ [step_1_line])
             Sample.world_refused))).
Proof.
  apply (refused_listings_read_as_nothing_found
           Sample.yaml_safe_load Sample.json_loads Py.url_path
           Sample.scanner_reports Sample.py_repr Sample.excel_writer
             Sample.args_A Sample.world_refused
           "tok123" None None Sample.failed_page Sample.failed_page []);
    try reflexivity; discriminate.
Defined.

(** ** Whole runs *)

(** X19 on the file that names [alice/app]: its latest image is scanned
    and the one finding makes the sheet [output.xlsx]; with [output] for
    the output file the run ends with the exception of the writer. *)
Lemma run_over_a_file_of_docker_repositories_witness :
  (exists w',
      main Sample.yaml_safe_load Sample.json_loads Py.url_path Sample.scanner_reports
        Sample.py_repr Sample.excel_writer Sample.args_docker_file Sample.world_login
      = (Ret tt, w')
      /\ sent w' = (sent Sample.world_login ++ [login_request "alice" "secret"])%list
      /\ net w' = []
      /\ spawned w'
         = (spawned Sample.world_login
            ++ map (fun repo => docker_scan_cmd (repo ++ ":latest"))
                 (stripped_lines (Py.universal_newlines ("alice/app" ++ Py.nl))))%list
      /\ fs w'
         = with_docker_sheet (output Sample.args_docker_file)
             (concat [[Sample.empty_row]])
             (with_image_list
                (stripped_lines (Py.universal_newlines ("alice/app" ++ Py.nl)))
                (fs Sample.world_login)))
  /\ exists w',
       main Sample.yaml_safe_load Sample.json_loads Py.url_path Sample.scanner_reports
         Sample.py_repr Sample.excel_writer Sample.args_docker_plain Sample.world_login
       = (Stop (Raised (Exn ValueError "No engine for filetype")), w')
       /\ spawned w'
          = (spawned Sample.world_login
             ++ map (fun repo => docker_scan_cmd (repo ++ ":latest"))
                  (stripped_lines (Py.universal_newlines ("alice/app" ++ Py.nl))))%list
       /\ fs w'
          = with_image_list
              (stripped_lines (Py.universal_newlines ("alice/app" ++ Py.nl)))
              (fs Sample.world_login).
Proof.
  split.
  - destruct (run_over_a_file_of_docker_repositories
                Sample.yaml_safe_load Sample.json_loads Py.url_path
                Sample.scanner_reports Sample.py_repr
                Sample.excel_writer Sample.args_docker_file Sample.world_login None
                "alice" "secret" "repos.txt" ("alice/app" ++ Py.nl)
                Sample.login_page [("token", JStr "jwt")] [] [[Sample.empty_row]])
      as [Hsaved _]; try reflexivity.
    + repeat constructor.
    + apply Hsaved. intros _ _. reflexivity.
  - destruct (run_over_a_file_of_docker_repositories
                Sample.yaml_safe_load Sample.json_loads Py.url_path
                Sample.scanner_reports Sample.py_repr
                Sample.excel_writer Sample.args_docker_plain Sample.world_login None
                "alice" "secret" "repos.txt" ("alice/app" ++ Py.nl)
                Sample.login_page [("token", JStr "jwt")] [] [[Sample.empty_row]])
      as [_ Hrefused]; try reflexivity.
    + repeat constructor.
    + apply Hrefused; [reflexivity|discriminate|reflexivity].
Defined.

(** X20 on a file that names the profile of [zoe], whose listing has one
    page: the listing runs no command, and the two repositories are
    scanned after it. *)
Lemma profiles_are_listed_before_any_scan_witness :
  exists w1,
    list_profiles Py.url_path Sample.py_repr None ["https://github.com/zoe/"]
      Sample.world_other
    = (Ret ["https://github.com/zoe/site"; "https://github.com/zoe/app"], w1)
    /\ spawned w1 = spawned Sample.world_other
    /\ fs w1 = fs Sample.world_other
    /\ scan_profile_repos Py.url_path Sample.scanner_reports Sample.py_repr
         "profiles.txt" None Sample.world_other
       = (Ret (map (fun repo => scan_output Sample.scanner_reports (plain_scan_cmd repo))
                 ["https://github.com/zoe/site"; "https://github.com/zoe/app"]),
          after_scans
            (map (fun repo => "Scanning repository: " ++ repo)
               ["https://github.com/zoe/site"; "https://github.com/zoe/app"])
            (map plain_scan_cmd
               ["https://github.com/zoe/site"; "https://github.com/zoe/app"])
            w1).
Proof.
  destruct (profiles_are_listed_before_any_scan
              Py.url_path Sample.scanner_reports Sample.py_repr
              "profiles.txt" None ("https://github.com/zoe/" ++ Py.nl)
              Sample.world_other eq_refl) as (Hquiet & _ & Hscans).
  eexists. split; [reflexivity|].
  split; [|split].
  - exact (proj1 (Hquiet _ _ eq_refl)).
  - exact (proj2 (Hquiet _ _ eq_refl)).
  - apply Hscans; [reflexivity|].
    repeat constructor; eexists _, _; reflexivity.
Defined.

(** X21 on scenario A. *)
Lemma own_scan_in_general_witness :
  exists w',
    scan_my_repos_and_orgs Sample.scanner_reports Sample.py_repr "tok123" Sample.world_A
    = (Ret (map (scan_output Sample.scanner_reports)
              [org_scan_cmd "tok123" "acme";
               repo_scan_cmd "tok123" "https://github.com/zoe/site";
               repo_scan_cmd "tok123" "https://github.com/zoe/app"]),
       w')
    /\ spawned w'
       = [org_scan_cmd "tok123" "acme";
          repo_scan_cmd "tok123" "https://github.com/zoe/site";
          repo_scan_cmd "tok123" "https://github.com/zoe/app"]
    /\ fs w' !! "personal.txt"
       = Some (TextFile
                 (Py.join Py.nl
                    (Py.sorted ["https://github.com/zoe/site";
                                "https://github.com/zoe/app"])))
    /\ fs w' !! "org.txt" = Some (TextFile (Py.join Py.nl (Py.sorted ["acme"]))).
Proof.
  destruct (own_scan_in_general Sample.scanner_reports Sample.py_repr "tok123"
              Sample.world_A [] Sample.repositories_A
              ["https://github.com/zoe/site"; "https://github.com/zoe/app"]
              [] Sample.organizations_A [JStr "acme"] ["acme"] [])
    as (w' & Hrun & Hspawned & _ & Hpersonal & Horg & _).
  - constructor.
  - split; [reflexivity|]. eexists _, _. repeat split; reflexivity.
  - reflexivity.
  - constructor.
  - split; [reflexivity|]. eexists _, _. repeat split; reflexivity.
  - reflexivity.
  - reflexivity.
  - reflexivity.
  - repeat constructor; eexists _, _; reflexivity.
  - exists w'. split; [exact Hrun|]. split; [exact Hspawned|].
    split; [exact Hpersonal|exact Horg].
Defined.

(** X22 on the file that names one repository between blank lines: the
    one JSON line of the output of its scan makes the sheet. *)
Lemma run_over_a_file_of_github_repositories_witness :
  exists w',
    main Sample.yaml_safe_load Sample.json_loads Py.url_path Sample.scanner_reports
      Sample.py_repr Sample.excel_writer
        (Sample.args_other (Some "repos.txt")) Sample.world_other
    = (Ret tt, w')
    /\ spawned w' = [plain_scan_cmd "https://github.com/zoe/app"]
    /\ sent w' = []
    /\ fs w'
       = <["output.xlsx" := GithubSheet [Sample.empty_github_row]]>
           (<["results.txt" :=
                TextFile ("scanning" ++ Py.nl ++ "{}" ++ Py.nl ++ "done" ++ Py.nl)]>
              (fs Sample.world_other)).
Proof.
  destruct (run_over_a_file_of_github_repositories
              Sample.yaml_safe_load Sample.json_loads Py.url_path
              Sample.scanner_reports Sample.py_repr
              Sample.excel_writer (Sample.args_other (Some "repos.txt")) Sample.world_other
              (Some "tok123") None None "repos.txt"
              (Py.nl ++ "  https://github.com/zoe/app" ++ Py.nl ++ Py.nl)
              eq_refl eq_refl eq_refl eq_refl eq_refl eq_refl eq_refl)
    as (_ & Hrun).
  - repeat constructor. eexists _, _. reflexivity.
  - exact (Hrun [Sample.empty_github_row] ltac:(discriminate) eq_refl
             (fun _ _ => eq_refl)).
Defined.

(** X23 on the profile of [alice], whose listing has two pages. *)
Lemma run_over_a_docker_profile_witness :
  exists w',
    main Sample.yaml_safe_load Sample.json_loads Py.url_path Sample.scanner_reports
      Sample.py_repr Sample.excel_writer Sample.args_docker_profile Sample.world_docker_profile
    = (Ret tt, w')
    /\ sent w'
       = [login_request "alice" "secret";
          Request GET "https://hub.docker.com/v2/repositories/alice/"
            [("Authorization", "JWT jwt")] [] [];
          Request GET "https://hub.docker.com/v2/repositories/alice/?page=2"
            [("Authorization", "JWT jwt")] [] []]
    /\ net w' = []
    /\ spawned w'
       = [docker_scan_cmd "alice/app:latest"; docker_scan_cmd "alice/web:latest"]
    /\ fs w'
       = <["output.xlsx" :=
             DockerSheet
               [Sample.empty_row;
                DockerRow (JStr "alice/web") (JStr "") (JStr "") (JStr "") (JStr "")
                  (JStr "") (JStr "") (JStr "") (JStr "") (JBool false) (JStr "")
                  (JStr "")]]>
           (<["image.txt" := TextFile ("alice/app" ++ Py.nl ++ "alice/web" ++ Py.nl)]>
              (fs Sample.world_docker_profile)).
Proof.
  apply (run_over_a_docker_profile
           Sample.yaml_safe_load Sample.json_loads Py.url_path
           Sample.scanner_reports Sample.py_repr
           Sample.excel_writer Sample.args_docker_profile Sample.world_docker_profile None
           "alice" "secret" "profile.txt" ("https://hub.docker.com/u/alice/" ++ Py.nl)
           Sample.login_page [("token", JStr "jwt")]
           [(Sample.hub_first, [JStr "app"])] Sample.hub_last [JStr "web"] JNull []
           [[Sample.empty_row];
            [DockerRow (JStr "alice/web") (JStr "") (JStr "") (JStr "") (JStr "")
               (JStr "") (JStr "") (JStr "") (JStr "") (JBool false) (JStr "")
               (JStr "")]]);
    try reflexivity.
  - repeat constructor. eexists. split.
    + split; [reflexivity|]. eexists _, _, _. repeat split; reflexivity.
    + reflexivity.
  - split; [reflexivity|]. eexists _, _, _. repeat split; reflexivity.
  - repeat constructor.
Defined.

(** ** A finding that is no dictionary *)

